(** * Stock_Market_Predictor: the data preparation of [data_process.py]

    A shallow embedding of the windowing, date-range and symbol splitting
    and augmentation routines of [src/data_process.py], with the properties
    of the specification stated and proved over it.

    Conventions of the embedding:
    - Python integers are [Z]; list and array lengths are converted with
      [Z.of_nat].  Slices follow CPython's index adjustment, negative
      indices included, because the source relies on the sentinel [-1].
    - An exception is a value of [exn]; a computation that can raise has
      type [result A].
    - A numpy array of shape (N, M) is a list of N rows, each a list of M
      cells; the cell type [F] (float32 in the source) is a parameter, no
      routine of the module inspects a cell.
    - A Python float is a binary64 value of [spec_float].
    - The file system, the global generator of the [random] module and the
      state that an augmentation function may use are parameters, threaded
      explicitly. *)

From Stdlib Require Import String Ascii ZArith List Lia Bool Permutation.
From Stdlib Require Import Floats.SpecFloat.
Import ListNotations.

Open Scope Z_scope.

(* ================================================================== *)
(** * The Python runtime the module relies on *)
(* ================================================================== *)

Module Py.

(** The exceptions the modelled code can raise. *)
Inductive exn : Type :=
| ValueError
| IndexError
| OverflowError
| OSError.

Inductive result (A : Type) : Type :=
| Ok (a : A)
| Raise (e : exn).

Arguments Ok {A} a.
Arguments Raise {A} e.

Definition bind {A B : Type} (c : result A) (k : A -> result B) : result B :=
  match c with
  | Ok a => k a
  | Raise e => Raise e
  end.

Definition of_option {A : Type} (e : exn) (o : option A) : result A :=
  match o with
  | Some a => Ok a
  | None => Raise e
  end.

(** [len l] *)
Definition len {A : Type} (l : list A) : Z := Z.of_nat (length l).

(** [range(n)]: empty when [n <= 0]. *)
Definition range (n : Z) : list Z := map Z.of_nat (seq 0 (Z.to_nat n)).

(** CPython's [PySlice_AdjustIndices] for step 1: a negative bound counts
    from the end, and every bound is clipped to [0, n]. *)
Definition adjust_index (n i : Z) : Z :=
  if i <? 0 then Z.max 0 (i + n) else Z.min i n.

(** The half-open index range a slice [l[start:stop]] selects in a
    sequence of length [n]; [None] is an omitted bound. *)
Definition slice_range (n : Z) (start stop : option Z) : Z * Z :=
  (match start with Some s => adjust_index n s | None => 0 end,
   match stop with Some s => adjust_index n s | None => n end).

(** [l[start:stop]] *)
Definition slice {A : Type} (l : list A) (start stop : option Z) : list A :=
  let '(lo, hi) := slice_range (len l) start stop in
  firstn (Z.to_nat (hi - lo)) (skipn (Z.to_nat lo) l).

(** [l[i]], with Python's negative indexing and [IndexError]. *)
Definition getitem {A : Type} (l : list A) (i : Z) : result A :=
  let j := if i <? 0 then i + len l else i in
  if (0 <=? j) && (j <? len l)
  then of_option IndexError (nth_error l (Z.to_nat j))
  else Raise IndexError.

(** A [for] loop over a list of indices whose body can raise. *)
Fixpoint for_each {I S : Type} (body : I -> S -> result S) (idxs : list I) (s : S)
  : result S :=
  match idxs with
  | [] => Ok s
  | i :: rest => bind (body i s) (for_each body rest)
  end.

End Py.

Import Py.

Notation "'do' x <- c ; k" := (Py.bind c (fun x => k))
  (at level 10, x name, c at level 100, k at level 200).
Notation "'do' ' p <- c ; k" := (Py.bind c (fun x => match x with p => k end))
  (at level 10, p pattern, c at level 100, k at level 200).

(* ================================================================== *)
(** * [datetime.datetime.strptime(s, '%Y-%m-%d')] *)
(* ================================================================== *)

Module Datetime.

(** A parsed date; the time of day is always midnight for this format. *)
Record datetime : Type := mkdate { year : Z; month : Z; day : Z }.

Definition digit (c : ascii) : option Z :=
  let n := Z.of_N (N_of_ascii c) in
  if (48 <=? n) && (n <=? 57) then Some (n - 48) else None.

(** [%Y]: exactly four digits. *)
Definition parse_Y (s : list ascii) : option (Z * list ascii) :=
  match s with
  | a :: b :: c :: d :: rest =>
      match digit a, digit b, digit c, digit d with
      | Some a, Some b, Some c, Some d =>
          Some (1000 * a + 100 * b + 10 * c + d, rest)
      | _, _, _, _ => None
      end
  | _ => None
  end.

(** The numeric forms of [%m] and [%d]: one or two digits, as many as
    are there. *)
Definition parse_1_2 (s : list ascii) : option (Z * list ascii) :=
  match s with
  | a :: rest =>
      match digit a with
      | Some x =>
          match rest with
          | b :: rest' =>
              match digit b with
              | Some y => Some (10 * x + y, rest')
              | None => Some (x, rest)
              end
          | [] => Some (x, rest)
          end
      | None => None
      end
  | [] => None
  end.

(** [%d] also accepts a blank followed by one digit. *)
Definition parse_d (s : list ascii) : option (Z * list ascii) :=
  match s with
  | " "%char :: a :: rest =>
      match digit a with
      | Some x => Some (x, rest)
      | None => None
      end
  | _ => parse_1_2 s
  end.

Definition expect_dash (s : list ascii) : option (list ascii) :=
  match s with
  | "-"%char :: rest => Some rest
  | _ => None
  end.

Definition is_leap (y : Z) : bool :=
  (y mod 4 =? 0) && (negb (y mod 100 =? 0) || (y mod 400 =? 0)).

Definition days_in_month (y m : Z) : Z :=
  if m =? 2 then (if is_leap y then 29 else 28)
  else if (m =? 4) || (m =? 6) || (m =? 9) || (m =? 11) then 30
  else 31.

Definition valid_date (y m d : Z) : bool :=
  (1 <=? y) && (y <=? 9999) && (1 <=? m) && (m <=? 12)
  && (1 <=? d) && (d <=? days_in_month y m).

Definition parse_ymd (s : list ascii) : option datetime :=
  match parse_Y s with
  | Some (y, s1) =>
      match expect_dash s1 with
      | Some s2 =>
          match parse_1_2 s2 with
          | Some (m, s3) =>
              match expect_dash s3 with
              | Some s4 =>
                  match parse_d s4 with
                  | Some (d, []) =>
                      if valid_date y m d then Some (mkdate y m d) else None
                  | _ => None
                  end
              | None => None
              end
          | None => None
          end
      | None => None
      end
  | None => None
  end.

(** The call [datetime.datetime.strptime(s, '%Y-%m-%d')] on a string of
    ASCII characters; it raises [ValueError] on anything that is not a
    calendar date in that format. *)
Definition strptime (s : string) : result datetime :=
  of_option ValueError (parse_ymd (list_ascii_of_string s)).

(** [a >= b] on datetimes. *)
Definition ge (a b : datetime) : bool :=
  match year a ?= year b with
  | Gt => true
  | Lt => false
  | Eq =>
      match month a ?= month b with
      | Gt => true
      | Lt => false
      | Eq => day b <=? day a
      end
  end.

Definition lt (a b : datetime) : bool := negb (ge a b).

(** Non-decreasing calendar order of a series of dates. *)
Fixpoint nondecreasing (ds : list datetime) : bool :=
  match ds with
  | [] => true
  | d :: rest =>
      match rest with
      | [] => true
      | d' :: _ => ge d' d && nondecreasing rest
      end
  end.

End Datetime.

Import Datetime.

(* ================================================================== *)
(** * Python floats and [math.floor] *)
(* ================================================================== *)

Module PyFloat.

Definition prec : Z := 53.
Definition emax : Z := 1024.

(** A Python float: an IEEE 754 binary64 value. *)
Definition float : Type := spec_float.

(** The conversion of an [int] operand of a float operation: correctly
    rounded, [OverflowError] when the integer is out of range. *)
Definition of_int (n : Z) : result float :=
  match binary_normalize prec emax n 0 false with
  | S754_infinity _ => Raise OverflowError
  | f => Ok f
  end.

Definition mul (x y : float) : float := SFmul prec emax x y.

(** [x >= 0.0] *)
Definition nonneg (x : float) : bool := SFleb (S754_zero false) x.

(** [math.floor(x)]: [ValueError] on a NaN, [OverflowError] on an
    infinity. *)
Definition math_floor (x : float) : result Z :=
  match x with
  | S754_nan => Raise ValueError
  | S754_infinity _ => Raise OverflowError
  | S754_zero _ => Ok 0
  | S754_finite s m e =>
      let v := if s then Zneg m else Zpos m in
      Ok (if 0 <=? e then v * 2 ^ e else v / 2 ^ (- e))
  end.

(** [0.5] *)
Definition half : float := S754_finite false 4503599627370496 (-53).

End PyFloat.

(* ================================================================== *)
(** * A small concrete environment *)
(* ================================================================== *)

(** Two price files, integer cells, and a generator simple enough to
    compute with: the setting in which the general statements below are
    exercised on concrete inputs. *)
Module Sample.

Fixpoint digits_value (acc : Z) (s : list ascii) : option Z :=
  match s with
  | [] => Some acc
  | c :: rest =>
      match Datetime.digit c with
      | Some v => digits_value (10 * acc + v) rest
      | None => None
      end
  end.

(** Cells are written as unsigned decimal integers. *)
Definition float32 (s : string) : option Z :=
  match list_ascii_of_string s with
  | [] => None
  | l => digits_value 0 l
  end.

(** Rows dated in 2010, 2011 and 2012. *)
Definition file_v : list (list string) :=
  [ ["Date"; "Close"];
    ["2010-01-04"; "1"];
    ["2010-01-05"; "2"];
    ["2010-01-06"; "3"];
    ["2011-01-03"; "4"];
    ["2011-01-04"; "5"];
    ["2011-01-05"; "6"];
    ["2012-01-03"; "7"] ]%string.

Definition file_w : list (list string) :=
  [ ["Date"; "Close"];
    ["2010-03-01"; "11"];
    ["2010-03-02"; "12"];
    ["2010-03-03"; "13"];
    ["2011-03-01"; "14"] ]%string.

Definition read_csv (path : string) : result (list (list string)) :=
  if String.eqb path "data/v.txt" then Ok file_v
  else if String.eqb path "data/w.txt" then Ok file_w
  else Raise OSError.

Definition listdir (directory : string) : result (list string) :=
  if String.eqb directory "data" then Ok ["v.txt"; "w.txt"]%string
  else Raise OSError.

(** A generator: its state is a counter. *)
Definition rng : Type := Z.
Definition seed_state (a : Z) : rng := a.
Definition shuffle (A : Type) (l : list A) (g : rng) : list A * rng :=
  (rev l, g + 1).
Definition randint (a b : Z) (g : rng) : Z * rng :=
  (a + g mod (b - a + 1), g + 1).

(** An augmentation function that counts its calls and swaps the two
    halves of the pair. *)
Definition swap_point (point : list (list Z) * list (list Z)) (calls : Z)
  : (list (list Z) * list (list Z)) * Z :=
  ((snd point, fst point), calls + 1).

(** The dates of the __main__ block of [data_process.py]. *)
Definition train_start : string := "2010-01-01".
Definition train_end : string := "2011-01-01".
Definition val_start : string := "2011-01-01".
Definition val_end : string := "2012-01-01".
Definition test_start : string := "2012-01-01".
Definition test_end : string := "2013-01-01".

(** A series of seven rows that reaches every boundary. *)
Definition seven_dates : list string :=
  [ "2010-06-01"; "2010-12-01"; "2011-03-01"; "2011-09-01";
    "2012-02-01"; "2012-08-01"; "2013-01-02" ]%string.
Definition seven_rows : list (list Z) :=
  [[1]; [2]; [3]; [4]; [5]; [6]; [7]].

Definition four_rows : list (list Z) := [[1]; [2]; [3]; [4]].

Definition ten_names : list string :=
  [ "a"; "b"; "c"; "d"; "e"; "f"; "g"; "h"; "i"; "j" ]%string.

(** A series that starts before the training range and has a row
    between the end of the training range and the start of the
    validation range, for the default dates of
    [date_make_train_val_test_data]. *)
Definition gap_dates : list string :=
  [ "1999-12-31"; "2013-12-31"; "2014-01-01"; "2014-01-02";
    "2015-06-01"; "2015-06-02" ]%string.
Definition gap_rows : list (list Z) := [[1]; [2]; [3]; [4]; [5]; [6]].

Definition four_points : list (list (list Z) * list (list Z)) :=
  [ ([[1]], [[2]]); ([[3]], [[4]]); ([[5]], [[6]]); ([[7]], [[8]]) ].

(** The file read by the [__main__] block of [train.py]: a header of
    seven columns and 38 rows. *)
Definition aadr_file : list (list string) :=
  ["Date"; "Open"; "High"; "Low"; "Close"; "Volume"; "OpenInt"]%string
  :: repeat ["2010-07-21"; "24"; "25"; "23"; "24"; "1820"; "0"]%string 38.

Definition read_csv_etfs (path : string) : result (list (list string)) :=
  if String.eqb path "./data/ETFs/aadr.us.txt" then Ok aadr_file
  else Raise OSError.

(** A series that ends before 2010. *)
Definition early_dates : list string :=
  [ "2008-01-02"; "2009-01-02"; "2009-06-01" ]%string.

(** A series in which a row is dated in the validation range of the
    sample dates right after the training range. *)
Definition six_dates : list string :=
  [ "2010-06-01"; "2011-01-03"; "2011-03-01"; "2011-09-01";
    "2012-02-01"; "2012-08-01" ]%string.
Definition six_rows : list (list Z) := [[1]; [2]; [3]; [4]; [5]; [6]].

Definition five_names : list string := [ "a"; "b"; "c"; "d"; "e" ]%string.

End Sample.

(* ================================================================== *)
(** * [data_process.py] *)
(* ================================================================== *)

Module DataProcess.

Section Model.

(** The cell type of the numeric arrays (float32 in the source). *)
Variable F : Type.

(** The environment of the module: [csv.reader] over an opened file,
    numpy's conversion of a field to float32, and [os.listdir]. *)
Variable read_csv : string -> result (list (list string)).
Variable float32 : string -> option F.
Variable listdir : string -> result (list string).

(** The global generator of the [random] module: [random.seed(a)]
    replaces its state by one that depends on [a] only;
    [random.shuffle] and [random.randint] read and advance it. *)
Variable rng : Type.
Variable random_seed_state : Z -> rng.
Variable random_shuffle : forall A : Type, list A -> rng -> list A * rng.
Variable random_randint : Z -> Z -> rng -> Z * rng.

Hypothesis random_shuffle_permutation :
  forall (A : Type) (l : list A) (g : rng),
    Permutation l (fst (random_shuffle A l g)).
Hypothesis random_randint_range :
  forall (a b : Z) (g : rng),
    a <= b -> a <= fst (random_randint a b g) <= b.

(** Whatever an augmentation function reads and changes besides its
    argument (the generator of [torch.randn] for the default one). *)
Variable W : Type.

Definition array : Type := list (list F).
Definition tensor : Type := list (list F).
Definition x_t_pair : Type := (tensor * tensor)%type.

(** [a.shape == (n, m)] for a two-dimensional array. *)
Definition has_shape (a : list (list F)) (n m : Z) : Prop :=
  len a = n /\ Forall (fun row => len row = m) a.

(** [torch.from_numpy]: a tensor over the same cells. *)
Definition from_numpy (a : array) : tensor := a.

(** [data[:,:-2]] *)
Definition remove_volume_open_interest (data : array) : array :=
  map (fun row => slice row None (Some (-2))) data.

Fixpoint map_result {A B : Type} (f : A -> result B) (l : list A)
  : result (list B) :=
  match l with
  | [] => Ok []
  | a :: rest =>
      do b <- f a;
      do bs <- map_result f rest;
      Ok (b :: bs)
  end.

(** [load_price_data_into_numpy_array].  [np.array] over the rows of the
    file needs them to have one length, and column 0 to exist. *)
Definition load_price_data_into_numpy_array
    (file_name file_path : string)
    (process_data : option (array -> result array))
  : result (list string * array) :=
  let path := (file_path ++ "/" ++ file_name)%string in
  do rows <- read_csv path;
  match rows with
  | [] => Raise IndexError
  | header :: _ =>
      let M := length header in
      if negb (forallb (fun r => Nat.eqb (length r) M) rows) then
        Raise ValueError
      else if Nat.eqb M 0 then Raise IndexError
      else
        let array_list := slice rows (Some 1) None in
        let dates_array :=
          map (fun r => substring 0 10 (hd EmptyString r)) array_list in
        do data_array <-
          map_result
            (fun r => map_result (fun c => of_option ValueError (float32 c))
                        (tl r))
            array_list;
        do data_array <-
          match process_data with
          | Some f => f data_array
          | None => Ok data_array
          end;
        Ok (dates_array, data_array)
  end.

(** [make_x_t_tuple_tensor_pairs_in_place] *)
Definition make_x_t_tuple_tensor_pairs_in_place
    (data : array) (input_length output_length : Z) : list x_t_pair :=
  let N := len data in
  fold_left
    (fun x_t_pairs i =>
       let start := i in
       let end_ := i + input_length in
       let x := from_numpy (slice data (Some start) (Some end_)) in
       let t := from_numpy (slice data (Some end_)
                              (Some (end_ + output_length))) in
       x_t_pairs ++ [(x, t)])
    (range (N - input_length - output_length))
    [].

(** ** Split by date *)

(** The six indices searched by [date_add_to_train_val_test]. *)
Record split_indices : Type := mk_split_indices {
  train_start_index : Z;
  train_end_index : Z;
  val_start_index : Z;
  val_end_index : Z;
  test_start_index : Z;
  test_end_index : Z
}.

Definition no_split_indices : split_indices :=
  mk_split_indices (-1) (-1) (-1) (-1) (-1) (-1).

(** One iteration of the search: the [if]/[elif] chain on row [i]. *)
Definition split_step
    (train_start_date train_end_date val_start_date val_end_date
       test_start_date test_end_date : datetime)
    (i : Z) (date_i : datetime) (s : split_indices) : split_indices :=
  let '(mk_split_indices ts te vs ve xs xe) := s in
  if ge date_i train_start_date && (ts =? -1) then
    mk_split_indices i te vs ve xs xe
  else if ge date_i train_end_date && (te =? -1) then
    mk_split_indices ts i vs ve xs xe
  else if ge date_i val_start_date && (vs =? -1) then
    mk_split_indices ts te i ve xs xe
  else if ge date_i val_end_date && (ve =? -1) then
    mk_split_indices ts te vs i xs xe
  else if ge date_i test_start_date && (xs =? -1) then
    mk_split_indices ts te vs ve i xe
  else if ge date_i test_end_date && (xe =? -1) then
    mk_split_indices ts te vs ve xs i
  else s.

(** The loop [for i in range(N)] of [date_add_to_train_val_test]. *)
Definition find_split_indices
    (date_data : list string) (N : Z)
    (train_start_date train_end_date val_start_date val_end_date
       test_start_date test_end_date : datetime)
  : result split_indices :=
  for_each
    (fun i s =>
       do date_str <- getitem date_data i;
       do date_i <- strptime date_str;
       Ok (split_step train_start_date train_end_date val_start_date
             val_end_date test_start_date test_end_date i date_i s))
    (range N) no_split_indices.

(** The bounds of the three slices taken once the indices are known:
    [data[train_start_index:train_end_index]],
    [data[val_start_index:val_end_index]] and [data[val_end_index:]]. *)
Definition train_bounds (s : split_indices) : option Z * option Z :=
  (Some (train_start_index s), Some (train_end_index s)).
Definition val_bounds (s : split_indices) : option Z * option Z :=
  (Some (val_start_index s), Some (val_end_index s)).
Definition test_bounds (s : split_indices) : option Z * option Z :=
  (Some (val_end_index s), None).

(** The six date strings are parsed in this order, then the rows are
    scanned. *)
Definition date_split
    (date_data : list string) (data : array)
    (train_start_date train_end_date val_start_date val_end_date
       test_start_date test_end_date : string)
  : result split_indices :=
  let N := len data in
  do train_start_date <- strptime train_start_date;
  do train_end_date <- strptime train_end_date;
  do val_start_date <- strptime val_start_date;
  do val_end_date <- strptime val_end_date;
  do test_start_date <- strptime test_start_date;
  do test_end_date <- strptime test_end_date;
  find_split_indices date_data N train_start_date train_end_date
    val_start_date val_end_date test_start_date test_end_date.

(** [date_add_to_train_val_test]; the three lists are extended in place
    in the source, here the extended lists are returned. *)
Definition date_add_to_train_val_test
    (date_data : list string) (data : array)
    (train val test : list x_t_pair)
    (train_start_date train_end_date val_start_date val_end_date
       test_start_date test_end_date : string)
    (x_length t_length : Z)
  : result (list x_t_pair * list x_t_pair * list x_t_pair) :=
  do s <- date_split date_data data train_start_date train_end_date
            val_start_date val_end_date test_start_date test_end_date;
  let train_to_add :=
    slice data (fst (train_bounds s)) (snd (train_bounds s)) in
  let val_to_add := slice data (fst (val_bounds s)) (snd (val_bounds s)) in
  let test_to_add :=
    slice data (fst (test_bounds s)) (snd (test_bounds s)) in
  Ok (train ++ make_x_t_tuple_tensor_pairs_in_place train_to_add
                 x_length t_length,
      val ++ make_x_t_tuple_tensor_pairs_in_place val_to_add
               x_length t_length,
      test ++ make_x_t_tuple_tensor_pairs_in_place test_to_add
                x_length t_length).

(** [date_make_train_val_test_data] *)
Definition date_make_train_val_test_data
    (data_directory : string) (x_length t_length : Z)
    (train_start_date train_end_date val_start_date val_end_date
       test_start_date test_end_date : string)
    (process_data_func : option (array -> result array))
  : result (list x_t_pair * list x_t_pair * list x_t_pair) :=
  do data_files <- listdir data_directory;
  for_each
    (fun file '(train, val, test) =>
       do '(file_dates, file_data) <-
         load_price_data_into_numpy_array file data_directory
           process_data_func;
       date_add_to_train_val_test file_dates file_data train val test
         train_start_date train_end_date val_start_date val_end_date
         test_start_date test_end_date x_length t_length)
    data_files ([], [], []).

(** ** Split by symbol and date *)

(** The result of [split_etfs]: the three lists returned, the argument
    list as the call leaves it (it is shuffled in place) and the
    generator. *)
Record split_etfs_result (A : Type) : Type := mk_split_etfs_result {
  etfs_test : list A;
  etfs_val : list A;
  etfs_train : list A;
  etfs_after : list A;
  rng_after : rng
}.
Arguments mk_split_etfs_result {A}.
Arguments etfs_test {A}.
Arguments etfs_val {A}.
Arguments etfs_train {A}.
Arguments etfs_after {A}.
Arguments rng_after {A}.

(** [split_etfs] *)
Definition split_etfs {A : Type}
    (etfs : list A) (use_seed : bool) (random_seed : Z) (g : rng)
  : split_etfs_result A :=
  let split := len etfs / 10 in
  let train_start := 4 * split in
  let val_start := 2 * split in
  let val_end := train_start in
  let test_end := val_start in
  let '(etfs, g) :=
    if use_seed then random_shuffle A etfs (random_seed_state random_seed)
    else (etfs, g) in
  let test := slice etfs None (Some test_end) in
  let val := slice etfs (Some val_start) (Some val_end) in
  let train := slice etfs (Some train_start) None in
  mk_split_etfs_result test val train etfs g.

(** One iteration of the loop of [get_data_within_date_range]: the
    [if]/[elif] on row [i]. *)
Definition range_step (start_date end_date : datetime)
    (i : Z) (date_i : datetime) (s : Z * Z) : Z * Z :=
  let '(start_index, end_index) := s in
  if ge date_i start_date && (start_index =? -1) then (i, end_index)
  else if ge date_i end_date && (end_index =? -1) then (start_index, i)
  else (start_index, end_index).

(** The loop [for i in range(N)] of [get_data_within_date_range]. *)
Definition find_date_range
    (date_data : list string) (N : Z) (start_date end_date : datetime)
  : result (Z * Z) :=
  for_each
    (fun i s =>
       do date_str <- getitem date_data i;
       do date_i <- strptime date_str;
       Ok (range_step start_date end_date i date_i s))
    (range N) (-1, -1).

(** The indices [get_data_within_date_range] slices at. *)
Definition date_range_indices
    (date_data : list string) (data : array) (start_date end_date : string)
  : result (Z * Z) :=
  let N := len data in
  do start_date <- strptime start_date;
  do end_date <- strptime end_date;
  find_date_range date_data N start_date end_date.

(** [get_data_within_date_range] *)
Definition get_data_within_date_range
    (date_data : list string) (data : array) (x_length t_length : Z)
    (start_date end_date : string) : result (list x_t_pair) :=
  do '(start_index, end_index) <-
    date_range_indices date_data data start_date end_date;
  let data_in_range := slice data (Some start_index) (Some end_index) in
  Ok (make_x_t_tuple_tensor_pairs_in_place data_in_range x_length t_length).

(** The helper [add_x_t_data] nested in [data_split_symbol_and_date].
    Its body names [train_start_date] and [train_end_date], which are
    variables of the enclosing function; its own [start_date] and
    [end_date] are not used. *)
Definition add_x_t_data
    (process_data_func : option (array -> result array))
    (train_start_date train_end_date : string)
    (files : list string) (path : string) (x_length t_length : Z)
    (start_date end_date : string) (add_to_list : list x_t_pair)
  : result (list x_t_pair) :=
  for_each
    (fun file_name add_to_list =>
       do '(dates_array, data_array) <-
         load_price_data_into_numpy_array file_name path process_data_func;
       do to_add <-
         get_data_within_date_range dates_array data_array x_length t_length
           train_start_date train_end_date;
       Ok (add_to_list ++ to_add))
    files add_to_list.

(** [data_split_symbol_and_date] *)
Definition data_split_symbol_and_date
    (train_files val_files test_files : list string) (path : string)
    (train_start_date train_end_date val_start_date val_end_date
       test_start_date test_end_date : string)
    (x_length t_length : Z)
    (process_data_func : option (array -> result array))
  : result (list x_t_pair * list x_t_pair * list x_t_pair) :=
  let add := add_x_t_data process_data_func train_start_date train_end_date in
  do train <- add train_files path x_length t_length
                train_start_date train_end_date [];
  do val <- add val_files path x_length t_length
              val_start_date val_end_date [];
  do test <- add test_files path x_length t_length
               test_start_date test_end_date [];
  Ok (train, val, test).

(** ** Augmentation *)

(** [random.randint(a, b)]: [ValueError] on an empty range. *)
Definition randint (a b : Z) (g : rng) : result (Z * rng) :=
  if b <? a then Raise ValueError else Ok (random_randint a b g).

(** [math.floor(augment_proportion * N)] *)
Definition num_new_examples_of (augment_proportion : PyFloat.float) (N : Z)
  : result Z :=
  do n <- PyFloat.of_int N;
  PyFloat.math_floor (PyFloat.mul augment_proportion n).

(** [augment]; the list is extended in place in the source, here the
    extended list is returned with the generator and the state of the
    augmentation function. *)
Definition augment
    (data : list x_t_pair) (augment_func : x_t_pair -> W -> x_t_pair * W)
    (augment_proportion : PyFloat.float) (random_seed : Z)
    (g : rng) (w : W)
  : result (list x_t_pair * rng * W) :=
  let N := len data in
  do num_new_examples <- num_new_examples_of augment_proportion N;
  let g := random_seed_state random_seed in
  for_each
    (fun _ '(data, g, w) =>
       do '(index, g) <- randint 0 (N - 1) g;
       do data_point <- getitem data index;
       let '(new_point, w) := augment_func data_point w in
       Ok (data ++ [new_point], g, w))
    (range num_new_examples) (data, g, w).


(** The first [n] draws of [random.randint(a, b)] from the generator
    [g], and the generator they leave. *)
Fixpoint randint_draws (n : nat) (a b : Z) (g : rng) : list Z * rng :=
  match n with
  | O => ([], g)
  | S n' =>
      let '(i, g1) := random_randint a b g in
      let '(rest, g2) := randint_draws n' a b g1 in
      (i :: rest, g2)
  end.

(** The indices [augment] draws for [N] examples, [num] new examples
    and a seed: they depend on nothing else. *)
Definition augment_indices (N num random_seed : Z) : list Z :=
  fst (randint_draws (Z.to_nat num) 0 (N - 1)
         (random_seed_state random_seed)).

(** The examples made by [augment_func] from the examples of [data] at
    the indices [idxs], in order. *)
Fixpoint augment_with (augment_func : x_t_pair -> W -> x_t_pair * W)
    (data : list x_t_pair) (idxs : list Z) (w : W) : list x_t_pair * W :=
  match idxs with
  | [] => ([], w)
  | i :: rest =>
      match nth_error data (Z.to_nat i) with
      | Some data_point =>
          let '(new_point, w1) := augment_func data_point w in
          let '(new_points, w2) := augment_with augment_func data rest w1 in
          (new_point :: new_points, w2)
      | None => ([], w)
      end
  end.

(** ** The data preparation of [train.py] *)

(** The first statements of the [__main__] block of [train.py]: the
    file [aadr.us.txt] is loaded, the last two columns are removed, the
    rows are windowed with 30 rows in and 5 rows out, and the windows are
    cut in two at position 1000. *)
Definition train_main_loaders : result (list x_t_pair * list x_t_pair) :=
  do '(_, data) <-
    load_price_data_into_numpy_array "aadr.us.txt" "./data/ETFs" None;
  let data := remove_volume_open_interest data in
  let x_t_pairs := make_x_t_tuple_tensor_pairs_in_place data 30 5 in
  let train_loader := slice x_t_pairs None (Some 1000) in
  let valid_loader := slice x_t_pairs (Some 1000) None in
  Ok (train_loader, valid_loader).

(** ** Windows over the rows of one array *)

(** [rows] are consecutive rows of [data], from row [start] on. *)
Definition is_run (data : array) (start : Z) (rows : tensor) : Prop :=
  0 <= start
  /\ rows = firstn (length rows) (skipn (Z.to_nat start) data).

(** [x] and [t] are each made of consecutive rows of [data]. *)
Definition window_of (data : array) (x t : tensor) : Prop :=
  (exists i, is_run data i x) /\ (exists j, is_run data j t).

(** [x] is [x_length] consecutive rows of [data] and [t] the [t_length]
    rows that follow them. *)
Definition adjacent_window_of (data : array) (x_length t_length : Z)
    (x t : tensor) : Prop :=
  exists k, 0 <= k /\ k + x_length + t_length <= len data
    /\ x = slice data (Some k) (Some (k + x_length))
    /\ t = slice data (Some (k + x_length))
             (Some (k + x_length + t_length)).

(** ** Reading the two searches over parsed dates *)

(** The dates of a column of date strings; [ValueError] when one of them
    is not a date. *)
Definition parse_dates (date_data : list string) : result (list datetime) :=
  map_result strptime date_data.

(** The state of a row-by-row search after the rows [0 .. k-1], the
    dates of the rows being [ds]. *)
Fixpoint scan_rows {S : Type} (step : Z -> datetime -> S -> S) (init : S)
    (ds : list datetime) (k : nat) : S :=
  match k with
  | O => init
  | S k' =>
      let s := scan_rows step init ds k' in
      match nth_error ds k' with
      | Some d => step (Z.of_nat k') d s
      | None => s
      end
  end.

(** The indices held by [find_split_indices] after the rows
    [0 .. k-1]. *)
Definition split_scan
    (train_start_date train_end_date val_start_date val_end_date
       test_start_date test_end_date : datetime)
    (ds : list datetime) (k : nat) : split_indices :=
  scan_rows
    (split_step train_start_date train_end_date val_start_date
       val_end_date test_start_date test_end_date)
    no_split_indices ds k.

(** The indices held by [find_date_range] after the rows [0 .. k-1]. *)
Definition range_scan (start_date end_date : datetime)
    (ds : list datetime) (k : nat) : Z * Z :=
  scan_rows (range_step start_date end_date) (-1, -1) ds k.

(** Row [j] of a sequence of [n] rows belongs to the slice with the
    bounds [b]. *)
Definition in_slice (n : Z) (b : option Z * option Z) (j : Z) : Prop :=
  fst (slice_range n (fst b) (snd b)) <= j
  /\ j < snd (slice_range n (fst b) (snd b)).

(** Two slices of a sequence of [n] rows share no row. *)
Definition slices_disjoint (n : Z) (b1 b2 : option Z * option Z) : Prop :=
  forall j : Z, ~ (in_slice n b1 j /\ in_slice n b2 j).

(** The date of row [j] of a parsed column. *)
Definition date_at (ds : list datetime) (j : Z) : option datetime :=
  if j <? 0 then None else nth_error ds (Z.to_nat j).

(* ================================================================== *)
(** * Facts about the runtime *)
(* ================================================================== *)

Lemma bind_ok_inv {A B : Type} (c : result A) (k : A -> result B) (b : B) :
  Py.bind c k = Ok b -> exists a, c = Ok a /\ k a = Ok b.
Proof.
  destruct c as [a | e]; simpl; intros H.
  - exists a; split; [reflexivity | exact H].
  - discriminate.
Qed.

Lemma range_length (n : Z) : length (range n) = Z.to_nat n.
Proof. unfold range. rewrite length_map, length_seq. reflexivity. Qed.

Lemma in_range (n i : Z) : In i (range n) <-> 0 <= i < n.
Proof.
  unfold range. rewrite in_map_iff. split.
  - intros [k [Hk Hin]]. apply in_seq in Hin. lia.
  - intros H. exists (Z.to_nat i). split; [lia | apply in_seq; lia].
Qed.

Lemma range_succ (n : nat) :
  range (Z.of_nat (S n)) = range (Z.of_nat n) ++ [Z.of_nat n].
Proof.
  unfold range. rewrite !Nat2Z.id, seq_S, map_app. reflexivity.
Qed.

Lemma for_each_app {I S : Type} (body : I -> S -> result S)
    (l1 l2 : list I) (s : S) :
  for_each body (l1 ++ l2) s =
  Py.bind (for_each body l1 s) (for_each body l2).
Proof.
  revert s. induction l1 as [| i l1 IH]; intros s; simpl.
  - reflexivity.
  - destruct (body i s) as [s' | e]; simpl; [apply IH | reflexivity].
Qed.

Lemma fold_left_snoc {A B : Type} (f : A -> B) (l : list A) (acc : list B) :
  fold_left (fun acc a => acc ++ [f a]) l acc = acc ++ map f l.
Proof.
  revert acc. induction l as [| a l IH]; intros acc; simpl.
  - now rewrite app_nil_r.
  - rewrite IH, <- app_assoc. reflexivity.
Qed.

Lemma adjust_index_inside (n i : Z) : 0 <= i <= n -> adjust_index n i = i.
Proof.
  intros H. unfold adjust_index.
  destruct (i <? 0) eqn:E; [apply Z.ltb_lt in E; lia | lia].
Qed.

Lemma adjust_index_bounds (n i : Z) : 0 <= n -> 0 <= adjust_index n i <= n.
Proof.
  intros H. unfold adjust_index. destruct (i <? 0) eqn:E; lia.
Qed.

(** A slice with both bounds inside the sequence is the run of
    [stop - start] elements from position [start]. *)
Lemma slice_inside {A : Type} (l : list A) (a b : Z) :
  0 <= a -> a <= b -> b <= len l ->
  slice l (Some a) (Some b) =
  firstn (Z.to_nat (b - a)) (skipn (Z.to_nat a) l).
Proof.
  intros Ha Hab Hb. unfold slice, slice_range.
  rewrite !adjust_index_inside by lia. reflexivity.
Qed.

Lemma slice_inside_length {A : Type} (l : list A) (a b : Z) :
  0 <= a -> a <= b -> b <= len l ->
  len (slice l (Some a) (Some b)) = b - a.
Proof.
  intros Ha Hab Hb. rewrite slice_inside by assumption.
  unfold len in *. rewrite length_firstn, length_skipn. lia.
Qed.

(** Every slice is a run of consecutive elements of the sequence. *)
Lemma slice_is_run {A : Type} (l : list A) (start stop : option Z) :
  let '(lo, hi) := slice_range (len l) start stop in
  slice l start stop = firstn (Z.to_nat (hi - lo)) (skipn (Z.to_nat lo) l)
  /\ 0 <= lo <= len l /\ 0 <= hi <= len l.
Proof.
  unfold slice. destruct (slice_range (len l) start stop) as [lo hi] eqn:E.
  split; [reflexivity |].
  unfold slice_range in E. injection E as <- <-.
  assert (Hn : 0 <= len l) by (unfold len; lia).
  destruct start, stop; split;
    try apply adjust_index_bounds; try assumption; lia.
Qed.

Lemma slice_incl {A : Type} (l : list A) (start stop : option Z) (a : A) :
  In a (slice l start stop) -> In a l.
Proof.
  unfold slice. destruct (slice_range (len l) start stop) as [lo hi].
  intros H.
  rewrite <- (firstn_skipn (Z.to_nat lo) l). apply in_or_app. right.
  rewrite <- (firstn_skipn (Z.to_nat (hi - lo)) (skipn (Z.to_nat lo) l)).
  apply in_or_app. left. exact H.
Qed.

(* ================================================================== *)
(** * Windowing *)
(* ================================================================== *)

(** The loop of [make_x_t_tuple_tensor_pairs_in_place] builds one pair
    per index of its range, in order. *)
Lemma make_pairs_map (data : array) (input_length output_length : Z) :
  make_x_t_tuple_tensor_pairs_in_place data input_length output_length =
  map (fun i =>
         (slice data (Some i) (Some (i + input_length)),
          slice data (Some (i + input_length))
            (Some (i + input_length + output_length))))
      (range (len data - input_length - output_length)).
Proof.
  unfold make_x_t_tuple_tensor_pairs_in_place, from_numpy.
  rewrite (fold_left_snoc
             (fun i =>
                (slice data (Some i) (Some (i + input_length)),
                 slice data (Some (i + input_length))
                   (Some (i + input_length + output_length))))).
  reflexivity.
Qed.

Lemma make_pairs_in (data : array) (input_length output_length : Z)
    (x t : tensor) :
  In (x, t)
     (make_x_t_tuple_tensor_pairs_in_place data input_length output_length)
  <->
  exists i, 0 <= i < len data - input_length - output_length
    /\ x = slice data (Some i) (Some (i + input_length))
    /\ t = slice data (Some (i + input_length))
             (Some (i + input_length + output_length)).
Proof.
  rewrite make_pairs_map, in_map_iff. split.
  - intros [i [Heq Hin]]. apply in_range in Hin. injection Heq as <- <-.
    exists i. auto.
  - intros [i [Hi [-> ->]]]. exists i. split; [reflexivity |].
    apply in_range. exact Hi.
Qed.

Lemma has_shape_slice (data : array) (N M a b : Z) :
  has_shape data N M -> 0 <= a -> a <= b -> b <= N ->
  has_shape (slice data (Some a) (Some b)) (b - a) M.
Proof.
  intros [HN HM] Ha Hab Hb. split.
  - apply slice_inside_length; lia.
  - rewrite Forall_forall in *. intros row Hrow.
    apply HM. eapply slice_incl. exact Hrow.
Qed.

(** C4: over an array of shape (N, M) and positive lengths, every pair
    returned by [make_x_t_tuple_tensor_pairs_in_place] has [x] of shape
    (input_length, M) and [t] of shape (output_length, M), and [t] is the
    slice that begins right after the last row of [x]:
    [x = data[i:i+input_length]] and
    [t = data[i+input_length:i+input_length+output_length]] for some
    [i], both inside the array. *)
Theorem make_pairs_shape_and_adjacency
    (data : array) (N M input_length output_length : Z) (x t : tensor) :
  has_shape data N M ->
  0 < input_length -> 0 < output_length ->
  In (x, t)
     (make_x_t_tuple_tensor_pairs_in_place data input_length output_length) ->
  has_shape x input_length M /\ has_shape t output_length M /\
  exists i, 0 <= i /\ i + input_length + output_length < N
    /\ x = slice data (Some i) (Some (i + input_length))
    /\ t = slice data (Some (i + input_length))
             (Some (i + input_length + output_length)).
Proof.
  intros Hshape Hil Hol Hin.
  apply make_pairs_in in Hin. destruct Hin as [i [Hi [Hx Ht]]].
  assert (HN : len data = N) by apply Hshape.
  repeat split.
  - subst x. replace input_length with (i + input_length - i) at 2 by lia.
    apply (has_shape_slice data N M); [assumption | lia ..].
  - subst x.
    pose proof (has_shape_slice data N M i (i + input_length) Hshape) as H.
    apply H; lia.
  - subst t.
    replace output_length
      with (i + input_length + output_length - (i + input_length)) at 2
      by lia.
    apply (has_shape_slice data N M); [assumption | lia ..].
  - subst t.
    pose proof (has_shape_slice data N M (i + input_length)
                  (i + input_length + output_length) Hshape) as H.
    apply H; lia.
  - exists i. repeat split; try assumption; lia.
Qed.

(** C8: [make_x_t_tuple_tensor_pairs_in_place] returns exactly
    [max(0, N - input_length - output_length)] pairs; it returns the empty
    list when [N <= input_length + output_length], also when
    [N = input_length + output_length], where the rows
    [data[0:input_length]] and [data[input_length:N]] make one full
    window. *)
Theorem make_pairs_count (data : array) (input_length output_length : Z) :
  len (make_x_t_tuple_tensor_pairs_in_place data input_length output_length)
  = Z.max 0 (len data - input_length - output_length)
  /\ (len data <= input_length + output_length ->
      make_x_t_tuple_tensor_pairs_in_place data input_length output_length
      = [])
  /\ (len data = input_length + output_length ->
      0 <= input_length -> 0 <= output_length ->
      make_x_t_tuple_tensor_pairs_in_place data input_length output_length
      = []
      /\ len (slice data (Some 0) (Some input_length)) = input_length
      /\ len (slice data (Some input_length)
                (Some (input_length + output_length))) = output_length).
Proof.
  rewrite make_pairs_map.
  assert (Hempty : len data <= input_length + output_length ->
            range (len data - input_length - output_length) = []).
  { intros H. unfold range.
    replace (Z.to_nat (len data - input_length - output_length)) with 0%nat
      by lia.
    reflexivity. }
  split; [| split].
  - unfold len at 1. rewrite length_map, range_length. lia.
  - intros H. rewrite Hempty by exact H. reflexivity.
  - intros H Hil Hol. split; [| split].
    + rewrite Hempty by lia. reflexivity.
    + rewrite slice_inside_length; lia.
    + rewrite slice_inside_length; lia.
Qed.

(* ================================================================== *)
(** * Dates *)
(* ================================================================== *)

Lemma ge_spec (a b : datetime) :
  ge a b = true <->
  (year b < year a
   \/ (year a = year b
       /\ (month b < month a \/ (month a = month b /\ day b <= day a)))).
Proof.
  unfold ge.
  destruct (Z.compare_spec (year a) (year b));
    destruct (Z.compare_spec (month a) (month b));
    rewrite ?Z.leb_le; split; intros; try lia; try discriminate;
    reflexivity.
Qed.

Lemma ge_false_spec (a b : datetime) :
  ge a b = false <->
  (year a < year b
   \/ (year a = year b
       /\ (month a < month b \/ (month a = month b /\ day a < day b)))).
Proof.
  unfold ge.
  destruct (Z.compare_spec (year a) (year b));
    destruct (Z.compare_spec (month a) (month b));
    rewrite ?Z.leb_gt; split; intros; try lia; try discriminate;
    reflexivity.
Qed.

Ltac dates :=
  repeat match goal with
  | H : ge _ _ = true |- _ => apply ge_spec in H
  | H : ge _ _ = false |- _ => apply ge_false_spec in H
  | |- ge _ _ = true => apply ge_spec
  | |- ge _ _ = false => apply ge_false_spec
  end;
  lia.

Lemma ge_refl (a : datetime) : ge a a = true.
Proof. dates. Qed.

Lemma ge_trans (a b c : datetime) :
  ge a b = true -> ge b c = true -> ge a c = true.
Proof. intros H1 H2. dates. Qed.

(** A date before a boundary is before every later boundary. *)
Lemma lt_ge_trans (a b c : datetime) :
  ge a b = false -> ge c b = true -> ge a c = false.
Proof. intros H1 H2. dates. Qed.

(** In a non-decreasing series a later row has a later or equal date. *)
Lemma nondecreasing_nth (ds : list datetime) :
  nondecreasing ds = true ->
  forall (i j : nat) (di dj : datetime),
    (i <= j)%nat -> nth_error ds i = Some di -> nth_error ds j = Some dj ->
    ge dj di = true.
Proof.
  induction ds as [| d rest IH]; intros Hs i j di dj Hij Hi Hj.
  - destruct i; discriminate.
  - assert (Hrest : nondecreasing rest = true).
    { simpl in Hs. destruct rest; [reflexivity |].
      apply andb_prop in Hs. apply Hs. }
    assert (Hhead : forall (k : nat) (dk : datetime),
               nth_error rest k = Some dk -> ge dk d = true).
    { intros k. induction k as [| k IHk]; intros dk Hk.
      - simpl in Hs. destruct rest as [| d' rest']; [discriminate |].
        simpl in Hk. injection Hk as <-.
        apply andb_prop in Hs. apply Hs.
      - destruct (nth_error rest k) as [dk' |] eqn:Ek.
        + apply ge_trans with dk'; [| apply IHk; reflexivity].
          apply (IH Hrest k (S k) dk' dk); [lia | exact Ek | exact Hk].
        + apply nth_error_None in Ek.
          assert (nth_error rest (S k) = None)
            by (apply nth_error_None; lia).
          congruence. }
    destruct i as [| i], j as [| j]; simpl in Hi, Hj.
    + injection Hi as <-. injection Hj as <-. apply ge_refl.
    + injection Hi as <-. apply Hhead with j. exact Hj.
    + lia.
    + apply (IH Hrest i j); [lia | assumption | assumption].
Qed.

Lemma map_result_length {A B : Type} (f : A -> result B)
    (l : list A) (l' : list B) :
  map_result f l = Ok l' -> length l' = length l.
Proof.
  revert l'. induction l as [| a l IH]; intros l' H; simpl in H.
  - injection H as <-. reflexivity.
  - apply bind_ok_inv in H. destruct H as [b [Hb H]].
    apply bind_ok_inv in H. destruct H as [bs [Hbs H]].
    injection H as <-. simpl. f_equal. apply IH. exact Hbs.
Qed.

Lemma map_result_nth {A B : Type} (f : A -> result B)
    (l : list A) (l' : list B) (n : nat) (b : B) :
  map_result f l = Ok l' -> nth_error l' n = Some b ->
  exists a, nth_error l n = Some a /\ f a = Ok b.
Proof.
  revert l' n. induction l as [| a l IH]; intros l' n H Hn; simpl in H.
  - injection H as <-. destruct n; discriminate.
  - apply bind_ok_inv in H. destruct H as [b0 [Hb0 H]].
    apply bind_ok_inv in H. destruct H as [bs [Hbs H]].
    injection H as <-. destruct n as [| n]; simpl in Hn.
    + injection Hn as <-. exists a. split; [reflexivity | exact Hb0].
    + simpl. apply (IH bs n); assumption.
Qed.

(** A loop that reads the date of each row and updates a state is the
    row-by-row scan of the parsed dates. *)
Lemma for_each_rows_scan {S : Type} (step : Z -> datetime -> S -> S)
    (init : S) (date_data : list string) (ds : list datetime) (n : nat) :
  parse_dates date_data = Ok ds -> (n <= length ds)%nat ->
  for_each
    (fun i s =>
       do date_str <- getitem date_data i;
       do date_i <- strptime date_str;
       Ok (step i date_i s))
    (range (Z.of_nat n)) init
  = Ok (scan_rows step init ds n).
Proof.
  intros Hparse. induction n as [| n IH]; intros Hn.
  - reflexivity.
  - rewrite range_succ, for_each_app, IH by lia. simpl.
    destruct (nth_error ds n) as [d |] eqn:Ed.
    2: { apply nth_error_None in Ed. lia. }
    destruct (map_result_nth _ _ _ _ _ Hparse Ed) as [str [Hstr Hd]].
    assert (Hlen : length ds = length date_data)
      by (eapply map_result_length; exact Hparse).
    unfold getitem, len.
    replace (Z.of_nat n <? 0) with false by (symmetry; apply Z.ltb_ge; lia).
    replace ((0 <=? Z.of_nat n) && (Z.of_nat n <? Z.of_nat (length date_data)))
      with true
      by (symmetry; apply andb_true_intro; split;
          [apply Z.leb_le | apply Z.ltb_lt]; lia).
    rewrite Nat2Z.id, Hstr. simpl. rewrite Hd. reflexivity.
Qed.

(* ================================================================== *)
(** * The search of [date_add_to_train_val_test] *)
(* ================================================================== *)

Lemma date_at_of_nat (ds : list datetime) (k : nat) :
  date_at ds (Z.of_nat k) = nth_error ds k.
Proof.
  unfold date_at.
  replace (Z.of_nat k <? 0) with false by (symmetry; apply Z.ltb_ge; lia).
  rewrite Nat2Z.id. reflexivity.
Qed.

Lemma date_at_some_range (ds : list datetime) (j : Z) (d : datetime) :
  date_at ds j = Some d -> 0 <= j < len ds.
Proof.
  unfold date_at, len. destruct (j <? 0) eqn:E; [discriminate |].
  intros H. apply Z.ltb_ge in E.
  assert (Z.to_nat j < length ds)%nat
    by (apply nth_error_Some; congruence).
  lia.
Qed.

Lemma nondecreasing_date_at (ds : list datetime) (i j : Z)
    (di dj : datetime) :
  nondecreasing ds = true -> i <= j ->
  date_at ds i = Some di -> date_at ds j = Some dj -> ge dj di = true.
Proof.
  intros Hs Hij Hi Hj.
  pose proof (date_at_some_range _ _ _ Hi).
  pose proof (date_at_some_range _ _ _ Hj).
  unfold date_at in Hi, Hj.
  destruct (i <? 0); [discriminate |]. destruct (j <? 0); [discriminate |].
  apply (nondecreasing_nth ds Hs (Z.to_nat i) (Z.to_nat j));
    [lia | assumption | assumption].
Qed.

Section Split.

Variables b1 b2 b3 b4 b5 b6 : datetime.
Variable ds : list datetime.

Local Abbreviation scan := (split_scan b1 b2 b3 b4 b5 b6 ds).
Local Abbreviation step := (split_step b1 b2 b3 b4 b5 b6).

Lemma split_scan_succ (k : nat) :
  scan (S k) =
  match nth_error ds k with
  | Some d => step (Z.of_nat k) d (scan k)
  | None => scan k
  end.
Proof. reflexivity. Qed.

Ltac split_step_cases :=
  unfold split_step;
  repeat match goal with
  | |- context [if ?c then _ else _] => destruct c
  end;
  reflexivity.

Lemma split_step_train_start (i : Z) (d : datetime) (s : split_indices) :
  train_start_index (step i d s) =
  if ge d b1 && (train_start_index s =? -1) then i
  else train_start_index s.
Proof. destruct s; simpl. split_step_cases. Qed.

Lemma split_step_train_end (i : Z) (d : datetime) (s : split_indices) :
  train_end_index (step i d s) =
  if ge d b1 && (train_start_index s =? -1) then train_end_index s
  else if ge d b2 && (train_end_index s =? -1) then i
  else train_end_index s.
Proof. destruct s; simpl. split_step_cases. Qed.

Lemma split_step_val_start (i : Z) (d : datetime) (s : split_indices) :
  val_start_index (step i d s) =
  if ge d b1 && (train_start_index s =? -1) then val_start_index s
  else if ge d b2 && (train_end_index s =? -1) then val_start_index s
  else if ge d b3 && (val_start_index s =? -1) then i
  else val_start_index s.
Proof. destruct s; simpl. split_step_cases. Qed.

Lemma split_step_val_end (i : Z) (d : datetime) (s : split_indices) :
  val_end_index (step i d s) =
  if ge d b1 && (train_start_index s =? -1) then val_end_index s
  else if ge d b2 && (train_end_index s =? -1) then val_end_index s
  else if ge d b3 && (val_start_index s =? -1) then val_end_index s
  else if ge d b4 && (val_end_index s =? -1) then i
  else val_end_index s.
Proof. destruct s; simpl. split_step_cases. Qed.

Ltac eqb_props :=
  repeat match goal with
  | H : (_ =? _) = true |- _ => apply Z.eqb_eq in H
  | H : (_ =? _) = false |- _ => apply Z.eqb_neq in H
  end.

Hypothesis train_end_after_start : ge b2 b1 = true.
Hypothesis val_start_after_train_end : ge b3 b2 = true.
Hypothesis val_end_after_start : ge b4 b3 = true.

(** Where a date lies among the ordered boundaries. *)
Lemma date_level (d : datetime) :
  (ge d b1 = false /\ ge d b2 = false /\ ge d b3 = false /\ ge d b4 = false)
  \/ (ge d b1 = true /\ ge d b2 = false /\ ge d b3 = false
      /\ ge d b4 = false)
  \/ (ge d b1 = true /\ ge d b2 = true /\ ge d b3 = false /\ ge d b4 = false)
  \/ (ge d b1 = true /\ ge d b2 = true /\ ge d b3 = true /\ ge d b4 = false)
  \/ (ge d b1 = true /\ ge d b2 = true /\ ge d b3 = true /\ ge d b4 = true).
Proof.
  pose proof (fun H => ge_trans d b2 b1 H train_end_after_start) as I1.
  pose proof (fun H => ge_trans d b3 b2 H val_start_after_train_end) as I2.
  pose proof (fun H => ge_trans d b4 b3 H val_end_after_start) as I3.
  destruct (ge d b1), (ge d b2), (ge d b3), (ge d b4);
    auto 10; exfalso;
    try specialize (I1 eq_refl); try specialize (I2 eq_refl);
    try specialize (I3 eq_refl); discriminate.
Qed.

Ltac step_cases d :=
  rewrite ?split_step_train_start, ?split_step_train_end,
    ?split_step_val_start, ?split_step_val_end;
  destruct (date_level d)
    as [(G1 & G2 & G3 & G4) | [(G1 & G2 & G3 & G4) | [(G1 & G2 & G3 & G4)
       | [(G1 & G2 & G3 & G4) | (G1 & G2 & G3 & G4)]]]];
  rewrite ?G1, ?G2, ?G3, ?G4; cbn [andb];
  repeat match goal with
  | |- context [?x =? -1] => destruct (x =? -1) eqn:?
  end;
  cbn [andb]; eqb_props.

(** With ordered boundaries the indices are found in order: an index
    is set only after the previous one, at a later row. *)
Lemma split_scan_order (k : nat) :
  (-1 <= train_start_index (scan k) < Z.of_nat k
   /\ -1 <= train_end_index (scan k) < Z.of_nat k
   /\ -1 <= val_start_index (scan k) < Z.of_nat k
   /\ -1 <= val_end_index (scan k) < Z.of_nat k)
  /\ (train_end_index (scan k) <> -1 ->
      train_start_index (scan k) <> -1
      /\ train_start_index (scan k) < train_end_index (scan k))
  /\ (val_start_index (scan k) <> -1 ->
      train_end_index (scan k) <> -1
      /\ train_end_index (scan k) < val_start_index (scan k))
  /\ (val_end_index (scan k) <> -1 ->
      val_start_index (scan k) <> -1
      /\ val_start_index (scan k) < val_end_index (scan k)).
Proof.
  induction k as [| k IH].
  - cbn. lia.
  - rewrite split_scan_succ. destruct (nth_error ds k) as [d |]; [| lia].
    step_cases d; clear G1 G2 G3 G4; lia.
Qed.

(** [train_start_index] is the first row on or after the start of the
    training range, when there is one. *)
Lemma split_scan_train_start (k : nat) :
  (train_start_index (scan k) = -1 ->
   forall j d, 0 <= j < Z.of_nat k -> date_at ds j = Some d ->
     ge d b1 = false)
  /\ (train_start_index (scan k) <> -1 ->
      (exists d, date_at ds (train_start_index (scan k)) = Some d
         /\ ge d b1 = true)
      /\ forall j d, 0 <= j < train_start_index (scan k) ->
           date_at ds j = Some d -> ge d b1 = false).
Proof.
  induction k as [| k [IHnone IHsome]].
  - cbn. split; [intros _ j d Hj; lia | intros H; contradiction].
  - rewrite split_scan_succ. destruct (nth_error ds k) as [d |] eqn:Ed.
    + rewrite split_step_train_start.
      destruct (ge d b1) eqn:G;
        destruct (train_start_index (scan k) =? -1) eqn:E;
        cbn [andb]; eqb_props.
      * split; [intros H; lia | intros _]. split.
        -- exists d. rewrite date_at_of_nat. auto.
        -- intros j dj Hj Hdj. apply (IHnone E j dj); [lia | exact Hdj].
      * split; [intros H; contradiction | exact IHsome].
      * split; [| intros H; contradiction].
        intros _ j dj Hj Hdj.
        destruct (Z.eq_dec j (Z.of_nat k)) as [-> | Hne].
        -- rewrite date_at_of_nat in Hdj. congruence.
        -- apply (IHnone E j dj); [lia | exact Hdj].
      * split; [intros H; contradiction | exact IHsome].
    + split; [| exact IHsome].
      intros H j dj Hj Hdj.
      destruct (Z.eq_dec j (Z.of_nat k)) as [-> | Hne].
      * rewrite date_at_of_nat in Hdj. congruence.
      * apply (IHnone H j dj); [lia | exact Hdj].
Qed.

(** [train_end_index] is the first row, other than the row of
    [train_start_index], on or after the end of the training range. *)
Lemma split_scan_train_end (k : nat) :
  (train_end_index (scan k) = -1 ->
   forall j d, 0 <= j < Z.of_nat k -> j <> train_start_index (scan k) ->
     date_at ds j = Some d -> ge d b2 = false)
  /\ (train_end_index (scan k) <> -1 ->
      (exists d, date_at ds (train_end_index (scan k)) = Some d
         /\ ge d b2 = true)
      /\ forall j d, 0 <= j < train_end_index (scan k) ->
           j <> train_start_index (scan k) ->
           date_at ds j = Some d -> ge d b2 = false).
Proof.
  induction k as [| k [IHnone IHsome]].
  - cbn. split; [intros _ j d Hj; lia | intros H; contradiction].
  - rewrite split_scan_succ. destruct (nth_error ds k) as [d |] eqn:Ed.
    + rewrite split_step_train_start, split_step_train_end.
      destruct (ge d b1 && (train_start_index (scan k) =? -1)) eqn:C1.
      * apply andb_prop in C1. destruct C1 as [G1 E1]. eqb_props.
        split.
        -- intros H j dj Hj Hne Hdj.
           apply (IHnone H j dj); [lia | lia | exact Hdj].
        -- intros H. destruct (IHsome H) as [Hd Hbefore].
           split; [exact Hd |].
           intros j dj Hj Hne Hdj.
           apply (Hbefore j dj); [lia | lia | exact Hdj].
      * destruct (ge d b2) eqn:G2;
          destruct (train_end_index (scan k) =? -1) eqn:E2;
          cbn [andb]; eqb_props.
        -- split; [intros H; lia | intros _]. split.
           ++ exists d. rewrite date_at_of_nat. auto.
           ++ intros j dj Hj Hne Hdj.
              apply (IHnone E2 j dj); [lia | exact Hne | exact Hdj].
        -- split; [intros H; contradiction | exact IHsome].
        -- split; [| intros H; contradiction].
           intros _ j dj Hj Hne Hdj.
           destruct (Z.eq_dec j (Z.of_nat k)) as [-> | Hnk].
           ++ rewrite date_at_of_nat in Hdj. congruence.
           ++ apply (IHnone E2 j dj); [lia | exact Hne | exact Hdj].
        -- split; [intros H; contradiction | exact IHsome].
    + split; [| exact IHsome].
      intros H j dj Hj Hne Hdj.
      destruct (Z.eq_dec j (Z.of_nat k)) as [-> | Hnk].
      * rewrite date_at_of_nat in Hdj. congruence.
      * apply (IHnone H j dj); [lia | exact Hne | exact Hdj].
Qed.

(** The row of [val_start_index] is on or after the start of the
    validation range. *)
Lemma split_scan_val_start (k : nat) :
  val_start_index (scan k) <> -1 ->
  exists d, date_at ds (val_start_index (scan k)) = Some d
    /\ ge d b3 = true.
Proof.
  induction k as [| k IH].
  - cbn. intros H; contradiction.
  - rewrite split_scan_succ. destruct (nth_error ds k) as [d |] eqn:Ed;
      [| exact IH].
    rewrite split_step_val_start.
    destruct (ge d b1 && (train_start_index (scan k) =? -1));
      [exact IH |].
    destruct (ge d b2 && (train_end_index (scan k) =? -1)); [exact IH |].
    destruct (ge d b3 && (val_start_index (scan k) =? -1)) eqn:C3;
      [| exact IH].
    intros _. apply andb_prop in C3. destruct C3 as [G3 _].
    exists d. rewrite date_at_of_nat. auto.
Qed.

(** [val_end_index] is the first row, other than the rows of the three
    indices before it, on or after the end of the validation range. *)
Lemma split_scan_val_end (k : nat) :
  (val_end_index (scan k) = -1 ->
   forall j d, 0 <= j < Z.of_nat k ->
     j <> train_start_index (scan k) -> j <> train_end_index (scan k) ->
     j <> val_start_index (scan k) ->
     date_at ds j = Some d -> ge d b4 = false)
  /\ (val_end_index (scan k) <> -1 ->
      (exists d, date_at ds (val_end_index (scan k)) = Some d
         /\ ge d b4 = true)
      /\ forall j d, 0 <= j < val_end_index (scan k) ->
           j <> train_start_index (scan k) ->
           j <> train_end_index (scan k) ->
           j <> val_start_index (scan k) ->
           date_at ds j = Some d -> ge d b4 = false).
Proof.
  induction k as [| k [IHnone IHsome]].
  - cbn. split; [intros _ j d Hj; lia | intros H; contradiction].
  - rewrite split_scan_succ. destruct (nth_error ds k) as [d |] eqn:Ed.
    + rewrite split_step_train_start, split_step_train_end,
        split_step_val_start, split_step_val_end.
      destruct (ge d b1 && (train_start_index (scan k) =? -1)) eqn:C1;
        [| destruct (ge d b2 && (train_end_index (scan k) =? -1)) eqn:C2;
           [| destruct (ge d b3 && (val_start_index (scan k) =? -1)) eqn:C3]].
      1-3: match goal with
           | C : (_ && (_ =? -1)) = true |- _ =>
               apply andb_prop in C; destruct C as [_ E]; eqb_props
           end;
        (split;
         [ intros H j dj Hj N1 N2 N3 Hdj;
           apply (IHnone H j dj); try assumption; lia
         | intros H; destruct (IHsome H) as [Hd Hb];
           split; [exact Hd |];
           intros j dj Hj N1 N2 N3 Hdj;
           apply (Hb j dj); try assumption; lia ]).
      destruct (ge d b4) eqn:G4;
        destruct (val_end_index (scan k) =? -1) eqn:E4;
        cbn [andb]; eqb_props.
      * split; [intros H; lia | intros _]. split.
        -- exists d. rewrite date_at_of_nat. auto.
        -- intros j dj Hj N1 N2 N3 Hdj.
           apply (IHnone E4 j dj); try assumption; lia.
      * split; [intros H; contradiction | exact IHsome].
      * split; [| intros H; contradiction].
        intros _ j dj Hj N1 N2 N3 Hdj.
        destruct (Z.eq_dec j (Z.of_nat k)) as [-> | Hnk].
        -- rewrite date_at_of_nat in Hdj. congruence.
        -- apply (IHnone E4 j dj); try assumption; lia.
      * split; [intros H; contradiction | exact IHsome].
    + split; [| exact IHsome].
      intros H j dj Hj N1 N2 N3 Hdj.
      destruct (Z.eq_dec j (Z.of_nat k)) as [-> | Hnk].
      * rewrite date_at_of_nat in Hdj. congruence.
      * apply (IHnone H j dj); try assumption; lia.
Qed.

End Split.


(** On a column of dates that parse and has one date per row of [data],
    [date_split] returns the scan of all the rows. *)
Lemma date_split_scan
    (date_data : list string) (data : array) (ds : list datetime)
    (train_start_date train_end_date val_start_date val_end_date
       test_start_date test_end_date : string)
    (b1 b2 b3 b4 b5 b6 : datetime) :
  parse_dates date_data = Ok ds ->
  len date_data = len data ->
  strptime train_start_date = Ok b1 -> strptime train_end_date = Ok b2 ->
  strptime val_start_date = Ok b3 -> strptime val_end_date = Ok b4 ->
  strptime test_start_date = Ok b5 -> strptime test_end_date = Ok b6 ->
  date_split date_data data train_start_date train_end_date val_start_date
    val_end_date test_start_date test_end_date
  = Ok (split_scan b1 b2 b3 b4 b5 b6 ds (length data)).
Proof.
  intros Hparse Hlen H1 H2 H3 H4 H5 H6.
  unfold date_split. rewrite H1, H2, H3, H4, H5, H6. cbn [Py.bind].
  unfold find_split_indices, split_scan, len.
  apply for_each_rows_scan; [exact Hparse |].
  apply map_result_length in Hparse. unfold len in Hlen. lia.
Qed.

Ltac slice_arith :=
  unfold in_slice, train_bounds, val_bounds, test_bounds, slice_range,
    adjust_index;
  cbn [fst snd];
  repeat match goal with
  | |- context [?x <? 0] => destruct (Z.ltb_spec x 0)
  end;
  lia.

(** C3: on a series in non-decreasing calendar order, with ordered
    boundaries each reached by the date of some row,
    [date_add_to_train_val_test] slices three segments of the rows (for
    train, val and test) that are pairwise disjoint index ranges of the
    array. *)
Theorem date_split_segments_disjoint
    (date_data : list string) (data : array) (ds : list datetime)
    (train_start_date train_end_date val_start_date val_end_date
       test_start_date test_end_date : string)
    (b1 b2 b3 b4 b5 b6 : datetime) :
  parse_dates date_data = Ok ds ->
  len date_data = len data ->
  nondecreasing ds = true ->
  strptime train_start_date = Ok b1 -> strptime train_end_date = Ok b2 ->
  strptime val_start_date = Ok b3 -> strptime val_end_date = Ok b4 ->
  strptime test_start_date = Ok b5 -> strptime test_end_date = Ok b6 ->
  ge b2 b1 = true -> ge b3 b2 = true -> ge b4 b3 = true ->
  ge b5 b4 = true -> ge b6 b5 = true ->
  forallb (fun b => existsb (fun d => ge d b) ds) [b1; b2; b3; b4; b5; b6]
  = true ->
  exists s,
    date_split date_data data train_start_date train_end_date
      val_start_date val_end_date test_start_date test_end_date = Ok s
    /\ slices_disjoint (len data) (train_bounds s) (val_bounds s)
    /\ slices_disjoint (len data) (train_bounds s) (test_bounds s)
    /\ slices_disjoint (len data) (val_bounds s) (test_bounds s).
Proof.
  intros Hparse Hlen _ H1 H2 H3 H4 H5 H6 H12 H23 H34 _ _ _.
  exists (split_scan b1 b2 b3 b4 b5 b6 ds (length data)).
  split; [apply date_split_scan; assumption |].
  pose proof (split_scan_order b1 b2 b3 b4 b5 b6 ds H12 H23 H34
                (length data)) as (Hb & Hte & Hvs & Hve).
  set (s := split_scan b1 b2 b3 b4 b5 b6 ds (length data)) in *.
  unfold len.
  repeat split; intros j [Hj1 Hj2]; revert Hj1 Hj2; slice_arith.
Qed.

(** The rows the segments do leave out: on a series in non-decreasing
    calendar order, with [train_start_date <= train_end_date <=
    val_start_date <= val_end_date], a row whose date is before
    [train_start_date], or on or after [train_end_date] and before
    [val_start_date], belongs to none of the three segments, as long as
    it is not the row of [train_start_index] and, when no
    [val_end_index] is found, not the last row of the series. *)
Theorem date_split_drops_rows_outside_ranges
    (date_data : list string) (data : array) (ds : list datetime)
    (train_start_date train_end_date val_start_date val_end_date
       test_start_date test_end_date : string)
    (b1 b2 b3 b4 b5 b6 : datetime) :
  parse_dates date_data = Ok ds ->
  len date_data = len data ->
  nondecreasing ds = true ->
  strptime train_start_date = Ok b1 -> strptime train_end_date = Ok b2 ->
  strptime val_start_date = Ok b3 -> strptime val_end_date = Ok b4 ->
  strptime test_start_date = Ok b5 -> strptime test_end_date = Ok b6 ->
  ge b2 b1 = true -> ge b3 b2 = true -> ge b4 b3 = true ->
  exists s,
    date_split date_data data train_start_date train_end_date
      val_start_date val_end_date test_start_date test_end_date = Ok s
    /\ forall (j : Z) (d : datetime),
         date_at ds j = Some d ->
         j <> train_start_index s ->
         (val_end_index s = -1 -> j <> len data - 1) ->
         ge d b1 = false \/ (ge d b2 = true /\ ge d b3 = false) ->
         ~ in_slice (len data) (train_bounds s) j
         /\ ~ in_slice (len data) (val_bounds s) j
         /\ ~ in_slice (len data) (test_bounds s) j.
Proof.
  intros Hparse Hlen Hsorted H1 H2 H3 H4 H5 H6 H12 H23 H34.
  exists (split_scan b1 b2 b3 b4 b5 b6 ds (length data)).
  split; [apply date_split_scan; assumption |].
  pose proof (split_scan_order b1 b2 b3 b4 b5 b6 ds H12 H23 H34
                (length data)) as (Hb & Hte & Hvs & Hve).
  pose proof (split_scan_train_start b1 b2 b3 b4 b5 b6 ds (length data))
    as [Hts_none Hts_some].
  pose proof (split_scan_train_end b1 b2 b3 b4 b5 b6 ds (length data))
    as [Hte_none Hte_some].
  pose proof (split_scan_val_start b1 b2 b3 b4 b5 b6 ds (length data))
    as Hvs_some.
  set (s := split_scan b1 b2 b3 b4 b5 b6 ds (length data)) in *.
  assert (Hds : len ds = len data).
  { apply map_result_length in Hparse. unfold len in *. lia. }
  intros j d Hd Hnts Hlast Hdate.
  pose proof (date_at_some_range _ _ _ Hd) as Hj. rewrite Hds in Hj.
  unfold len in *.
  (* a row on or after [val_start_date] comes after row [j] *)
  assert (Hval : ge d b3 = false ->
                 val_start_index s = -1 \/ j < val_start_index s).
  { intros G3. destruct (Z.eq_dec (val_start_index s) (-1)) as [| Hne];
      [left; assumption | right].
    destruct (Hvs_some Hne) as [dv [Hdv Gv]].
    destruct (Z.lt_ge_cases j (val_start_index s)) as [| Hge];
      [assumption | exfalso].
    pose proof (nondecreasing_date_at ds _ _ _ _ Hsorted Hge Hdv Hd) as G.
    pose proof (ge_trans _ _ _ G Gv). congruence. }
  destruct Hdate as [G1 | [G2 G3]].
  - (* before the training range *)
    assert (Hbefore : train_start_index s = -1 \/ j < train_start_index s).
    { destruct (Z.eq_dec (train_start_index s) (-1)) as [| Hne];
        [left; assumption | right].
      destruct (Hts_some Hne) as [[dt [Hdt Gt]] _].
      destruct (Z.lt_ge_cases j (train_start_index s)) as [| Hge];
        [assumption | exfalso].
      pose proof (nondecreasing_date_at ds _ _ _ _ Hsorted Hge Hdt Hd) as G.
      pose proof (ge_trans _ _ _ G Gt). congruence. }
    clear Hts_none Hts_some Hte_none Hte_some Hvs_some Hval.
    repeat split; intros [Hj1 Hj2]; revert Hj1 Hj2; slice_arith.
  - (* between the training and the validation range *)
    pose proof (ge_trans _ _ _ G2 H12) as G1.
    assert (Hts : train_start_index s <> -1).
    { intros E. pose proof (Hts_none E j d Hj Hd). congruence. }
    assert (Hafter : train_start_index s < j).
    { destruct (Z.lt_ge_cases j (train_start_index s)) as [Hlt |]; [| lia].
      destruct (Hts_some Hts) as [_ Hprev].
      pose proof (Hprev j d (conj (proj1 Hj) Hlt) Hd). congruence. }
    assert (Hte' : train_end_index s <> -1).
    { intros E. pose proof (Hte_none E j d Hj Hnts Hd). congruence. }
    assert (Hend : train_end_index s <= j).
    { destruct (Z.lt_ge_cases j (train_end_index s)) as [Hlt |]; [| lia].
      destruct (Hte_some Hte') as [_ Hprev].
      pose proof (Hprev j d (conj (proj1 Hj) Hlt) Hnts Hd). congruence. }
    specialize (Hval G3).
    clear Hts_none Hts_some Hte_none Hte_some Hvs_some.
    repeat split; intros [Hj1 Hj2]; revert Hj1 Hj2; slice_arith.
Qed.

(* ================================================================== *)
(** * What the three segments hold *)
(* ================================================================== *)

(** X7: with [train_start_date <= train_end_date <= val_start_date <=
    val_end_date], the row of [train_end_index] (the first row on or
    after [train_end_date] other than the row of [train_start_index]) is in
    none of the three segments, unless it is the last row of the series
    and no [val_end_index] is found: the train slice stops before it and
    the val slice starts after it. *)
Theorem date_split_drops_row_of_train_end
    (date_data : list string) (data : array) (ds : list datetime)
    (train_start_date train_end_date val_start_date val_end_date
       test_start_date test_end_date : string)
    (b1 b2 b3 b4 b5 b6 : datetime) :
  parse_dates date_data = Ok ds ->
  len date_data = len data ->
  strptime train_start_date = Ok b1 -> strptime train_end_date = Ok b2 ->
  strptime val_start_date = Ok b3 -> strptime val_end_date = Ok b4 ->
  strptime test_start_date = Ok b5 -> strptime test_end_date = Ok b6 ->
  ge b2 b1 = true -> ge b3 b2 = true -> ge b4 b3 = true ->
  exists s,
    date_split date_data data train_start_date train_end_date
      val_start_date val_end_date test_start_date test_end_date = Ok s
    /\ (train_end_index s <> -1 ->
        (val_end_index s = -1 -> train_end_index s <> len data - 1) ->
        (exists d, date_at ds (train_end_index s) = Some d
           /\ ge d b2 = true)
        /\ ~ in_slice (len data) (train_bounds s) (train_end_index s)
        /\ ~ in_slice (len data) (val_bounds s) (train_end_index s)
        /\ ~ in_slice (len data) (test_bounds s) (train_end_index s)).
Proof.
  intros Hparse Hlen H1 H2 H3 H4 H5 H6 H12 H23 H34.
  exists (split_scan b1 b2 b3 b4 b5 b6 ds (length data)).
  split; [apply date_split_scan; assumption |].
  pose proof (split_scan_order b1 b2 b3 b4 b5 b6 ds H12 H23 H34
                (length data)) as (Hb & Hte & Hvs & Hve).
  pose proof (split_scan_train_end b1 b2 b3 b4 b5 b6 ds (length data))
    as [_ Hte_some].
  set (s := split_scan b1 b2 b3 b4 b5 b6 ds (length data)) in *.
  intros Hfound Hlast. unfold len in *.
  split; [apply (Hte_some Hfound) |].
  clear Hte_some.
  repeat split; intros [Hj1 Hj2]; revert Hj1 Hj2; slice_arith.
Qed.

(** X8: on a series in non-decreasing calendar order with ordered
    boundaries, the rows of the train slice are on or after
    [train_start_date] and, the row of [train_start_index] apart, before
    [train_end_date]; the rows of the val slice are on or after
    [val_start_date] and, the row of [val_start_index] apart, before
    [val_end_date]; and when [val_end_index] is found the rows of the
    test slice are on or after [val_end_date]. *)
Theorem date_split_segments_in_their_ranges
    (date_data : list string) (data : array) (ds : list datetime)
    (train_start_date train_end_date val_start_date val_end_date
       test_start_date test_end_date : string)
    (b1 b2 b3 b4 b5 b6 : datetime) :
  parse_dates date_data = Ok ds ->
  len date_data = len data ->
  nondecreasing ds = true ->
  strptime train_start_date = Ok b1 -> strptime train_end_date = Ok b2 ->
  strptime val_start_date = Ok b3 -> strptime val_end_date = Ok b4 ->
  strptime test_start_date = Ok b5 -> strptime test_end_date = Ok b6 ->
  ge b2 b1 = true -> ge b3 b2 = true -> ge b4 b3 = true ->
  exists s,
    date_split date_data data train_start_date train_end_date
      val_start_date val_end_date test_start_date test_end_date = Ok s
    /\ forall (j : Z) (d : datetime),
         date_at ds j = Some d ->
         (in_slice (len data) (train_bounds s) j ->
          ge d b1 = true
          /\ (j <> train_start_index s -> ge d b2 = false))
         /\ (in_slice (len data) (val_bounds s) j ->
             ge d b3 = true
             /\ (j <> val_start_index s -> ge d b4 = false))
         /\ (in_slice (len data) (test_bounds s) j ->
             val_end_index s <> -1 -> ge d b4 = true).
Proof.
  intros Hparse Hlen Hsorted H1 H2 H3 H4 H5 H6 H12 H23 H34.
  exists (split_scan b1 b2 b3 b4 b5 b6 ds (length data)).
  split; [apply date_split_scan; assumption |].
  pose proof (split_scan_order b1 b2 b3 b4 b5 b6 ds H12 H23 H34
                (length data)) as (Hb & Hte & Hvs & Hve).
  pose proof (split_scan_train_start b1 b2 b3 b4 b5 b6 ds (length data))
    as [_ Hts_some].
  pose proof (split_scan_train_end b1 b2 b3 b4 b5 b6 ds (length data))
    as [Hte_none Hte_some].
  pose proof (split_scan_val_start b1 b2 b3 b4 b5 b6 ds (length data))
    as Hvs_some.
  pose proof (split_scan_val_end b1 b2 b3 b4 b5 b6 ds (length data))
    as [Hve_none Hve_some].
  set (s := split_scan b1 b2 b3 b4 b5 b6 ds (length data)) in *.
  assert (Hds : len ds = len data).
  { apply map_result_length in Hparse. unfold len in *. lia. }
  intros j d Hd.
  pose proof (date_at_some_range _ _ _ Hd) as Hj. rewrite Hds in Hj.
  unfold len in *.
  split; [| split].
  - intros [Hlo Hhi].
    assert (Hts : train_start_index s <> -1).
    { intros E. revert Hlo Hhi. slice_arith. }
    assert (Hge : train_start_index s <= j) by (revert Hlo; slice_arith).
    destruct (Hts_some Hts) as [[d0 [Hd0 G0]] _].
    split.
    + apply ge_trans with d0; [| exact G0].
      apply (nondecreasing_date_at ds (train_start_index s) j);
        [exact Hsorted | exact Hge | exact Hd0 | exact Hd].
    + intros Hne.
      destruct (Z.eq_dec (train_end_index s) (-1)) as [E | Hne'].
      * apply (Hte_none E j d); [lia | exact Hne | exact Hd].
      * destruct (Hte_some Hne') as [_ Hbefore].
        apply (Hbefore j d); [| exact Hne | exact Hd].
        revert Hhi. slice_arith.
  - intros [Hlo Hhi].
    assert (Hvs1 : val_start_index s <> -1).
    { intros E. revert Hlo Hhi. slice_arith. }
    assert (Hge : val_start_index s <= j) by (revert Hlo; slice_arith).
    destruct (Hvs_some Hvs1) as [d0 [Hd0 G0]].
    split.
    + apply ge_trans with d0; [| exact G0].
      apply (nondecreasing_date_at ds (val_start_index s) j);
        [exact Hsorted | exact Hge | exact Hd0 | exact Hd].
    + intros Hne.
      destruct (Z.eq_dec (val_end_index s) (-1)) as [E | Hne'].
      * apply (Hve_none E j d); try assumption; lia.
      * destruct (Hve_some Hne') as [_ Hbefore].
        apply (Hbefore j d); try assumption; try lia.
        revert Hhi. slice_arith.
  - intros [Hlo Hhi] Hfound.
    destruct (Hve_some Hfound) as [[d0 [Hd0 G0]] _].
    assert (Hge : val_end_index s <= j) by (revert Hlo; slice_arith).
    apply ge_trans with d0; [| exact G0].
    apply (nondecreasing_date_at ds (val_end_index s) j);
      [exact Hsorted | exact Hge | exact Hd0 | exact Hd].
Qed.

(** Two loops whose bodies keep a relation between their states, and
    raise the same exceptions, end in related states or raise the same
    exception. *)
Lemma for_each_related {I S S' : Type} (R : S -> S' -> Prop)
    (body : I -> S -> result S) (body' : I -> S' -> result S') :
  (forall i s s', R s s' ->
     match body i s, body' i s' with
     | Ok t, Ok t' => R t t'
     | Raise e, Raise e' => e = e'
     | _, _ => False
     end) ->
  forall l s s', R s s' ->
    match for_each body l s, for_each body' l s' with
    | Ok t, Ok t' => R t t'
    | Raise e, Raise e' => e = e'
    | _, _ => False
    end.
Proof.
  intros Hbody l. induction l as [| i l IH]; intros s s' HR.
  - exact HR.
  - cbn [for_each]. specialize (Hbody i s s' HR).
    destruct (body i s) as [t | e], (body' i s') as [t' | e'];
      cbn [Py.bind]; try contradiction.
    + apply IH. exact Hbody.
    + exact Hbody.
Qed.

(** X9: [date_add_to_train_val_test] uses [test_start_date] and
    [test_end_date] only to set [test_start_index] and [test_end_index],
    which no slice reads: with any other two dates that parse it returns
    the same lists, or raises the same exception. *)
Theorem date_add_ignores_test_dates
    (date_data : list string) (data : array)
    (train val test : list x_t_pair)
    (train_start_date train_end_date val_start_date val_end_date : string)
    (test_start_date test_end_date test_start_date' test_end_date' : string)
    (b5 b6 b5' b6' : datetime) (x_length t_length : Z) :
  strptime test_start_date = Ok b5 -> strptime test_end_date = Ok b6 ->
  strptime test_start_date' = Ok b5' -> strptime test_end_date' = Ok b6' ->
  date_add_to_train_val_test date_data data train val test
    train_start_date train_end_date val_start_date val_end_date
    test_start_date test_end_date x_length t_length
  = date_add_to_train_val_test date_data data train val test
      train_start_date train_end_date val_start_date val_end_date
      test_start_date' test_end_date' x_length t_length.
Proof.
  intros H5 H6 H5' H6'.
  unfold date_add_to_train_val_test, date_split.
  destruct (strptime train_start_date) as [b1 |]; [| reflexivity].
  destruct (strptime train_end_date) as [b2 |]; [| reflexivity].
  destruct (strptime val_start_date) as [b3 |]; [| reflexivity].
  destruct (strptime val_end_date) as [b4 |]; [| reflexivity].
  rewrite H5, H6, H5', H6'. cbn [Py.bind].
  unfold find_split_indices.
  pose proof
    (for_each_related
       (fun s s' =>
          train_start_index s = train_start_index s'
          /\ train_end_index s = train_end_index s'
          /\ val_start_index s = val_start_index s'
          /\ val_end_index s = val_end_index s')
       (fun i s =>
          do date_str <- getitem date_data i;
          do date_i <- strptime date_str;
          Ok (split_step b1 b2 b3 b4 b5 b6 i date_i s))
       (fun i s =>
          do date_str <- getitem date_data i;
          do date_i <- strptime date_str;
          Ok (split_step b1 b2 b3 b4 b5' b6' i date_i s))) as Hrel.
  match type of Hrel with
  | ?P -> _ => assert (Hbody : P)
  end.
  { intros i s s' (E1 & E2 & E3 & E4).
    destruct (getitem date_data i) as [date_str |]; [| reflexivity].
    cbn [Py.bind].
    destruct (strptime date_str) as [d |]; [| reflexivity].
    cbn [Py.bind].
    rewrite !split_step_train_start, !split_step_train_end,
      !split_step_val_start, !split_step_val_end.
    rewrite E1, E2, E3, E4. auto. }
  specialize (Hrel Hbody (range (len data)) no_split_indices
                no_split_indices (conj eq_refl (conj eq_refl
                                    (conj eq_refl eq_refl)))).
  destruct (for_each _ (range (len data)) no_split_indices) as [s | e];
    destruct (for_each _ (range (len data)) no_split_indices) as [s' | e'];
    try contradiction.
  - destruct Hrel as (E1 & E2 & E3 & E4). cbn [Py.bind].
    unfold train_bounds, val_bounds, test_bounds. cbn [fst snd].
    rewrite E1, E2, E3, E4. reflexivity.
  - cbn [Py.bind]. f_equal. exact Hrel.
Qed.

(** A loop over the rows stops with [IndexError] at the first row that
    has no date. *)
Lemma for_each_rows_index_error {St : Type}
    (step : Z -> datetime -> St -> St) (init : St)
    (date_data : list string) (ds : list datetime) (N : Z) :
  parse_dates date_data = Ok ds ->
  len date_data < N ->
  for_each
    (fun i s =>
       do date_str <- getitem date_data i;
       do date_i <- strptime date_str;
       Ok (step i date_i s))
    (range N) init
  = Raise IndexError.
Proof.
  intros Hparse Hshort.
  assert (Hlen : length ds = length date_data)
    by (eapply map_result_length; exact Hparse).
  assert (Hsplit : range N
                   = range (Z.of_nat (length date_data))
                     ++ Z.of_nat (length date_data)
                        :: map Z.of_nat
                             (seq (S (length date_data))
                                (Z.to_nat N - S (length date_data)))).
  { unfold range, len in *. rewrite Nat2Z.id.
    replace (Z.to_nat N)
      with (length date_data
            + S (Z.to_nat N - S (length date_data)))%nat by lia.
    rewrite seq_app, map_app. cbn [seq map Nat.add].
    replace (length date_data
             + S (Z.to_nat N - S (length date_data))
             - S (length date_data))%nat
      with (Z.to_nat N - S (length date_data))%nat by lia.
    reflexivity. }
  rewrite Hsplit, for_each_app.
  rewrite (for_each_rows_scan step init date_data ds (length date_data)
             Hparse) by lia.
  cbn [Py.bind for_each]. unfold getitem at 1.
  replace (Z.of_nat (length date_data) <? 0) with false
    by (symmetry; apply Z.ltb_ge; lia).
  replace (Z.of_nat (length date_data) <? len date_data) with false
    by (symmetry; apply Z.ltb_ge; unfold len; lia).
  rewrite andb_false_r. reflexivity.
Qed.

(** X10: when the column of dates is shorter than the array of rows
    (and the dates parse), both searches raise [IndexError]:
    [date_add_to_train_val_test] and [get_data_within_date_range] read
    one date for every row of [data]. *)
Theorem short_date_column_raises_index_error
    (date_data : list string) (data : array) (ds : list datetime) :
  parse_dates date_data = Ok ds ->
  len date_data < len data ->
  (forall (train val test : list x_t_pair)
          (d1 d2 d3 d4 d5 d6 : string) (b1 b2 b3 b4 b5 b6 : datetime)
          (x_length t_length : Z),
     strptime d1 = Ok b1 -> strptime d2 = Ok b2 -> strptime d3 = Ok b3 ->
     strptime d4 = Ok b4 -> strptime d5 = Ok b5 -> strptime d6 = Ok b6 ->
     date_add_to_train_val_test date_data data train val test
       d1 d2 d3 d4 d5 d6 x_length t_length = Raise IndexError)
  /\ (forall (x_length t_length : Z) (start_date end_date : string)
             (b1 b2 : datetime),
        strptime start_date = Ok b1 -> strptime end_date = Ok b2 ->
        get_data_within_date_range date_data data x_length t_length
          start_date end_date = Raise IndexError).
Proof.
  intros Hparse Hshort. split.
  - intros train val test d1 d2 d3 d4 d5 d6 b1 b2 b3 b4 b5 b6
      x_length t_length H1 H2 H3 H4 H5 H6.
    unfold date_add_to_train_val_test, date_split.
    rewrite H1, H2, H3, H4, H5, H6. cbn [Py.bind].
    unfold find_split_indices.
    rewrite (for_each_rows_index_error _ _ date_data ds (len data)
               Hparse Hshort).
    reflexivity.
  - intros x_length t_length start_date end_date b1 b2 H1 H2.
    unfold get_data_within_date_range, date_range_indices.
    rewrite H1, H2. cbn [Py.bind]. unfold find_date_range.
    rewrite (for_each_rows_index_error _ _ date_data ds (len data)
               Hparse Hshort).
    reflexivity.
Qed.

(* ================================================================== *)
(** * The search of [get_data_within_date_range] *)
(* ================================================================== *)

(** The loop of [get_data_within_date_range] is the search of the first
    two indices of [date_add_to_train_val_test]. *)
Lemma range_scan_split_scan (b1 b2 b3 b4 b5 b6 : datetime)
    (ds : list datetime) (k : nat) :
  range_scan b1 b2 ds k =
  (train_start_index (split_scan b1 b2 b3 b4 b5 b6 ds k),
   train_end_index (split_scan b1 b2 b3 b4 b5 b6 ds k)).
Proof.
  induction k as [| k IH]; [reflexivity |].
  rewrite split_scan_succ. unfold range_scan in *. cbn [scan_rows].
  destruct (nth_error ds k) as [d |]; [| exact IH].
  rewrite IH, split_step_train_start, split_step_train_end.
  unfold range_step.
  destruct (ge d b1 && (train_start_index _ =? -1)); [reflexivity |].
  destruct (ge d b2 && (train_end_index _ =? -1)); reflexivity.
Qed.

Lemma date_range_indices_scan
    (date_data : list string) (data : array) (ds : list datetime)
    (start_date end_date : string) (b1 b2 : datetime) :
  parse_dates date_data = Ok ds ->
  len date_data = len data ->
  strptime start_date = Ok b1 -> strptime end_date = Ok b2 ->
  date_range_indices date_data data start_date end_date
  = Ok (range_scan b1 b2 ds (length data)).
Proof.
  intros Hparse Hlen H1 H2.
  unfold date_range_indices. rewrite H1, H2. cbn [Py.bind].
  unfold find_date_range, range_scan, len.
  apply for_each_rows_scan; [exact Hparse |].
  apply map_result_length in Hparse. unfold len in Hlen. lia.
Qed.

(** When the search finds both indices and the row of [start_index] is
    before [end_date], the slice [data[start_index:end_index]] of a
    sorted series is exactly the rows with
    [start_date <= date < end_date]. *)
Lemma date_range_exact_when_end_found
    (date_data : list string) (data : array) (ds : list datetime)
    (start_date end_date : string) (b1 b2 : datetime) :
  parse_dates date_data = Ok ds ->
  len date_data = len data ->
  nondecreasing ds = true ->
  strptime start_date = Ok b1 -> strptime end_date = Ok b2 ->
  ge b2 b1 = true ->
  exists start_index end_index,
    date_range_indices date_data data start_date end_date
    = Ok (start_index, end_index)
    /\ (start_index <> -1 -> end_index <> -1 ->
        (exists d, date_at ds start_index = Some d /\ ge d b2 = false) ->
        forall j,
          in_slice (len data) (Some start_index, Some end_index) j
          <-> exists d, date_at ds j = Some d
                /\ ge d b1 = true /\ ge d b2 = false).
Proof.
  intros Hparse Hlen Hsorted H1 H2 H12.
  rewrite (date_range_indices_scan _ _ ds _ _ b1 b2 Hparse Hlen H1 H2).
  rewrite (range_scan_split_scan b1 b2 b2 b2 b2 b2).
  pose proof (split_scan_order b1 b2 b2 b2 b2 b2 ds H12 (ge_refl b2)
                (ge_refl b2) (length data)) as (Hb & Hte & _).
  pose proof (split_scan_train_start b1 b2 b2 b2 b2 b2 ds (length data))
    as [_ Hts_some].
  pose proof (split_scan_train_end b1 b2 b2 b2 b2 b2 ds (length data))
    as [_ Hte_some].
  set (s := split_scan b1 b2 b2 b2 b2 b2 ds (length data)) in *.
  exists (train_start_index s), (train_end_index s).
  split; [reflexivity |].
  intros Hs He [dstart [Hdstart Gstart]] j.
  destruct (Hts_some Hs) as [[d1 [Hd1 G1]] Hbefore].
  destruct (Hte_some He) as [[d2 [Hd2 G2]] Hbetween].
  assert (Hds : len ds = len data).
  { apply map_result_length in Hparse. unfold len in *. lia. }
  assert (Hin : in_slice (len data)
                  (Some (train_start_index s), Some (train_end_index s)) j
                <-> train_start_index s <= j < train_end_index s).
  { unfold len. split.
    - intros [Hj1 Hj2]. revert Hj1 Hj2. slice_arith.
    - intros Hj. split; slice_arith. }
  rewrite Hin. split.
  - intros Hj.
    destruct (date_at ds j) as [d |] eqn:Hd.
    2: { unfold date_at in Hd.
         destruct (j <? 0) eqn:E; [apply Z.ltb_lt in E; lia |].
         apply nth_error_None in Hd. unfold len in *. lia. }
    exists d. split; [reflexivity |]. split.
    + apply ge_trans with d1; [| exact G1].
      apply (nondecreasing_date_at ds (train_start_index s) j);
        [exact Hsorted | lia | exact Hd1 | exact Hd].
    + destruct (Z.eq_dec j (train_start_index s)) as [-> | Hne].
      * congruence.
      * apply (Hbetween j d); [lia | exact Hne | exact Hd].
  - intros [d [Hd [Gd1 Gd2]]].
    pose proof (date_at_some_range _ _ _ Hd) as Hj.
    split.
    + destruct (Z.lt_ge_cases j (train_start_index s)) as [Hlt |]; [| lia].
      pose proof (Hbefore j d (conj (proj1 Hj) Hlt) Hd). congruence.
    + destruct (Z.lt_ge_cases j (train_end_index s)) as [| Hge];
        [assumption | exfalso].
      pose proof (nondecreasing_date_at ds _ _ _ _ Hsorted Hge Hd2 Hd) as G.
      pose proof (ge_trans _ _ _ G G2). congruence.
Qed.

(** The two indices of the search of [get_data_within_date_range] after
    [k] rows, on any series: each is -1 or the first row on or after its
    date, the end index skipping the row of the start index. *)
Lemma range_scan_spec (b1 b2 : datetime) (ds : list datetime) (k : nat) :
  let start_index := fst (range_scan b1 b2 ds k) in
  let end_index := snd (range_scan b1 b2 ds k) in
  (-1 <= start_index < Z.of_nat k /\ -1 <= end_index < Z.of_nat k
   /\ (end_index <> -1 -> end_index <> start_index))
  /\ (start_index = -1 ->
      forall j d, 0 <= j < Z.of_nat k -> date_at ds j = Some d ->
        ge d b1 = false)
  /\ (start_index <> -1 ->
      (exists d, date_at ds start_index = Some d /\ ge d b1 = true)
      /\ forall j d, 0 <= j < start_index -> date_at ds j = Some d ->
           ge d b1 = false)
  /\ (end_index = -1 ->
      forall j d, 0 <= j < Z.of_nat k -> j <> start_index ->
        date_at ds j = Some d -> ge d b2 = false)
  /\ (end_index <> -1 ->
      (exists d, date_at ds end_index = Some d /\ ge d b2 = true)
      /\ forall j d, 0 <= j < end_index -> j <> start_index ->
           date_at ds j = Some d -> ge d b2 = false).
Proof.
  cbv zeta. split.
  - induction k as [| k IH]; [cbn; lia |].
    unfold range_scan in *. cbn [scan_rows].
    destruct (nth_error ds k) as [d |]; [| lia].
    destruct (scan_rows (range_step b1 b2) (-1, -1) ds k) as [si ei].
    unfold range_step. cbn [fst snd] in IH.
    destruct (ge d b1 && (si =? -1)); [cbn [fst snd]; lia |].
    destruct (ge d b2 && (ei =? -1)); cbn [fst snd]; lia.
  - rewrite (range_scan_split_scan b1 b2 b2 b2 b2 b2). cbn [fst snd].
    pose proof (split_scan_train_start b1 b2 b2 b2 b2 b2 ds k) as [H1 H2].
    pose proof (split_scan_train_end b1 b2 b2 b2 b2 b2 ds k) as [H3 H4].
    auto.
Qed.




(** X3: on any series whose dates parse, the search of
    [get_data_within_date_range] returns for [start_index] the first row
    on or after [start_date] and for [end_index] the first row on or
    after [end_date] that is not the row of [start_index]; an index is
    -1 exactly when there is no such row. *)
Theorem date_range_indices_found
    (date_data : list string) (data : array) (ds : list datetime)
    (start_date end_date : string) (b1 b2 : datetime) :
  parse_dates date_data = Ok ds ->
  len date_data = len data ->
  strptime start_date = Ok b1 -> strptime end_date = Ok b2 ->
  exists start_index end_index,
    date_range_indices date_data data start_date end_date
    = Ok (start_index, end_index)
    /\ (start_index = -1 ->
        forall j d, date_at ds j = Some d -> ge d b1 = false)
    /\ (start_index <> -1 ->
        (exists d, date_at ds start_index = Some d /\ ge d b1 = true)
        /\ forall j d, 0 <= j < start_index -> date_at ds j = Some d ->
             ge d b1 = false)
    /\ (end_index = -1 ->
        forall j d, j <> start_index -> date_at ds j = Some d ->
          ge d b2 = false)
    /\ (end_index <> -1 ->
        end_index <> start_index
        /\ (exists d, date_at ds end_index = Some d /\ ge d b2 = true)
        /\ forall j d, 0 <= j < end_index -> j <> start_index ->
             date_at ds j = Some d -> ge d b2 = false).
Proof.
  intros Hparse Hlen H1 H2.
  rewrite (date_range_indices_scan _ _ ds _ _ b1 b2 Hparse Hlen H1 H2).
  pose proof (range_scan_spec b1 b2 ds (length data))
    as ((_ & _ & Hne) & Hs0 & Hs1 & He0 & He1).
  assert (Hds : len ds = Z.of_nat (length data)).
  { apply map_result_length in Hparse. unfold len in *. lia. }
  destruct (range_scan b1 b2 ds (length data)) as [si ei].
  cbn [fst snd] in *. exists si, ei. split; [reflexivity |].
  split; [| split; [| split]].
  - intros E j d Hd. pose proof (date_at_some_range _ _ _ Hd).
    apply (Hs0 E j d); [lia | exact Hd].
  - exact Hs1.
  - intros E j d Hne' Hd. pose proof (date_at_some_range _ _ _ Hd).
    apply (He0 E j d); [lia | exact Hne' | exact Hd].
  - intros E. destruct (He1 E) as [Hd Hbefore]. auto.
Qed.


(** X5: on a series in non-decreasing calendar order, the slice
    [data[start_index:end_index]] of [get_data_within_date_range] holds
    only rows on or after [start_date], and among them only the row of
    [start_index] can be on or after [end_date]. *)
Theorem date_range_slice_sound
    (date_data : list string) (data : array) (ds : list datetime)
    (start_date end_date : string) (b1 b2 : datetime) :
  parse_dates date_data = Ok ds ->
  len date_data = len data ->
  nondecreasing ds = true ->
  strptime start_date = Ok b1 -> strptime end_date = Ok b2 ->
  exists start_index end_index,
    date_range_indices date_data data start_date end_date
    = Ok (start_index, end_index)
    /\ forall j d,
         date_at ds j = Some d ->
         in_slice (len data) (Some start_index, Some end_index) j ->
         ge d b1 = true /\ (j <> start_index -> ge d b2 = false).
Proof.
  intros Hparse Hlen Hsorted H1 H2.
  rewrite (date_range_indices_scan _ _ ds _ _ b1 b2 Hparse Hlen H1 H2).
  pose proof (range_scan_spec b1 b2 ds (length data))
    as ((Hsi & Hei & _) & _ & Hs1 & He0 & He1).
  destruct (range_scan b1 b2 ds (length data)) as [si ei].
  cbn [fst snd] in *. exists si, ei. split; [reflexivity |].
  assert (Hds : len ds = Z.of_nat (length data)).
  { apply map_result_length in Hparse. unfold len in *. lia. }
  intros j d Hd [Hlo Hhi]. pose proof (date_at_some_range _ _ _ Hd) as Hj.
  unfold len in Hlo, Hhi.
  destruct (Z.eq_dec si (-1)) as [-> | Hsi1].
  { exfalso. revert Hlo Hhi. slice_arith. }
  destruct (Hs1 Hsi1) as [[ds0 [Hds0 G0]] _].
  assert (Hge : si <= j) by (revert Hlo; slice_arith).
  split.
  - apply ge_trans with ds0; [| exact G0].
    apply (nondecreasing_date_at ds si j);
      [exact Hsorted | exact Hge | exact Hds0 | exact Hd].
  - intros Hne. destruct (Z.eq_dec ei (-1)) as [E | Hei1].
    + apply (He0 E j d); [lia | exact Hne | exact Hd].
    + destruct (He1 Hei1) as [_ Hbefore].
      apply (Hbefore j d); [| exact Hne | exact Hd].
      revert Hhi. slice_arith.
Qed.

(** X6: on a series in non-decreasing calendar order, the slice of
    [get_data_within_date_range] holds every row with
    [start_date <= date < end_date], except the last row of the series
    when no [end_index] is found. *)
Theorem date_range_slice_complete
    (date_data : list string) (data : array) (ds : list datetime)
    (start_date end_date : string) (b1 b2 : datetime) :
  parse_dates date_data = Ok ds ->
  len date_data = len data ->
  nondecreasing ds = true ->
  strptime start_date = Ok b1 -> strptime end_date = Ok b2 ->
  exists start_index end_index,
    date_range_indices date_data data start_date end_date
    = Ok (start_index, end_index)
    /\ forall j d,
         date_at ds j = Some d ->
         ge d b1 = true -> ge d b2 = false ->
         (end_index = -1 -> j <> len data - 1) ->
         in_slice (len data) (Some start_index, Some end_index) j.
Proof.
  intros Hparse Hlen Hsorted H1 H2.
  rewrite (date_range_indices_scan _ _ ds _ _ b1 b2 Hparse Hlen H1 H2).
  pose proof (range_scan_spec b1 b2 ds (length data))
    as ((Hsi & Hei & _) & Hs0 & Hs1 & _ & He1).
  destruct (range_scan b1 b2 ds (length data)) as [si ei].
  cbn [fst snd] in *. exists si, ei. split; [reflexivity |].
  assert (Hds : len ds = Z.of_nat (length data)).
  { apply map_result_length in Hparse. unfold len in *. lia. }
  intros j d Hd G1 G2 Hlast. pose proof (date_at_some_range _ _ _ Hd) as Hj.
  unfold len in Hlast |- *.
  assert (Hsi1 : si <> -1).
  { intros E. pose proof (Hs0 E j d ltac:(lia) Hd). congruence. }
  destruct (Hs1 Hsi1) as [_ Hbefore].
  assert (Hge : si <= j).
  { destruct (Z.lt_ge_cases j si) as [Hlt |]; [| assumption].
    pose proof (Hbefore j d (conj (proj1 Hj) Hlt) Hd). congruence. }
  assert (Hlt : ei <> -1 -> j < ei).
  { intros Hei1. destruct (He1 Hei1) as [[de [Hde Ge]] _].
    destruct (Z.lt_ge_cases j ei) as [| Hge']; [assumption | exfalso].
    pose proof (nondecreasing_date_at ds _ _ _ _ Hsorted Hge' Hde Hd) as G.
    pose proof (ge_trans _ _ _ G Ge). congruence. }
  clear Hs0 Hs1 He1 Hbefore.
  destruct (Z.eq_dec ei (-1)) as [E | Hei1].
  - specialize (Hlast E). subst ei. split; slice_arith.
  - specialize (Hlt Hei1). split; slice_arith.
Qed.

(** X20: the two ways of splitting agree on the training range: what
    [date_add_to_train_val_test] appends to the train list for a series
    is what [get_data_within_date_range] returns for that series between
    [train_start_date] and [train_end_date]. *)
Theorem train_list_is_the_date_range_of_train_dates
    (date_data : list string) (data : array) (ds : list datetime)
    (train val test : list x_t_pair)
    (train_start_date train_end_date val_start_date val_end_date
       test_start_date test_end_date : string)
    (b1 b2 b3 b4 b5 b6 : datetime) (x_length t_length : Z) :
  parse_dates date_data = Ok ds ->
  len date_data = len data ->
  strptime train_start_date = Ok b1 -> strptime train_end_date = Ok b2 ->
  strptime val_start_date = Ok b3 -> strptime val_end_date = Ok b4 ->
  strptime test_start_date = Ok b5 -> strptime test_end_date = Ok b6 ->
  exists to_add val' test',
    get_data_within_date_range date_data data x_length t_length
      train_start_date train_end_date = Ok to_add
    /\ date_add_to_train_val_test date_data data train val test
         train_start_date train_end_date val_start_date val_end_date
         test_start_date test_end_date x_length t_length
       = Ok (train ++ to_add, val', test').
Proof.
  intros Hparse Hlen H1 H2 H3 H4 H5 H6.
  unfold get_data_within_date_range, date_add_to_train_val_test.
  rewrite (date_range_indices_scan _ _ ds _ _ b1 b2 Hparse Hlen H1 H2).
  rewrite (date_split_scan _ _ ds _ _ _ _ _ _ b1 b2 b3 b4 b5 b6
             Hparse Hlen H1 H2 H3 H4 H5 H6).
  rewrite (range_scan_split_scan b1 b2 b3 b4 b5 b6).
  cbn [Py.bind]. unfold train_bounds. cbn [fst snd].
  eexists. eexists. eexists. split; reflexivity.
Qed.

(* ================================================================== *)
(** * Windows stay inside one file *)
(* ================================================================== *)

Lemma firstn_own_length {A : Type} (n : nat) (l : list A) :
  firstn n l = firstn (length (firstn n l)) l.
Proof.
  rewrite length_firstn. destruct (Nat.le_ge_cases n (length l)) as [H | H].
  - rewrite Nat.min_l by exact H. reflexivity.
  - rewrite Nat.min_r by exact H. rewrite !firstn_all2 by lia. reflexivity.
Qed.

(** A run of rows of a run of rows of [data] is a run of rows of
    [data]. *)
Lemma run_of_run {A : Type} (data : list A) (n m p q : nat) :
  firstn n (skipn m (firstn p (skipn q data))) =
  firstn (Nat.min n (p - m)) (skipn (q + m) data).
Proof.
  rewrite skipn_firstn_comm, firstn_firstn, skipn_skipn.
  f_equal. f_equal. lia.
Qed.

Lemma slice_of_slice_is_run (data : array)
    (start stop start' stop' : option Z) :
  exists i,
    is_run data i (slice (slice data start stop) start' stop').
Proof.
  pose proof (slice_is_run data start stop) as H.
  destruct (slice_range (len data) start stop) as [lo hi].
  destruct H as [E [Hlo Hhi]].
  pose proof (slice_is_run (slice data start stop) start' stop') as H'.
  destruct (slice_range (len (slice data start stop)) start' stop')
    as [lo' hi'].
  destruct H' as [E' [Hlo' Hhi']].
  exists (lo + lo'). split; [lia |].
  rewrite E'. rewrite E. rewrite run_of_run.
  replace (Z.to_nat (lo + lo')) with (Z.to_nat lo + Z.to_nat lo')%nat
    by lia.
  apply firstn_own_length.
Qed.

(** A slice inside a slice of [data] is a slice of [data], shifted by
    the position of the outer slice. *)
Lemma slice_of_slice_inside (data : array) (start stop : option Z)
    (a b : Z) :
  0 <= a -> a <= b -> b <= len (slice data start stop) ->
  let lo := fst (slice_range (len data) start stop) in
  0 <= lo /\ lo + len (slice data start stop) <= len data
  /\ slice (slice data start stop) (Some a) (Some b)
     = slice data (Some (lo + a)) (Some (lo + b)).
Proof.
  intros Ha Hab Hb.
  pose proof (slice_is_run data start stop) as H.
  destruct (slice_range (len data) start stop) as [lo hi].
  destruct H as [E [Hlo Hhi]]. cbn [fst].
  assert (Hlen : len (slice data start stop) = Z.max 0 (hi - lo)).
  { rewrite E. unfold len in *. rewrite length_firstn, length_skipn. lia. }
  split; [lia |]. split; [lia |].
  rewrite (slice_inside (slice data start stop)) by lia.
  rewrite (slice_inside data) by lia.
  rewrite E. rewrite run_of_run.
  replace (Z.to_nat (lo + a)) with (Z.to_nat lo + Z.to_nat a)%nat by lia.
  f_equal. lia.
Qed.

(** The pairs windowed out of a slice of [data] are windows of
    [data]. *)
Lemma make_pairs_of_slice (data : array) (start stop : option Z)
    (x_length t_length : Z) (x t : tensor) :
  In (x, t)
     (make_x_t_tuple_tensor_pairs_in_place (slice data start stop)
        x_length t_length) ->
  window_of data x t
  /\ (0 < x_length -> 0 < t_length ->
      adjacent_window_of data x_length t_length x t).
Proof.
  intros Hin. apply make_pairs_in in Hin. destruct Hin as [i [Hi [-> ->]]].
  split.
  - split; apply slice_of_slice_is_run.
  - intros Hx Ht.
    destruct (slice_of_slice_inside data start stop i (i + x_length))
      as [Hlo [Hfit Ex]]; [lia | lia | lia |].
    destruct (slice_of_slice_inside data start stop (i + x_length)
                (i + x_length + t_length))
      as [_ [_ Et]]; [lia | lia | lia |].
    exists (fst (slice_range (len data) start stop) + i).
    split; [lia |]. split; [lia |].
    rewrite Ex, Et. split; f_equal; f_equal; lia.
Qed.

(** What [date_add_to_train_val_test] adds to each list are windows of
    the series it is given. *)
Lemma date_add_windows
    (date_data : list string) (data : array)
    (train val test train' val' test' : list x_t_pair)
    (d1 d2 d3 d4 d5 d6 : string) (x_length t_length : Z) :
  date_add_to_train_val_test date_data data train val test
    d1 d2 d3 d4 d5 d6 x_length t_length = Ok (train', val', test') ->
  forall x t, In (x, t) (train' ++ val' ++ test') ->
    In (x, t) (train ++ val ++ test)
    \/ (window_of data x t
        /\ (0 < x_length -> 0 < t_length ->
            adjacent_window_of data x_length t_length x t)).
Proof.
  unfold date_add_to_train_val_test. intros H x t Hin.
  apply bind_ok_inv in H. destruct H as [s [_ H]].
  injection H as <- <- <-.
  rewrite !in_app_iff in Hin. rewrite !in_app_iff.
  destruct Hin as [[Hin | Hin] | [[Hin | Hin] | [Hin | Hin]]]; auto;
    right; eapply make_pairs_of_slice; exact Hin.
Qed.

Section OneFile.

Variable process : option (array -> result array).
Variable directory : string.
Variables x_length t_length : Z.

(** The pair [(x, t)] is a window of the series of one file among
    [files]. *)
Local Abbreviation from_one_file files x t :=
  (exists file file_dates file_data,
     In file files
     /\ load_price_data_into_numpy_array file directory process
        = Ok (file_dates, file_data)
     /\ window_of file_data x t
     /\ (0 < x_length -> 0 < t_length ->
         adjacent_window_of file_data x_length t_length x t)).

Lemma date_make_loop_windows (d1 d2 d3 d4 d5 d6 : string)
    (all files : list string)
    (acc acc' : list x_t_pair * list x_t_pair * list x_t_pair) :
  incl files all ->
  for_each
    (fun file '(train, val, test) =>
       do '(file_dates, file_data) <-
         load_price_data_into_numpy_array file directory process;
       date_add_to_train_val_test file_dates file_data train val test
         d1 d2 d3 d4 d5 d6 x_length t_length)
    files acc = Ok acc' ->
  (forall x t,
     In (x, t) (fst (fst acc) ++ snd (fst acc) ++ snd acc) ->
     from_one_file all x t) ->
  forall x t,
    In (x, t) (fst (fst acc') ++ snd (fst acc') ++ snd acc') ->
    from_one_file all x t.
Proof.
  revert acc. induction files as [| file files IH]; intros acc Hincl H Hacc.
  - simpl in H. injection H as <-. exact Hacc.
  - simpl in H. apply bind_ok_inv in H. destruct H as [acc1 [Hstep H]].
    apply (IH acc1); [intros f Hf; apply Hincl; right; exact Hf | exact H |].
    destruct acc as [[train val] test].
    apply bind_ok_inv in Hstep.
    destruct Hstep as [[file_dates file_data] [Hload Hadd]].
    destruct acc1 as [[train1 val1] test1]. cbn [fst snd] in *.
    intros x t Hin.
    destruct (date_add_windows _ _ _ _ _ _ _ _ _ _ _ _ _ _ _ _ Hadd x t Hin)
      as [Hold | [Hw Hadj]].
    + apply Hacc. exact Hold.
    + exists file, file_dates, file_data.
      split; [apply Hincl; left; reflexivity |]. auto.
Qed.

Lemma add_x_t_data_windows (train_start_date train_end_date : string)
    (files : list string) (start_date end_date : string)
    (acc acc' : list x_t_pair) :
  add_x_t_data process train_start_date train_end_date files directory
    x_length t_length start_date end_date acc = Ok acc' ->
  forall x t, In (x, t) acc' ->
    In (x, t) acc \/ from_one_file files x t.
Proof.
  unfold add_x_t_data.
  revert acc. induction files as [| file files IH]; intros acc H x t Hin.
  - simpl in H. injection H as <-. left. exact Hin.
  - simpl in H. apply bind_ok_inv in H. destruct H as [acc1 [Hstep H]].
    destruct (IH acc1 H x t Hin)
      as [Hold | (f & fd & fdata & Hf & Hload & Hw)].
    + apply bind_ok_inv in Hstep.
      destruct Hstep as [[dates_array data_array] [Hload Hstep]].
      apply bind_ok_inv in Hstep. destruct Hstep as [to_add [Hget Hstep]].
      injection Hstep as <-.
      apply in_app_or in Hold. destruct Hold as [Hold | Hnew];
        [left; exact Hold | right].
      unfold get_data_within_date_range in Hget.
      apply bind_ok_inv in Hget.
      destruct Hget as [[start_index end_index] [_ Hget]].
      injection Hget as <-.
      exists file, dates_array, data_array.
      split; [left; reflexivity |]. split; [exact Hload |].
      eapply make_pairs_of_slice. exact Hnew.
    + right. exists f, fd, fdata. split; [right; exact Hf |]. auto.
Qed.

End OneFile.

(** C5: every pair that [date_make_train_val_test_data] and
    [data_split_symbol_and_date] put in the train, val or test list is a
    window over consecutive rows of the series of a single input file
    (with positive lengths: [x_length] rows followed by the next
    [t_length] rows of that file). *)
Theorem windows_stay_within_one_file :
  (forall (data_directory : string) (x_length t_length : Z)
          (d1 d2 d3 d4 d5 d6 : string)
          (process : option (array -> result array))
          (train val test : list x_t_pair) (x t : tensor),
     date_make_train_val_test_data data_directory x_length t_length
       d1 d2 d3 d4 d5 d6 process = Ok (train, val, test) ->
     In (x, t) (train ++ val ++ test) ->
     exists data_files file file_dates file_data,
       listdir data_directory = Ok data_files
       /\ In file data_files
       /\ load_price_data_into_numpy_array file data_directory process
          = Ok (file_dates, file_data)
       /\ window_of file_data x t
       /\ (0 < x_length -> 0 < t_length ->
           adjacent_window_of file_data x_length t_length x t))
  /\
  (forall (train_files val_files test_files : list string) (path : string)
          (d1 d2 d3 d4 d5 d6 : string) (x_length t_length : Z)
          (process : option (array -> result array))
          (train val test : list x_t_pair),
     data_split_symbol_and_date train_files val_files test_files path
       d1 d2 d3 d4 d5 d6 x_length t_length process
     = Ok (train, val, test) ->
     forall (files : list string) (pairs : list x_t_pair) (x t : tensor),
       In (files, pairs)
          [(train_files, train); (val_files, val); (test_files, test)] ->
       In (x, t) pairs ->
       exists file file_dates file_data,
         In file files
         /\ load_price_data_into_numpy_array file path process
            = Ok (file_dates, file_data)
         /\ window_of file_data x t
         /\ (0 < x_length -> 0 < t_length ->
             adjacent_window_of file_data x_length t_length x t)).
Proof.
  split.
  - intros data_directory x_length t_length d1 d2 d3 d4 d5 d6 process
      train val test x t H Hin.
    unfold date_make_train_val_test_data in H.
    apply bind_ok_inv in H. destruct H as [data_files [Hls H]].
    exists data_files.
    destruct (date_make_loop_windows process data_directory x_length
                t_length d1 d2 d3 d4 d5 d6 data_files data_files
                ([], [], []) (train, val, test)
                (incl_refl _) H) with (x := x) (t := t)
      as (file & fd & fdata & Hfile & Hload & Hw).
    + cbn. intros x' t' [].
    + exact Hin.
    + exists file, fd, fdata. auto.
  - intros train_files val_files test_files path d1 d2 d3 d4 d5 d6
      x_length t_length process train val test H files pairs x t Hsel Hin.
    unfold data_split_symbol_and_date in H.
    apply bind_ok_inv in H. destruct H as [train0 [Htrain H]].
    apply bind_ok_inv in H. destruct H as [val0 [Hval H]].
    apply bind_ok_inv in H. destruct H as [test0 [Htest H]].
    injection H as <- <- <-.
    destruct Hsel as [E | [E | [E | []]]]; injection E as <- <-.
    + destruct (add_x_t_data_windows _ _ _ _ _ _ _ _ _ _ _ Htrain x t Hin)
        as [[] | Hfile]; exact Hfile.
    + destruct (add_x_t_data_windows _ _ _ _ _ _ _ _ _ _ _ Hval x t Hin)
        as [[] | Hfile]; exact Hfile.
    + destruct (add_x_t_data_windows _ _ _ _ _ _ _ _ _ _ _ Htest x t Hin)
        as [[] | Hfile]; exact Hfile.
Qed.

(* ================================================================== *)
(** * A directory is the concatenation of its files *)
(* ================================================================== *)

(** What [date_add_to_train_val_test] returns for lists that already
    hold pairs is what it returns for empty lists, appended to them. *)
Lemma date_add_appends
    (date_data : list string) (data : array)
    (train val test train' val' test' : list x_t_pair)
    (d1 d2 d3 d4 d5 d6 : string) (x_length t_length : Z) :
  date_add_to_train_val_test date_data data train val test
    d1 d2 d3 d4 d5 d6 x_length t_length = Ok (train', val', test') ->
  exists new_train new_val new_test,
    date_add_to_train_val_test date_data data [] [] []
      d1 d2 d3 d4 d5 d6 x_length t_length
    = Ok (new_train, new_val, new_test)
    /\ train' = train ++ new_train
    /\ val' = val ++ new_val
    /\ test' = test ++ new_test.
Proof.
  unfold date_add_to_train_val_test. intros H.
  apply bind_ok_inv in H. destruct H as [s [Hs H]].
  injection H as <- <- <-. rewrite Hs. cbn [Py.bind app].
  eexists. eexists. eexists. split; [reflexivity |]. auto.
Qed.

Lemma date_make_loop_concat
    (directory : string) (x_length t_length : Z)
    (d1 d2 d3 d4 d5 d6 : string)
    (process : option (array -> result array))
    (files : list string)
    (acc acc' : list x_t_pair * list x_t_pair * list x_t_pair) :
  for_each
    (fun file '(train, val, test) =>
       do '(file_dates, file_data) <-
         load_price_data_into_numpy_array file directory process;
       date_add_to_train_val_test file_dates file_data train val test
         d1 d2 d3 d4 d5 d6 x_length t_length)
    files acc = Ok acc' ->
  exists per_file,
    Forall2
      (fun file r =>
         exists file_dates file_data,
           load_price_data_into_numpy_array file directory process
           = Ok (file_dates, file_data)
           /\ date_add_to_train_val_test file_dates file_data [] [] []
                d1 d2 d3 d4 d5 d6 x_length t_length = Ok r)
      files per_file
    /\ fst (fst acc')
       = fst (fst acc) ++ concat (map (fun r => fst (fst r)) per_file)
    /\ snd (fst acc')
       = snd (fst acc) ++ concat (map (fun r => snd (fst r)) per_file)
    /\ snd acc' = snd acc ++ concat (map snd per_file).
Proof.
  revert acc. induction files as [| file files IH]; intros acc H.
  - cbn in H. injection H as <-. exists [].
    cbn. rewrite !app_nil_r. repeat split. constructor.
  - cbn [for_each] in H. apply bind_ok_inv in H.
    destruct H as [acc1 [Hstep H]].
    destruct (IH acc1 H) as (per_file & Hall & E1 & E2 & E3).
    destruct acc as [[train val] test].
    apply bind_ok_inv in Hstep.
    destruct Hstep as [[file_dates file_data] [Hload Hadd]].
    destruct acc1 as [[train1 val1] test1].
    destruct (date_add_appends _ _ _ _ _ _ _ _ _ _ _ _ _ _ _ _ Hadd)
      as (n1 & n2 & n3 & Hnew & -> & -> & ->).
    exists ((n1, n2, n3) :: per_file). cbn [fst snd map concat] in *.
    split.
    + constructor; [| exact Hall].
      exists file_dates, file_data. auto.
    + rewrite E1, E2, E3, <- !app_assoc. auto.
Qed.

(** X11: the lists [date_make_train_val_test_data] returns for a
    directory are the concatenations, in the order of [os.listdir], of
    the lists [date_add_to_train_val_test] returns for each file taken
    alone. *)
Theorem date_make_concatenates_files
    (data_directory : string) (x_length t_length : Z)
    (d1 d2 d3 d4 d5 d6 : string)
    (process : option (array -> result array))
    (train val test : list x_t_pair) :
  date_make_train_val_test_data data_directory x_length t_length
    d1 d2 d3 d4 d5 d6 process = Ok (train, val, test) ->
  exists data_files per_file,
    listdir data_directory = Ok data_files
    /\ Forall2
         (fun file r =>
            exists file_dates file_data,
              load_price_data_into_numpy_array file data_directory process
              = Ok (file_dates, file_data)
              /\ date_add_to_train_val_test file_dates file_data [] [] []
                   d1 d2 d3 d4 d5 d6 x_length t_length = Ok r)
         data_files per_file
    /\ train = concat (map (fun r => fst (fst r)) per_file)
    /\ val = concat (map (fun r => snd (fst r)) per_file)
    /\ test = concat (map snd per_file).
Proof.
  unfold date_make_train_val_test_data. intros H.
  apply bind_ok_inv in H. destruct H as [data_files [Hls H]].
  destruct (date_make_loop_concat _ _ _ _ _ _ _ _ _ _ _ _ _ H)
    as (per_file & Hall & E1 & E2 & E3).
  exists data_files, per_file. cbn [fst snd app] in *. auto.
Qed.

Lemma add_x_t_data_concat
    (process : option (array -> result array))
    (train_start_date train_end_date : string)
    (files : list string) (path : string) (x_length t_length : Z)
    (start_date end_date : string) (acc acc' : list x_t_pair) :
  add_x_t_data process train_start_date train_end_date files path
    x_length t_length start_date end_date acc = Ok acc' ->
  exists per_file,
    Forall2
      (fun file to_add =>
         exists dates_array data_array,
           load_price_data_into_numpy_array file path process
           = Ok (dates_array, data_array)
           /\ get_data_within_date_range dates_array data_array
                x_length t_length train_start_date train_end_date
              = Ok to_add)
      files per_file
    /\ acc' = acc ++ concat per_file.
Proof.
  unfold add_x_t_data.
  revert acc. induction files as [| file files IH]; intros acc H.
  - cbn in H. injection H as <-. exists []. cbn. rewrite app_nil_r.
    split; [constructor | reflexivity].
  - cbn [for_each] in H. apply bind_ok_inv in H.
    destruct H as [acc1 [Hstep H]].
    destruct (IH acc1 H) as (per_file & Hall & ->).
    apply bind_ok_inv in Hstep.
    destruct Hstep as [[dates_array data_array] [Hload Hstep]].
    apply bind_ok_inv in Hstep. destruct Hstep as [to_add [Hget Hstep]].
    injection Hstep as <-.
    exists (to_add :: per_file). cbn [concat]. split.
    + constructor; [| exact Hall]. exists dates_array, data_array. auto.
    + rewrite <- app_assoc. reflexivity.
Qed.

(** X13: each of the three lists [data_split_symbol_and_date] returns
    is the concatenation, in the order of its list of files, of what
    [get_data_within_date_range] returns for each file between
    [train_start_date] and [train_end_date]; the dates of the validation
    and test partitions appear in none of the three. *)
Theorem data_split_concatenates_files
    (train_files val_files test_files : list string) (path : string)
    (train_start_date train_end_date val_start_date val_end_date
       test_start_date test_end_date : string)
    (x_length t_length : Z)
    (process : option (array -> result array))
    (train val test : list x_t_pair) :
  data_split_symbol_and_date train_files val_files test_files path
    train_start_date train_end_date val_start_date val_end_date
    test_start_date test_end_date x_length t_length process
  = Ok (train, val, test) ->
  forall (files : list string) (pairs : list x_t_pair),
    In (files, pairs)
       [(train_files, train); (val_files, val); (test_files, test)] ->
    exists per_file,
      Forall2
        (fun file to_add =>
           exists dates_array data_array,
             load_price_data_into_numpy_array file path process
             = Ok (dates_array, data_array)
             /\ get_data_within_date_range dates_array data_array
                  x_length t_length train_start_date train_end_date
                = Ok to_add)
        files per_file
      /\ pairs = concat per_file.
Proof.
  intros H files pairs Hsel.
  unfold data_split_symbol_and_date in H.
  apply bind_ok_inv in H. destruct H as [train0 [Htrain H]].
  apply bind_ok_inv in H. destruct H as [val0 [Hval H]].
  apply bind_ok_inv in H. destruct H as [test0 [Htest H]].
  injection H as <- <- <-.
  destruct Hsel as [E | [E | [E | []]]]; injection E as <- <-.
  - destruct (add_x_t_data_concat _ _ _ _ _ _ _ _ _ _ _ Htrain)
      as (per_file & Hall & E). exists per_file. auto.
  - destruct (add_x_t_data_concat _ _ _ _ _ _ _ _ _ _ _ Hval)
      as (per_file & Hall & E). exists per_file. auto.
  - destruct (add_x_t_data_concat _ _ _ _ _ _ _ _ _ _ _ Htest)
      as (per_file & Hall & E). exists per_file. auto.
Qed.

(* ================================================================== *)
(** * Split by symbol *)
(* ================================================================== *)

Lemma slice_prefix {A : Type} (l : list A) (b : Z) :
  0 <= b <= len l -> slice l None (Some b) = firstn (Z.to_nat b) l.
Proof.
  intros H. unfold slice, slice_range.
  rewrite adjust_index_inside by lia. rewrite Z.sub_0_r. reflexivity.
Qed.

Lemma slice_suffix {A : Type} (l : list A) (a : Z) :
  0 <= a <= len l -> slice l (Some a) None = skipn (Z.to_nat a) l.
Proof.
  intros H. unfold slice, slice_range.
  rewrite adjust_index_inside by lia.
  apply firstn_all2. unfold len in *. rewrite length_skipn. lia.
Qed.

Lemma NoDup_app_disjoint {A : Type} (l1 l2 : list A) (a : A) :
  NoDup (l1 ++ l2) -> In a l1 -> ~ In a l2.
Proof.
  induction l1 as [| b l1 IH]; intros Hnd Hin; [destruct Hin |].
  simpl in Hnd. apply NoDup_cons_iff in Hnd. destruct Hnd as [Hb Hnd].
  destruct Hin as [-> | Hin].
  - intros H. apply Hb. apply in_or_app. right. exact H.
  - apply IH; assumption.
Qed.

(** The three lists returned by [split_etfs] are the consecutive parts
    of the list as the call leaves it. *)
Lemma split_etfs_parts {A : Type} (etfs : list A) (use_seed : bool)
    (random_seed : Z) (g : rng) :
  let r := split_etfs etfs use_seed random_seed g in
  let split := len etfs / 10 in
  len (etfs_after r) = len etfs
  /\ etfs_test r = firstn (Z.to_nat (2 * split)) (etfs_after r)
  /\ etfs_val r =
     firstn (Z.to_nat (2 * split))
       (skipn (Z.to_nat (2 * split)) (etfs_after r))
  /\ etfs_train r = skipn (Z.to_nat (4 * split)) (etfs_after r)
  /\ Permutation etfs (etfs_after r).
Proof.
  intros r split.
  assert (Hsplit : 0 <= 4 * split <= len etfs).
  { unfold split, len. Z.div_mod_to_equations. lia. }
  unfold r, split_etfs. fold split.
  destruct (if use_seed
            then random_shuffle A etfs (random_seed_state random_seed)
            else (etfs, g)) as [etfs' g'] eqn:E.
  cbn [etfs_test etfs_val etfs_train etfs_after].
  assert (Hperm : Permutation etfs etfs').
  { destruct use_seed.
    - pose proof (random_shuffle_permutation A etfs
                    (random_seed_state random_seed)) as H.
      rewrite E in H. exact H.
    - injection E as <- _. apply Permutation_refl. }
  assert (Hlen : len etfs' = len etfs).
  { unfold len. f_equal. symmetry. apply Permutation_length. exact Hperm. }
  split; [exact Hlen |].
  split; [apply slice_prefix; lia |].
  split.
  - rewrite slice_inside by lia. f_equal. lia.
  - split; [apply slice_suffix; lia | exact Hperm].
Qed.

(** C6: for a list of [n] file names, [split_etfs] returns three lists
    (test, val, train) that partition the input: put together they are a
    rearrangement of the input, so that every entry of the input goes to
    exactly one of them (every file name, when the names are distinct),
    with [len(test) = len(val) = 2*(n // 10)] and
    [len(train) = n - 4*(n // 10)]. *)
Theorem split_etfs_partition (A : Type) (etfs : list A) (use_seed : bool)
    (random_seed : Z) (g : rng) :
  let r := split_etfs etfs use_seed random_seed g in
  let n := len etfs in
  Permutation (etfs_test r ++ etfs_val r ++ etfs_train r) etfs
  /\ len (etfs_test r) = 2 * (n / 10)
  /\ len (etfs_val r) = 2 * (n / 10)
  /\ len (etfs_train r) = n - 4 * (n / 10)
  /\ (NoDup etfs ->
      forall name, In name etfs ->
        (In name (etfs_test r) /\ ~ In name (etfs_val r)
         /\ ~ In name (etfs_train r))
        \/ (~ In name (etfs_test r) /\ In name (etfs_val r)
            /\ ~ In name (etfs_train r))
        \/ (~ In name (etfs_test r) /\ ~ In name (etfs_val r)
            /\ In name (etfs_train r))).
Proof.
  intros r n.
  destruct (split_etfs_parts etfs use_seed random_seed g)
    as (Hlen & Htest & Hval & Htrain & Hperm).
  fold r in Hlen, Htest, Hval, Htrain, Hperm. subst n.
  set (s := len etfs / 10) in *.
  assert (Hs : 0 <= 4 * s <= len etfs).
  { unfold s, len. Z.div_mod_to_equations. lia. }
  assert (Hjoin : etfs_test r ++ etfs_val r ++ etfs_train r = etfs_after r).
  { rewrite Htest, Hval, Htrain.
    replace (Z.to_nat (4 * s)) with (Z.to_nat (2 * s) + Z.to_nat (2 * s))%nat
      by lia.
    rewrite <- skipn_skipn. rewrite firstn_skipn. apply firstn_skipn. }
  split; [rewrite Hjoin; apply Permutation_sym; exact Hperm |].
  split; [rewrite Htest; unfold len in *; rewrite length_firstn; lia |].
  split.
  { rewrite Hval. unfold len in *. rewrite length_firstn, length_skipn.
    lia. }
  split.
  { rewrite Htrain. unfold len in *. rewrite length_skipn. lia. }
  intros Hnd name Hin.
  assert (Hnd' : NoDup (etfs_test r ++ etfs_val r ++ etfs_train r)).
  { rewrite Hjoin. eapply Permutation_NoDup; eassumption. }
  assert (Hin' : In name (etfs_test r ++ etfs_val r ++ etfs_train r)).
  { rewrite Hjoin. eapply Permutation_in; eassumption. }
  pose proof (NoDup_app_disjoint _ _ name Hnd') as H1.
  pose proof (NoDup_app_disjoint _ _ name (NoDup_app_remove_l _ _ Hnd'))
    as H2.
  rewrite !in_app_iff in Hin'. rewrite in_app_iff in H1.
  destruct Hin' as [Ht | [Hv | Htr]].
  - left. split; [exact Ht |]. split; intros H; apply (H1 Ht); auto.
  - right. left. split; [intros H; apply (H1 H); auto |].
    split; [exact Hv | apply H2; exact Hv].
  - right. right. split; [intros H; apply (H1 H); auto |].
    split; [intros H; apply (H2 H); exact Htr | exact Htr].
Qed.

(** X14: with [use_seed=False], [split_etfs] does not shuffle at all:
    the list and the generator are left as they were, and the three lists
    returned are consecutive parts of the list in its order, test first,
    then val, then train. *)
Theorem split_etfs_without_seed (A : Type) (etfs : list A)
    (random_seed : Z) (g : rng) :
  etfs_after (split_etfs etfs false random_seed g) = etfs
  /\ rng_after (split_etfs etfs false random_seed g) = g
  /\ etfs_test (split_etfs etfs false random_seed g)
     ++ etfs_val (split_etfs etfs false random_seed g)
     ++ etfs_train (split_etfs etfs false random_seed g)
     = etfs.
Proof.
  unfold split_etfs.
  cbn [etfs_test etfs_val etfs_train etfs_after rng_after].
  split; [reflexivity |]. split; [reflexivity |].
  set (s := len etfs / 10).
  assert (Hs : 0 <= 4 * s <= len etfs).
  { unfold s, len. Z.div_mod_to_equations. lia. }
  rewrite slice_prefix, slice_inside, slice_suffix by lia.
  replace (Z.to_nat (4 * s - 2 * s)) with (Z.to_nat (2 * s)) by lia.
  replace (Z.to_nat (4 * s)) with (Z.to_nat (2 * s) + Z.to_nat (2 * s))%nat
    by lia.
  rewrite <- skipn_skipn. rewrite firstn_skipn. apply firstn_skipn.
Qed.

(** X15: for fewer than 10 names, [split_etfs] returns empty test and
    val lists, and the whole (shuffled) list as train. *)
Theorem split_etfs_of_few_names (A : Type) (etfs : list A)
    (use_seed : bool) (random_seed : Z) (g : rng) :
  len etfs < 10 ->
  etfs_test (split_etfs etfs use_seed random_seed g) = []
  /\ etfs_val (split_etfs etfs use_seed random_seed g) = []
  /\ etfs_train (split_etfs etfs use_seed random_seed g)
     = etfs_after (split_etfs etfs use_seed random_seed g).
Proof.
  intros Hfew. unfold split_etfs.
  assert (Hs : len etfs / 10 = 0)
    by (apply Z.div_small; unfold len in *; lia).
  rewrite Hs.
  destruct (if use_seed
            then random_shuffle A etfs (random_seed_state random_seed)
            else (etfs, g)) as [etfs' g'].
  cbn [etfs_test etfs_val etfs_train etfs_after Z.mul].
  assert (Hn : 0 <= len etfs') by (unfold len; lia).
  split; [| split].
  - rewrite slice_prefix by lia. reflexivity.
  - rewrite slice_inside by lia. reflexivity.
  - rewrite slice_suffix by lia. reflexivity.
Qed.

(* ================================================================== *)
(** * Augmentation *)
(* ================================================================== *)

(** Rounding keeps the sign. *)
Lemma binary_round_aux_sign (sx : bool) (mx ex : Z) (lx : location) :
  match binary_round_aux PyFloat.prec PyFloat.emax sx mx ex lx with
  | S754_zero s | S754_infinity s | S754_finite s _ _ => s = sx
  | S754_nan => True
  end.
Proof.
  unfold binary_round_aux.
  destruct (shr_fexp PyFloat.prec PyFloat.emax mx ex lx) as [mrs e].
  destruct (shr_fexp PyFloat.prec PyFloat.emax
              (round_nearest_even (shr_m mrs) (loc_of_shr_record mrs))
              e loc_Exact) as [mrs' e'].
  destruct (shr_m mrs') as [| m | m]; [reflexivity | | exact I].
  destruct (e' <=? PyFloat.emax - PyFloat.prec); reflexivity.
Qed.

Lemma of_int_sign (n : Z) (f : PyFloat.float) :
  0 <= n -> PyFloat.of_int n = Ok f ->
  match f with
  | S754_zero s | S754_finite s _ _ => s = false
  | S754_infinity _ => False
  | S754_nan => True
  end.
Proof.
  intros Hn. unfold PyFloat.of_int, binary_normalize.
  destruct n as [| m | m]; [| | lia].
  - intros H. injection H as <-. reflexivity.
  - unfold binary_round.
    destruct (shl_align m 0
                (fexp PyFloat.prec PyFloat.emax
                   (Z.pos (digits2_pos m) + 0))) as [mz ez].
    pose proof (binary_round_aux_sign false (Z.pos mz) ez loc_Exact) as Hs.
    destruct (binary_round_aux PyFloat.prec PyFloat.emax false (Z.pos mz)
                ez loc_Exact);
      intros H; try discriminate; injection H as <-; exact Hs.
Qed.

Lemma scaled_mantissa_nonneg (m : positive) (e : Z) :
  0 <= (if 0 <=? e then Z.pos m * 2 ^ e else Z.pos m / 2 ^ (- e)).
Proof.
  destruct (0 <=? e) eqn:E.
  - apply Z.mul_nonneg_nonneg; [lia | apply Z.pow_nonneg; lia].
  - apply Z.leb_gt in E. apply Z.div_pos; [lia |].
    apply Z.pow_pos_nonneg; lia.
Qed.

Lemma math_floor_nonneg (x : PyFloat.float) (k : Z) :
  (forall m e, x <> S754_finite true m e) ->
  PyFloat.math_floor x = Ok k -> 0 <= k.
Proof.
  intros Hx. destruct x as [s | s | | s m e]; unfold PyFloat.math_floor;
    intros H; try discriminate.
  - injection H as <-. lia.
  - destruct s; [exfalso; apply (Hx m e); reflexivity |].
    pose proof (scaled_mantissa_nonneg m e) as Hk.
    injection H as <-. exact Hk.
Qed.

(** The product of a float that is [>= 0.0] by a float of sign [+] is
    not a negative number. *)
Lemma mul_nonneg_sign (p f : PyFloat.float) :
  PyFloat.nonneg p = true ->
  match f with
  | S754_zero s | S754_finite s _ _ => s = false
  | S754_infinity _ => False
  | S754_nan => True
  end ->
  forall m e, PyFloat.mul p f <> S754_finite true m e.
Proof.
  intros Hp Hf m e.
  destruct p as [sp | sp | | sp mp ep]; destruct f as [sf | sf | | sf mf ef];
    unfold PyFloat.mul, SFmul; try (intros H; discriminate H);
    try contradiction.
  destruct sp; [cbv in Hp; discriminate Hp |]. subst sf. cbn [xorb].
  pose proof (binary_round_aux_sign false (Z.pos (mp * mf)) (ep + ef)
                loc_Exact) as Hs.
  destruct (binary_round_aux PyFloat.prec PyFloat.emax false
              (Z.pos (mp * mf)) (ep + ef) loc_Exact);
    try (intros H; discriminate H).
  subst. intros H; discriminate H.
Qed.

(** For a proportion [>= 0.0] the number of new examples is not
    negative. *)
Lemma num_new_examples_nonneg (p : PyFloat.float) (N k : Z) :
  PyFloat.nonneg p = true -> 0 <= N ->
  num_new_examples_of p N = Ok k -> 0 <= k.
Proof.
  intros Hp HN H. unfold num_new_examples_of in H.
  apply bind_ok_inv in H. destruct H as [f [Hf H]].
  apply (math_floor_nonneg _ _ (mul_nonneg_sign p f Hp
                                  (of_int_sign N f HN Hf)) H).
Qed.

(** Nothing is added to an empty list. *)
Lemma num_new_examples_empty (p : PyFloat.float) (k : Z) :
  num_new_examples_of p 0 = Ok k -> k = 0.
Proof.
  unfold num_new_examples_of. cbn [PyFloat.of_int binary_normalize Py.bind].
  destruct p as [s | s | | s m e]; simpl; intros H; try discriminate;
    injection H as <-; reflexivity.
Qed.

Lemma randint_draws_spec (n : nat) (a b : Z) (g : rng) :
  a <= b ->
  length (fst (randint_draws n a b g)) = n
  /\ Forall (fun i => a <= i <= b) (fst (randint_draws n a b g)).
Proof.
  intros Hab. revert g. induction n as [| n IH]; intros g; simpl.
  - split; [reflexivity | constructor].
  - pose proof (random_randint_range a b g Hab) as Hi.
    destruct (random_randint a b g) as [i g1]. cbn [fst] in Hi.
    destruct (IH g1) as [Hlen Hall].
    destruct (randint_draws n a b g1) as [rest g2]. cbn [fst] in *.
    split; [simpl; f_equal; exact Hlen | constructor; assumption].
Qed.

Lemma getitem_inside {A : Type} (l : list A) (i : Z) (a : A) :
  0 <= i -> nth_error l (Z.to_nat i) = Some a -> getitem l i = Ok a.
Proof.
  intros Hi Hnth. unfold getitem.
  assert (Hlt : (Z.to_nat i < length l)%nat)
    by (apply nth_error_Some; congruence).
  replace (i <? 0) with false by (symmetry; apply Z.ltb_ge; lia).
  replace ((0 <=? i) && (i <? len l)) with true.
  - rewrite Hnth. reflexivity.
  - symmetry. apply andb_true_intro. unfold len.
    split; [apply Z.leb_le | apply Z.ltb_lt]; lia.
Qed.

(** The loop of [augment], started on the list [data] followed by what
    was appended so far: it appends what [augment_func] makes of the
    examples of [data] at the indices drawn. *)
Lemma augment_loop (data : list x_t_pair)
    (augment_func : x_t_pair -> W -> x_t_pair * W) (l : list Z) :
  0 < len data ->
  forall (extra : list x_t_pair) (g : rng) (w : W),
    for_each
      (fun (_ : Z) '(data', g, w) =>
         do '(index, g) <- randint 0 (len data - 1) g;
         do data_point <- getitem data' index;
         let '(new_point, w) := augment_func data_point w in
         Ok (data' ++ [new_point], g, w))
      l (data ++ extra, g, w)
    = Ok (data ++ extra
            ++ fst (augment_with augment_func data
                      (fst (randint_draws (length l) 0 (len data - 1) g)) w),
          snd (randint_draws (length l) 0 (len data - 1) g),
          snd (augment_with augment_func data
                 (fst (randint_draws (length l) 0 (len data - 1) g)) w)).
Proof.
  intros HN. induction l as [| j l IH]; intros extra g w.
  - simpl. rewrite app_nil_r. reflexivity.
  - cbn [for_each length randint_draws].
    unfold randint at 1.
    replace (len data - 1 <? 0) with false
      by (symmetry; apply Z.ltb_ge; lia).
    pose proof (random_randint_range 0 (len data - 1) g ltac:(lia)) as Hi.
    destruct (random_randint 0 (len data - 1) g) as [i g1].
    cbn [fst] in Hi. cbn [Py.bind].
    destruct (nth_error data (Z.to_nat i)) as [d |] eqn:Ed.
    2: { apply nth_error_None in Ed. unfold len in Hi. lia. }
    rewrite (getitem_inside (data ++ extra) i d);
      [| lia | rewrite nth_error_app1;
               [exact Ed | apply nth_error_Some; congruence]].
    cbn [Py.bind].
    destruct (randint_draws (length l) 0 (len data - 1) g1)
      as [rest g2] eqn:Edraws.
    cbn [fst snd augment_with]. rewrite Ed.
    destruct (augment_func d w) as [p w1].
    cbn [Py.bind]. rewrite <- app_assoc. rewrite IH. rewrite Edraws.
    cbn [fst snd].
    destruct (augment_with augment_func data rest w1) as [ps w2].
    cbn [fst snd]. rewrite <- app_assoc. reflexivity.
Qed.

(** [augment] returns the list followed by what [augment_func] makes of
    the examples at the indices [augment_indices], whatever the
    generator held before the call. *)
Lemma augment_by_indices (data : list x_t_pair)
    (augment_func : x_t_pair -> W -> x_t_pair * W)
    (p : PyFloat.float) (random_seed k : Z) (g : rng) (w : W) :
  num_new_examples_of p (len data) = Ok k ->
  let idxs := augment_indices (len data) k random_seed in
  exists g',
    augment data augment_func p random_seed g w
    = Ok (data ++ fst (augment_with augment_func data idxs w), g',
          snd (augment_with augment_func data idxs w))
    /\ (0 <= k -> len idxs = k)
    /\ Forall (fun i => 0 <= i < len data) idxs.
Proof.
  intros Hk idxs. unfold augment. rewrite Hk. cbn [Py.bind].
  destruct (Z.eq_dec (len data) 0) as [E0 | Hpos].
  - rewrite E0 in Hk. apply num_new_examples_empty in Hk. subst k.
    exists (random_seed_state random_seed).
    unfold idxs, augment_indices. cbn. rewrite app_nil_r.
    split; [reflexivity |]. split; [reflexivity | constructor].
  - assert (HN : 0 < len data) by (unfold len in *; lia).
    pose proof (augment_loop data augment_func (range k) HN []
                  (random_seed_state random_seed) w) as H.
    rewrite app_nil_r in H. cbn [app] in H.
    rewrite range_length in H. fold (augment_indices (len data) k random_seed) in H.
    fold idxs in H.
    eexists. split; [exact H |].
    destruct (randint_draws_spec (Z.to_nat k) 0 (len data - 1)
                (random_seed_state random_seed) ltac:(lia)) as [Hlen Hall].
    fold (augment_indices (len data) k random_seed) in Hlen, Hall.
    fold idxs in Hlen, Hall.
    split; [intros Hk0; unfold len at 1; lia |].
    eapply Forall_impl; [| exact Hall]. intros i Hi. cbv beta in Hi. lia.
Qed.

Lemma augment_with_spec (augment_func : x_t_pair -> W -> x_t_pair * W)
    (data : list x_t_pair) (idxs : list Z) :
  Forall (fun i => 0 <= i < len data) idxs ->
  forall w,
    length (fst (augment_with augment_func data idxs w)) = length idxs
    /\ Forall
         (fun new_point =>
            exists i data_point w1 w2,
              0 <= i < len data
              /\ nth_error data (Z.to_nat i) = Some data_point
              /\ augment_func data_point w1 = (new_point, w2))
         (fst (augment_with augment_func data idxs w)).
Proof.
  induction 1 as [| i idxs Hi Hall IH]; intros w.
  - simpl. split; [reflexivity | constructor].
  - cbn [augment_with].
    destruct (nth_error data (Z.to_nat i)) as [d |] eqn:Ed.
    2: { apply nth_error_None in Ed. unfold len in Hi. lia. }
    destruct (augment_func d w) as [p w1] eqn:Ef.
    destruct (IH w1) as [Hlen Hfrom].
    destruct (augment_with augment_func data idxs w1) as [ps w2].
    cbn [fst] in *. split; [simpl; f_equal; exact Hlen |].
    constructor; [| exact Hfrom].
    exists i, d, w, w1. auto.
Qed.

(** C7: for a list [data] of [N] examples and a proportion [p >= 0]
    whose product with [N] has a floor [k], [augment] only appends: the
    list it leaves has length [N + k], its first [N] elements are those of
    [data] in their order, and every element after them is
    [augment_func] applied to one of the [N] elements of [data]. *)
Theorem augment_only_appends (data : list x_t_pair)
    (augment_func : x_t_pair -> W -> x_t_pair * W)
    (p : PyFloat.float) (random_seed k : Z) (g : rng) (w : W) :
  PyFloat.nonneg p = true ->
  num_new_examples_of p (len data) = Ok k ->
  exists data' g' w',
    augment data augment_func p random_seed g w = Ok (data', g', w')
    /\ len data' = len data + k
    /\ firstn (length data) data' = data
    /\ Forall
         (fun new_point =>
            exists i data_point w1 w2,
              0 <= i < len data
              /\ nth_error data (Z.to_nat i) = Some data_point
              /\ augment_func data_point w1 = (new_point, w2))
         (skipn (length data) data').
Proof.
  intros Hp Hk.
  assert (Hk0 : 0 <= k).
  { apply (num_new_examples_nonneg p (len data) k Hp); [| exact Hk].
    unfold len. lia. }
  destruct (augment_by_indices data augment_func p random_seed k g w Hk)
    as [g' [Haug [Hlen Hall]]].
  destruct (augment_with_spec augment_func data _ Hall w) as [Hadded Hfrom].
  eexists. exists g'. eexists. split; [exact Haug |].
  split; [| split].
  - specialize (Hlen Hk0). unfold len in *.
    rewrite length_app, Hadded. lia.
  - rewrite firstn_app, Nat.sub_diag, firstn_all. cbn [firstn].
    apply app_nil_r.
  - rewrite skipn_app, Nat.sub_diag, skipn_all. cbn [skipn app].
    exact Hfrom.
Qed.

(** C10: the randomized operations do not depend on what the global
    generator held before the call: [split_etfs] with [use_seed=True]
    and [augment] reseed it first, so two calls with the same seed and
    equal arguments return equal results, and the indices [augment]
    draws are fixed by the seed, the length of the list and the number of
    new examples. *)
Theorem seeded_operations_deterministic :
  (forall (A : Type) (etfs : list A) (random_seed : Z) (g1 g2 : rng),
     split_etfs etfs true random_seed g1
     = split_etfs etfs true random_seed g2)
  /\ (forall (data : list x_t_pair)
             (augment_func : x_t_pair -> W -> x_t_pair * W)
             (p : PyFloat.float) (random_seed : Z) (g1 g2 : rng) (w : W),
        augment data augment_func p random_seed g1 w
        = augment data augment_func p random_seed g2 w)
  /\ (forall (data : list x_t_pair) (p : PyFloat.float)
             (random_seed k : Z),
        num_new_examples_of p (len data) = Ok k ->
        exists idxs,
          idxs = augment_indices (len data) k random_seed
          /\ forall (augment_func : x_t_pair -> W -> x_t_pair * W)
                    (g : rng) (w : W),
               exists g' w',
                 augment data augment_func p random_seed g w
                 = Ok (data ++ fst (augment_with augment_func data idxs w),
                       g', w')).
Proof.
  split; [| split].
  - intros A etfs random_seed g1 g2. unfold split_etfs.
    destruct (random_shuffle A etfs (random_seed_state random_seed)).
    reflexivity.
  - intros data augment_func p random_seed g1 g2 w. unfold augment.
    destruct (num_new_examples_of p (len data)); reflexivity.
  - intros data p random_seed k Hk.
    exists (augment_indices (len data) k random_seed).
    split; [reflexivity |]. intros augment_func g w.
    destruct (augment_by_indices data augment_func p random_seed k g w Hk)
      as [g' [Haug _]].
    exists g'. eexists. exact Haug.
Qed.

(** X16: [augment] raises only what [math.floor(augment_proportion * N)]
    raises (an infinite or NaN product, or a list too long for a float):
    whenever the floor has a value the call returns, the draws of
    [random.randint] and the indexing of the list never raise. *)
Theorem augment_raises_only_from_floor (data : list x_t_pair)
    (augment_func : x_t_pair -> W -> x_t_pair * W)
    (p : PyFloat.float) (random_seed : Z) (g : rng) (w : W) :
  match num_new_examples_of p (len data) with
  | Raise e => augment data augment_func p random_seed g w = Raise e
  | Ok k =>
      exists data' g' w',
        augment data augment_func p random_seed g w = Ok (data', g', w')
  end.
Proof.
  destruct (num_new_examples_of p (len data)) as [k | e] eqn:Hk.
  - destruct (augment_by_indices data augment_func p random_seed k g w Hk)
      as [g' [Haug _]].
    eexists. exists g'. eexists. exact Haug.
  - unfold augment. rewrite Hk. reflexivity.
Qed.

(** X17: when [math.floor(augment_proportion * N)] is zero or negative
    (a negative proportion, or a list too short for the proportion),
    [augment] appends nothing; it still reseeds the generator. *)
Theorem augment_appends_nothing (data : list x_t_pair)
    (augment_func : x_t_pair -> W -> x_t_pair * W)
    (p : PyFloat.float) (random_seed k : Z) (g : rng) (w : W) :
  num_new_examples_of p (len data) = Ok k ->
  k <= 0 ->
  augment data augment_func p random_seed g w
  = Ok (data, random_seed_state random_seed, w).
Proof.
  intros Hk Hle. unfold augment. rewrite Hk. cbn [Py.bind].
  unfold range. replace (Z.to_nat k) with 0%nat by lia. reflexivity.
Qed.

(* ================================================================== *)
(** * Loading a price file *)
(* ================================================================== *)

Lemma map_result_Forall2 {A B : Type} (f : A -> result B)
    (l : list A) (l' : list B) :
  map_result f l = Ok l' -> Forall2 (fun a b => f a = Ok b) l l'.
Proof.
  revert l'. induction l as [| a l IH]; intros l' H; simpl in H.
  - injection H as <-. constructor.
  - apply bind_ok_inv in H. destruct H as [b [Hb H]].
    apply bind_ok_inv in H. destruct H as [bs [Hbs H]].
    injection H as <-. constructor; [exact Hb | apply IH; exact Hbs].
Qed.

Lemma substring_length_le (n m : nat) (s : string) :
  (String.length (substring n m s) <= m)%nat.
Proof.
  revert n m. induction s as [| c s IH]; intros n m.
  - destruct n, m; simpl; lia.
  - destruct n as [| n]; destruct m as [| m]; simpl;
      try lia; try apply IH.
    specialize (IH 0%nat m). lia.
Qed.

Lemma slice_after_first {A : Type} (a : A) (l : list A) :
  slice (a :: l) (Some 1) None = l.
Proof.
  unfold slice, slice_range, adjust_index, len. cbn [Z.ltb Z.compare].
  replace (Z.min 1 (Z.of_nat (length (a :: l)))) with 1
    by (cbn [length]; lia).
  cbn [Z.to_nat Pos.to_nat Pos.iter_op Nat.add skipn].
  apply firstn_all2. cbn [length]. lia.
Qed.

(** What the loader returns before [process_data] is applied: one date
    and one row of cells for every line of the file after the header. *)
Lemma load_raw_arrays (header : list string) (rest : list (list string))
    (raw : list (list F)) :
  forallb (fun r => Nat.eqb (length r) (length header)) (header :: rest)
  = true ->
  Nat.eqb (length header) 0 = false ->
  map_result
    (fun r => map_result (fun c => of_option ValueError (float32 c)) (tl r))
    rest = Ok raw ->
  has_shape raw (len rest) (len header - 1).
Proof.
  intros Hrect Hcols Hraw. apply Nat.eqb_neq in Hcols. split.
  - unfold len. f_equal. apply (map_result_length _ _ _ Hraw).
  - apply map_result_Forall2 in Hraw.
    cbn [forallb] in Hrect. apply andb_prop in Hrect.
    destruct Hrect as [_ Hrect]. rewrite forallb_forall in Hrect.
    induction Hraw as [| r cells rest raw Hcells Hall IH]; constructor.
    + apply map_result_length in Hcells. unfold len. rewrite Hcells.
      assert (Hr : length r = length header).
      { apply Nat.eqb_eq. apply Hrect. left. reflexivity. }
      destruct r; simpl in *; lia.
    + apply IH. intros r' Hr'. apply Hrect. right. exact Hr'.
Qed.

(** The cells of the array the loader builds before [process_data] is
    applied: row by row and cell by cell, the [float32] conversion of the
    columns after column 0 of the lines of the file. *)
Lemma load_raw_cells (rest : list (list string)) (raw : list (list F)) :
  map_result
    (fun r => map_result (fun c => of_option ValueError (float32 c)) (tl r))
    rest = Ok raw ->
  Forall2
    (fun r cells => Forall2 (fun c x => float32 c = Some x) (tl r) cells)
    rest raw.
Proof.
  intros Hraw. apply map_result_Forall2 in Hraw.
  induction Hraw as [| r cells rest raw Hcells _ IH]; constructor;
    [| exact IH].
  apply map_result_Forall2 in Hcells.
  induction Hcells as [| c x cs xs Hc _ IHc]; constructor; [| exact IHc].
  destruct (float32 c) as [y |]; [| discriminate].
  injection Hc as <-. reflexivity.
Qed.

(** X1: when [load_price_data_into_numpy_array] returns, it returns one
    date string of at most 10 characters per line of the file after the
    header, taken from column 0; the array it returns, or hands to
    [process_data] when one is given, has as many rows and one column
    less than the file, and its cell (i, j) is the [float32] conversion
    of column j + 1 of line i + 1 of the file. *)
Theorem load_price_data_arrays
    (file_name file_path : string)
    (process_data : option (array -> result array))
    (rows : list (list string)) (dates : list string) (data : array) :
  read_csv (file_path ++ "/" ++ file_name)%string = Ok rows ->
  load_price_data_into_numpy_array file_name file_path process_data
  = Ok (dates, data) ->
  dates = map (fun r => substring 0 10 (hd EmptyString r)) (tl rows)
  /\ len dates = len rows - 1
  /\ Forall (fun s => (String.length s <= 10)%nat) dates
  /\ exists raw,
       has_shape raw (len rows - 1) (len (hd [] rows) - 1)
       /\ Forall2
            (fun r cells =>
               Forall2 (fun c x => float32 c = Some x) (tl r) cells)
            (tl rows) raw
       /\ match process_data with
          | None => data = raw
          | Some f => f raw = Ok data
          end.
Proof.
  intros Hread H. unfold load_price_data_into_numpy_array in H.
  rewrite Hread in H. cbn [Py.bind] in H.
  destruct rows as [| header rest]; [discriminate |].
  destruct (forallb (fun r => Nat.eqb (length r) (length header))
              (header :: rest)) eqn:Hrect; [| discriminate].
  cbn [negb] in H.
  destruct (Nat.eqb (length header) 0) eqn:Hcols; [discriminate |].
  rewrite slice_after_first in H.
  apply bind_ok_inv in H. destruct H as [raw [Hraw H]].
  apply bind_ok_inv in H. destruct H as [data' [Hproc H]].
  injection H as <- <-. cbn [tl hd].
  assert (Hlen : len (header :: rest) - 1 = len rest)
    by (unfold len; cbn [length]; lia).
  split; [reflexivity |]. split.
  - unfold len. rewrite length_map. cbn [length]. lia.
  - split.
    + apply Forall_forall. intros s Hs. apply in_map_iff in Hs.
      destruct Hs as [r [<- _]]. apply substring_length_le.
    + exists raw. rewrite Hlen. split; [| split].
      * apply (load_raw_arrays header rest raw Hrect Hcols Hraw).
      * apply load_raw_cells. exact Hraw.
      * destruct process_data as [f |];
          [exact Hproc | injection Hproc as <-; reflexivity].
Qed.

(** The slice [row[:-2]] keeps all but the last two cells. *)
Lemma slice_without_last_two {A : Type} (row : list A) :
  slice row None (Some (-2)) = firstn (length row - 2) row.
Proof.
  unfold slice, slice_range, adjust_index, len. cbn [Z.ltb Z.compare skipn].
  f_equal. lia.
Qed.

Lemma remove_volume_open_interest_has_shape (data : array) (N M : Z) :
  has_shape data N M ->
  has_shape (remove_volume_open_interest data) N (Z.max 0 (M - 2)).
Proof.
  intros [HN HM]. unfold remove_volume_open_interest. split.
  - unfold len in *. rewrite length_map. exact HN.
  - apply Forall_forall. intros row Hrow. apply in_map_iff in Hrow.
    destruct Hrow as [row0 [<- Hin]].
    rewrite Forall_forall in HM. specialize (HM row0 Hin).
    rewrite slice_without_last_two. unfold len in *.
    rewrite length_firstn. lia.
Qed.

(** X2: [remove_volume_open_interest] keeps the rows and their order
    and cuts the last two cells of each row: an array of shape (N, M)
    becomes one of shape (N, max(0, M - 2)). *)
Theorem remove_volume_open_interest_columns (data : array) (N M : Z) :
  has_shape data N M ->
  has_shape (remove_volume_open_interest data) N (Z.max 0 (M - 2))
  /\ forall (i : nat) (row : list F),
       nth_error data i = Some row ->
       nth_error (remove_volume_open_interest data) i
       = Some (firstn (length row - 2) row).
Proof.
  intros Hshape.
  split; [apply remove_volume_open_interest_has_shape; exact Hshape |].
  intros i row Hrow. unfold remove_volume_open_interest.
  rewrite nth_error_map, Hrow. cbn [option_map].
  rewrite slice_without_last_two. reflexivity.
Qed.

(** Without [process_data] the loader returns as many rows as
    dates. *)
Lemma load_row_counts (file_name file_path : string)
    (dates : list string) (data : array) :
  load_price_data_into_numpy_array file_name file_path None
  = Ok (dates, data) ->
  len data = len dates.
Proof.
  unfold load_price_data_into_numpy_array. intros H.
  apply bind_ok_inv in H. destruct H as [rows [_ H]].
  destruct rows as [| header rest]; [discriminate |].
  destruct (negb _); [discriminate |].
  destruct (Nat.eqb _ 0); [discriminate |].
  rewrite slice_after_first in H.
  apply bind_ok_inv in H. destruct H as [raw [Hraw H]].
  cbn [Py.bind] in H. injection H as <- <-.
  unfold len. rewrite length_map. f_equal.
  apply (map_result_length _ _ _ Hraw).
Qed.

(** The search of [date_add_to_train_val_test] returns when every date
    parses and there is a date for every row. *)
Lemma date_split_returns
    (date_data : list string) (data : array) (ds : list datetime)
    (d1 d2 d3 d4 d5 d6 : string) (b1 b2 b3 b4 b5 b6 : datetime) :
  parse_dates date_data = Ok ds ->
  len data <= len date_data ->
  strptime d1 = Ok b1 -> strptime d2 = Ok b2 -> strptime d3 = Ok b3 ->
  strptime d4 = Ok b4 -> strptime d5 = Ok b5 -> strptime d6 = Ok b6 ->
  date_split date_data data d1 d2 d3 d4 d5 d6
  = Ok (split_scan b1 b2 b3 b4 b5 b6 ds (length data)).
Proof.
  intros Hparse Hlen H1 H2 H3 H4 H5 H6.
  unfold date_split. rewrite H1, H2, H3, H4, H5, H6. cbn [Py.bind].
  unfold find_split_indices, split_scan, len.
  apply for_each_rows_scan; [exact Hparse |].
  apply map_result_length in Hparse. unfold len in Hlen. lia.
Qed.

(** X12: [date_make_train_val_test_data] returns (raises nothing) when
    the directory can be listed, the six dates parse, and every file
    loads into dates that parse; with a [process_data_func], when it also
    returns at most as many rows as there are dates. *)
Theorem date_make_returns
    (data_directory : string) (x_length t_length : Z)
    (d1 d2 d3 d4 d5 d6 : string) (b1 b2 b3 b4 b5 b6 : datetime)
    (process : option (array -> result array))
    (data_files : list string) :
  listdir data_directory = Ok data_files ->
  strptime d1 = Ok b1 -> strptime d2 = Ok b2 -> strptime d3 = Ok b3 ->
  strptime d4 = Ok b4 -> strptime d5 = Ok b5 -> strptime d6 = Ok b6 ->
  Forall
    (fun file =>
       exists file_dates file_data ds,
         load_price_data_into_numpy_array file data_directory process
         = Ok (file_dates, file_data)
         /\ parse_dates file_dates = Ok ds
         /\ match process with
            | None => True
            | Some _ => len file_data <= len file_dates
            end)
    data_files ->
  exists train val test,
    date_make_train_val_test_data data_directory x_length t_length
      d1 d2 d3 d4 d5 d6 process = Ok (train, val, test).
Proof.
  intros Hls H1 H2 H3 H4 H5 H6 Hfiles.
  unfold date_make_train_val_test_data. rewrite Hls. cbn [Py.bind].
  clear Hls.
  generalize (@nil x_t_pair, @nil x_t_pair, @nil x_t_pair).
  induction Hfiles as [| file files (fd & fdata & ds & Hload & Hparse & Hlen)
                         _ IH];
    intros [[train val] test].
  - exists train, val, test. reflexivity.
  - assert (Hrows : len fdata <= len fd).
    { destruct process as [f |]; [exact Hlen |].
      rewrite (load_row_counts _ _ _ _ Hload). lia. }
    cbn [for_each]. rewrite Hload. cbn [Py.bind].
    unfold date_add_to_train_val_test.
    rewrite (date_split_returns fd fdata ds d1 d2 d3 d4 d5 d6
               b1 b2 b3 b4 b5 b6 Hparse Hrows H1 H2 H3 H4 H5 H6).
    cbn [Py.bind]. apply IH.
Qed.

(* ================================================================== *)
(** * The order of the windows and the loaders of [train.py] *)
(* ================================================================== *)

Lemma nth_error_range (n : Z) (k : nat) :
  Z.of_nat k < n -> nth_error (range n) k = Some (Z.of_nat k).
Proof.
  intros H. unfold range. rewrite nth_error_map.
  rewrite nth_error_seq. cbn [Nat.add].
  destruct (Nat.ltb_spec k (Z.to_nat n)); [reflexivity | lia].
Qed.

(** X18: the pairs of [make_x_t_tuple_tensor_pairs_in_place] come in
    the order of the rows: pair number [k] is the window that starts at
    row [k]. *)
Theorem make_pairs_in_row_order
    (data : array) (input_length output_length : Z) (k : nat) :
  Z.of_nat k < len data - input_length - output_length ->
  nth_error
    (make_x_t_tuple_tensor_pairs_in_place data input_length output_length)
    k
  = Some (slice data (Some (Z.of_nat k))
            (Some (Z.of_nat k + input_length)),
          slice data (Some (Z.of_nat k + input_length))
            (Some (Z.of_nat k + input_length + output_length))).
Proof.
  intros Hk. rewrite make_pairs_map, nth_error_map.
  rewrite nth_error_range by exact Hk. reflexivity.
Qed.

(** Cutting a list at a position that is not negative gives two parts
    that make the list again. *)
Lemma slice_cut {A : Type} (l : list A) (k : Z) :
  0 <= k ->
  slice l None (Some k) = firstn (Z.to_nat k) l
  /\ slice l (Some k) None = skipn (Z.to_nat k) l.
Proof.
  intros Hk. unfold slice, slice_range, adjust_index, len.
  replace (k <? 0) with false by (symmetry; apply Z.ltb_ge; lia).
  cbn [skipn Z.to_nat]. rewrite Z.sub_0_r. split.
  - destruct (Z.le_ge_cases k (Z.of_nat (length l))).
    + rewrite Z.min_l by lia. reflexivity.
    + rewrite Z.min_r by lia. rewrite !firstn_all2 by lia. reflexivity.
  - destruct (Z.le_ge_cases k (Z.of_nat (length l))).
    + rewrite Z.min_l by lia. apply firstn_all2. rewrite length_skipn. lia.
    + rewrite Z.min_r by lia. rewrite Nat2Z.id.
      rewrite !skipn_all2 by lia. apply firstn_nil.
Qed.

(** X19: when the [__main__] block of [train.py] has built its two
    loaders from a file of [M] columns, the loaders are the first 1000
    windows and the windows after them, in row order, and every window
    has [x] of shape (30, max(0, M - 3)) and [t] of shape
    (5, max(0, M - 3)): four features for a file with a date and six
    numeric columns. *)
Theorem train_main_loaders_shape
    (rows : list (list string)) (M : Z)
    (train_loader valid_loader : list x_t_pair) :
  read_csv "./data/ETFs/aadr.us.txt" = Ok rows ->
  len (hd [] rows) = M ->
  train_main_loaders = Ok (train_loader, valid_loader) ->
  exists data,
    has_shape data (len rows - 1) (Z.max 0 (M - 3))
    /\ train_loader ++ valid_loader
       = make_x_t_tuple_tensor_pairs_in_place data 30 5
    /\ len train_loader = Z.min 1000 (Z.max 0 (len rows - 1 - 35))
    /\ forall x t, In (x, t) (train_loader ++ valid_loader) ->
         has_shape x 30 (Z.max 0 (M - 3))
         /\ has_shape t 5 (Z.max 0 (M - 3)).
Proof.
  intros Hread HM H. unfold train_main_loaders in H.
  apply bind_ok_inv in H. destruct H as [[dates raw] [Hload H]].
  injection H as <- <-.
  unfold load_price_data_into_numpy_array in Hload.
  cbn [String.append] in Hload. rewrite Hread in Hload.
  cbn [Py.bind] in Hload.
  destruct rows as [| header rest]; [discriminate |].
  destruct (forallb (fun r => Nat.eqb (length r) (length header))
              (header :: rest)) eqn:Hrect; [| discriminate].
  cbn [negb] in Hload.
  destruct (Nat.eqb (length header) 0) eqn:Hcols; [discriminate |].
  rewrite slice_after_first in Hload.
  apply bind_ok_inv in Hload. destruct Hload as [raw0 [Hraw Hload]].
  cbn [Py.bind] in Hload. injection Hload as _ <-.
  pose proof (load_raw_arrays header rest raw0 Hrect Hcols Hraw) as Hshape.
  cbn [hd] in HM. rewrite HM in Hshape.
  apply remove_volume_open_interest_has_shape in Hshape.
  replace (M - 1 - 2) with (M - 3) in Hshape by lia.
  assert (Hrows : len (header :: rest) - 1 = len rest)
    by (unfold len; cbn [length]; lia).
  rewrite Hrows.
  set (data := remove_volume_open_interest raw0) in *.
  set (pairs := make_x_t_tuple_tensor_pairs_in_place data 30 5).
  destruct (slice_cut pairs 1000 ltac:(lia)) as [-> ->].
  exists data. split; [exact Hshape |].
  split; [apply firstn_skipn |]. split.
  - destruct Hshape as [HN _]. unfold pairs. rewrite make_pairs_map.
    unfold len at 1. rewrite length_firstn, length_map, range_length, HN.
    unfold len. lia.
  - rewrite firstn_skipn. intros x t Hin. unfold pairs in Hin.
    apply make_pairs_in in Hin. destruct Hin as [i [Hi [-> ->]]].
    destruct Hshape as [HN Hcells]. rewrite HN in Hi. split.
    + replace 30 with (i + 30 - i) at 2 by lia.
      apply (has_shape_slice data (len rest)); [split; assumption | lia ..].
    + replace 5 with (i + 30 + 5 - (i + 30)) at 2 by lia.
      apply (has_shape_slice data (len rest)); [split; assumption | lia ..].
Qed.

(* ================================================================== *)
(** * The dates of the validation and test partitions *)
(* ================================================================== *)

(** [data_split_symbol_and_date] never reads the dates of the
    validation and test partitions: the helper windows every file with
    the dates of the training partition. *)
Lemma data_split_ignores_val_and_test_dates
    (train_files val_files test_files : list string) (path : string)
    (train_start_date train_end_date : string)
    (val_start_date val_end_date test_start_date test_end_date : string)
    (val_start_date' val_end_date' test_start_date' test_end_date' : string)
    (x_length t_length : Z)
    (process_data_func : option (array -> result array)) :
  data_split_symbol_and_date train_files val_files test_files path
    train_start_date train_end_date val_start_date val_end_date
    test_start_date test_end_date x_length t_length process_data_func
  = data_split_symbol_and_date train_files val_files test_files path
      train_start_date train_end_date val_start_date' val_end_date'
      test_start_date' test_end_date' x_length t_length process_data_func.
Proof.
  unfold data_split_symbol_and_date, add_x_t_data. reflexivity.
Qed.

End Model.

Arguments has_shape {F}.
Arguments make_x_t_tuple_tensor_pairs_in_place {F}.
Arguments date_split {F}.
Arguments date_range_indices {F}.
Arguments get_data_within_date_range {F}.
Arguments window_of {F}.
Arguments adjacent_window_of {F}.
Arguments etfs_test {rng A}.
Arguments etfs_val {rng A}.
Arguments etfs_train {rng A}.
Arguments etfs_after {rng A}.
Arguments rng_after {rng A}.

(* ================================================================== *)
(** * The statements on concrete inputs *)
(* ================================================================== *)

Open Scope string_scope.

Lemma sample_shuffle_permutation (A : Type) (l : list A) (g : Sample.rng) :
  Permutation l (fst (Sample.shuffle A l g)).
Proof. unfold Sample.shuffle. cbn [fst]. apply Permutation_rev. Qed.

Lemma sample_randint_range (a b : Z) (g : Sample.rng) :
  a <= b -> a <= fst (Sample.randint a b g) <= b.
Proof.
  intros H. unfold Sample.randint. cbn [fst].
  pose proof (Z.mod_pos_bound g (b - a + 1)). lia.
Qed.

(** The second window of a series of four rows, with one row in and one
    row out. *)
Lemma make_pairs_shape_on_four_rows :
  has_shape [[2]] 1 1 /\ has_shape [[3]] 1 1 /\
  exists i, 0 <= i /\ i + 1 + 1 < 4
    /\ [[2]] = slice Sample.four_rows (Some i) (Some (i + 1))
    /\ [[3]] = slice Sample.four_rows (Some (i + 1)) (Some (i + 1 + 1)).
Proof.
  apply (make_pairs_shape_and_adjacency Z Sample.four_rows 4 1 1 1
           [[2]] [[3]]).
  - split; [reflexivity | repeat constructor].
  - lia.
  - lia.
  - simpl. right. left. reflexivity.
Defined.

(** The three segments of a series of seven rows that reaches the six
    boundaries. *)
Lemma segments_disjoint_on_seven_rows :
  exists s,
    date_split Sample.seven_dates Sample.seven_rows
      Sample.train_start Sample.train_end Sample.val_start Sample.val_end
      Sample.test_start Sample.test_end = Ok s
    /\ slices_disjoint (len Sample.seven_rows) (train_bounds s)
         (val_bounds s)
    /\ slices_disjoint (len Sample.seven_rows) (train_bounds s)
         (test_bounds s)
    /\ slices_disjoint (len Sample.seven_rows) (val_bounds s)
         (test_bounds s).
Proof.
  eapply (date_split_segments_disjoint Z Sample.seven_dates
            Sample.seven_rows); reflexivity.
Defined.

(** The rows of a series with a row before the training range and a row
    between the training and the validation range. *)
Lemma rows_dropped_on_gap_series :
  exists s,
    date_split Sample.gap_dates Sample.gap_rows
      "2000-01-01" "2014-01-01" "2014-01-02" "2015-06-01"
      "2015-06-01" "2030-01-01" = Ok s
    /\ forall (j : Z) (d : datetime),
         date_at
           [mkdate 1999 12 31; mkdate 2013 12 31; mkdate 2014 1 1;
            mkdate 2014 1 2; mkdate 2015 6 1; mkdate 2015 6 2] j = Some d ->
         j <> train_start_index s ->
         (val_end_index s = -1 -> j <> len Sample.gap_rows - 1) ->
         ge d (mkdate 2000 1 1) = false
         \/ (ge d (mkdate 2014 1 1) = true /\ ge d (mkdate 2014 1 2) = false) ->
         ~ in_slice (len Sample.gap_rows) (train_bounds s) j
         /\ ~ in_slice (len Sample.gap_rows) (val_bounds s) j
         /\ ~ in_slice (len Sample.gap_rows) (test_bounds s) j.
Proof.
  eapply (date_split_drops_rows_outside_ranges Z Sample.gap_dates
            Sample.gap_rows); reflexivity.
Defined.

(** A window returned for the directory of the two sample files lies in
    one of them. *)
Lemma window_of_file_w :
  exists data_files file file_dates file_data,
    Sample.listdir "data" = Ok data_files
    /\ In file data_files
    /\ load_price_data_into_numpy_array Z Sample.read_csv Sample.float32
         file "data" None = Ok (file_dates, file_data)
    /\ window_of file_data [[11]] [[12]]
    /\ (0 < 1 -> 0 < 1 -> adjacent_window_of file_data 1 1 [[11]] [[12]]).
Proof.
  apply (proj1 (windows_stay_within_one_file Z Sample.read_csv
                  Sample.float32 Sample.listdir)
           "data" 1 1 Sample.train_start Sample.train_end Sample.val_start
           Sample.val_end Sample.test_start Sample.test_end None
           [([[1]], [[2]]); ([[11]], [[12]])] [] []).
  - vm_compute. reflexivity.
  - simpl. right. left. reflexivity.
Defined.

(** Ten names split 2/2/6. *)
Lemma split_etfs_partition_on_ten_names :
  Permutation
    (etfs_test
       (split_etfs Sample.rng Sample.seed_state Sample.shuffle
          Sample.ten_names true 42 0)
     ++ etfs_val
          (split_etfs Sample.rng Sample.seed_state Sample.shuffle
             Sample.ten_names true 42 0)
     ++ etfs_train
          (split_etfs Sample.rng Sample.seed_state Sample.shuffle
             Sample.ten_names true 42 0))%list
    Sample.ten_names
  /\ len (etfs_test
            (split_etfs Sample.rng Sample.seed_state Sample.shuffle
               Sample.ten_names true 42 0)) = 2
  /\ len (etfs_val
            (split_etfs Sample.rng Sample.seed_state Sample.shuffle
               Sample.ten_names true 42 0)) = 2
  /\ len (etfs_train
            (split_etfs Sample.rng Sample.seed_state Sample.shuffle
               Sample.ten_names true 42 0)) = 6.
Proof.
  pose proof (split_etfs_partition Sample.rng Sample.seed_state
                Sample.shuffle sample_shuffle_permutation string
                Sample.ten_names true 42 0) as H.
  cbv zeta in H. destruct H as (Hperm & Htest & Hval & Htrain & _).
  repeat split; assumption.
Defined.

(** Half as many examples are appended to a list of four. *)
Lemma augment_appends_to_four_points :
  exists data' g' w',
    augment Z Sample.rng Sample.seed_state Sample.randint Z
      Sample.four_points Sample.swap_point PyFloat.half 42 0 0
    = Ok (data', g', w')
    /\ len data' = len Sample.four_points + 2
    /\ firstn (length Sample.four_points) data' = Sample.four_points
    /\ Forall
         (fun new_point =>
            exists i data_point w1 w2,
              0 <= i < len Sample.four_points
              /\ nth_error Sample.four_points (Z.to_nat i) = Some data_point
              /\ Sample.swap_point data_point w1 = (new_point, w2))
         (skipn (length Sample.four_points) data').
Proof.
  apply (augment_only_appends Z Sample.rng Sample.seed_state Sample.randint
           sample_randint_range Z Sample.four_points Sample.swap_point
           PyFloat.half 42 2 0 0).
  - vm_compute. reflexivity.
  - vm_compute. reflexivity.
Defined.

(** The indices drawn for a list of four examples and the seed 42. *)
Lemma augment_indices_on_four_points :
  exists idxs,
    idxs = augment_indices Sample.rng Sample.seed_state Sample.randint
             (len Sample.four_points) 2 42
    /\ forall (augment_func :
                 x_t_pair Z -> Z -> x_t_pair Z * Z)
              (g : Sample.rng) (w : Z),
         exists g' w',
           augment Z Sample.rng Sample.seed_state Sample.randint Z
             Sample.four_points augment_func PyFloat.half 42 g w
           = Ok ((Sample.four_points
                    ++ fst (augment_with Z Z augment_func Sample.four_points
                              idxs w))%list,
                 g', w').
Proof.
  apply (proj2 (proj2 (seeded_operations_deterministic Z Sample.rng
                         Sample.seed_state Sample.shuffle Sample.randint
                         sample_randint_range Z))
           Sample.four_points PyFloat.half 42 2).
  vm_compute. reflexivity.
Defined.

(** C1: in [data_split_symbol_and_date] the validation and the test
    list should be filtered by the dates of their own partition.  On the
    sample file, whose rows are dated 2010, 2011 and 2012, with the
    training range the year 2010, the validation range 2011 and the test
    range 2012, the validation and test lists returned hold the window of
    the rows of 2010, where the validation range selects the window of
    the rows of 2011 and the test range selects none. *)
Theorem val_and_test_windowed_by_train_dates :
  data_split_symbol_and_date Z Sample.read_csv Sample.float32
    [] ["v.txt"] ["v.txt"] "data"
    Sample.train_start Sample.train_end Sample.val_start Sample.val_end
    Sample.test_start Sample.test_end 1 1 None
  = Ok ([], [([[1]], [[2]])], [([[1]], [[2]])])
  /\ load_price_data_into_numpy_array Z Sample.read_csv Sample.float32
       "v.txt" "data" None
     = Ok (["2010-01-04"; "2010-01-05"; "2010-01-06"; "2011-01-03";
            "2011-01-04"; "2011-01-05"; "2012-01-03"],
           [[1]; [2]; [3]; [4]; [5]; [6]; [7]])
  /\ get_data_within_date_range
       ["2010-01-04"; "2010-01-05"; "2010-01-06"; "2011-01-03";
        "2011-01-04"; "2011-01-05"; "2012-01-03"]
       [[1]; [2]; [3]; [4]; [5]; [6]; [7]] 1 1
       Sample.val_start Sample.val_end
     = Ok [([[4]], [[5]])]
  /\ get_data_within_date_range
       ["2010-01-04"; "2010-01-05"; "2010-01-06"; "2011-01-03";
        "2011-01-04"; "2011-01-05"; "2012-01-03"]
       [[1]; [2]; [3]; [4]; [5]; [6]; [7]] 1 1
       Sample.test_start Sample.test_end
     = Ok [].
Proof.
  repeat split; vm_compute; reflexivity.
Qed.

(** C2: [get_data_within_date_range] should slice exactly the rows with
    [start_date <= date < end_date].  Three sorted series on which it does
    not: with [start_date = end_date] the row of that date is selected;
    when no row reaches [end_date] the last row, which is in the range, is
    left out; when the first row on or after [start_date] is already on
    or after [end_date], that row is selected. *)
Theorem date_range_slice_is_not_the_range :
  (date_range_indices ["2020-01-05"; "2020-01-06"] [[1]; [2]]
     "2020-01-05" "2020-01-05" = Ok (0, 1)
   /\ slice [[1]; [2]] (Some 0) (Some 1) = [[1]])
  /\ (date_range_indices ["2020-01-01"; "2020-01-02"; "2020-01-03"]
        [[1]; [2]; [3]] "2020-01-01" "2020-01-10" = Ok (0, -1)
      /\ slice [[1]; [2]; [3]] (Some 0) (Some (-1)) = [[1]; [2]])
  /\ (date_range_indices ["2020-01-01"; "2020-02-01"; "2020-02-02"]
        [[1]; [2]; [3]] "2020-01-10" "2020-01-20" = Ok (1, 2)
      /\ slice [[1]; [2]; [3]] (Some 1) (Some 2) = [[2]]).
Proof.
  repeat split; vm_compute; reflexivity.
Qed.

(** C9: [date_add_to_train_val_test] should leave the rows dated before
    [train_start_date], or from [train_end_date] up to [val_start_date],
    out of its three segments (its docstring: data before
    [train_end_date] into train, data from [val_end_date] onwards into
    test).  Two sorted series on which, with the default boundaries of
    [date_make_train_val_test_data], it does not.  The only row of the
    first is dated 1999, before [train_start_date]: [val_end_index] keeps
    the sentinel -1 and [data[val_end_index:]] is [data[-1:]], so the row
    is the test segment.  The first row of the second is dated
    [train_end_date]: it sets [train_start_index], the [elif] never
    tests it against [train_end_date], and it is the train segment. *)
Theorem rows_outside_ranges_kept :
  (exists s,
     date_split ["1999-01-04"] [[1]]
       "2000-01-01" "2014-01-01" "2014-01-02" "2015-06-01"
       "2015-06-01" "2030-01-01" = Ok s
     /\ ge (mkdate 1999 1 4) (mkdate 2000 1 1) = false
     /\ val_end_index s = -1
     /\ slice [[1]] (fst (test_bounds s)) (snd (test_bounds s)) = [[1]]
     /\ in_slice 1 (test_bounds s) 0)
  /\ (exists s,
        date_split
          ["2014-01-01"; "2014-01-03"; "2014-01-06"; "2015-06-01";
           "2015-06-02"]
          [[1]; [2]; [3]; [4]; [5]]
          "2000-01-01" "2014-01-01" "2014-01-02" "2015-06-01"
          "2015-06-01" "2030-01-01" = Ok s
        /\ ge (mkdate 2014 1 1) (mkdate 2014 1 1) = true
        /\ ge (mkdate 2014 1 1) (mkdate 2014 1 2) = false
        /\ train_start_index s = 0 /\ train_end_index s = 1
        /\ slice [[1]; [2]; [3]; [4]; [5]]
             (fst (train_bounds s)) (snd (train_bounds s)) = [[1]]
        /\ in_slice 5 (train_bounds s) 0).
Proof.
  split; eexists;
    (split; [vm_compute; reflexivity |]);
    vm_compute; intuition discriminate.
Qed.

(** The order of the boundaries matters to
    [date_split_drops_rows_outside_ranges]: with a validation range
    that starts before the training range, a row before
    [train_start_date] is in the val segment. *)
Lemma unordered_boundaries_keep_rows :
  exists s,
    date_split
      ["2001-01-01"; "2002-01-01"; "2003-01-01"; "2031-01-01";
       "2032-01-01"]
      [[1]; [2]; [3]; [4]; [5]]
      "2010-01-01" "2020-01-01" "2000-01-01" "2030-01-01"
      "2040-01-01" "2050-01-01" = Ok s
    /\ ge (mkdate 2002 1 1) (mkdate 2010 1 1) = false
    /\ 1 <> 5 - 1 /\ 1 <> train_start_index s
    /\ in_slice 5 (val_bounds s) 1.
Proof.
  eexists; (split; [vm_compute; reflexivity |]);
    vm_compute; intuition discriminate.
Qed.


(* ================================================================== *)
(** * Further statements on concrete inputs *)
(* ================================================================== *)

(** The sample file [v.txt] loads into seven dates and seven rows of
    one cell. *)
Lemma load_arrays_of_file_v :
  len ["2010-01-04"; "2010-01-05"; "2010-01-06"; "2011-01-03";
       "2011-01-04"; "2011-01-05"; "2012-01-03"]
  = len Sample.file_v - 1
  /\ exists raw,
       has_shape raw (len Sample.file_v - 1) (len (hd [] Sample.file_v) - 1)
       /\ Forall2
            (fun r cells =>
               Forall2 (fun c x => Sample.float32 c = Some x) (tl r) cells)
            (tl Sample.file_v) raw
       /\ [[1]; [2]; [3]; [4]; [5]; [6]; [7]] = raw.
Proof.
  destruct (load_price_data_arrays Z Sample.read_csv Sample.float32
              "v.txt" "data" None Sample.file_v
              ["2010-01-04"; "2010-01-05"; "2010-01-06"; "2011-01-03";
               "2011-01-04"; "2011-01-05"; "2012-01-03"]
              [[1]; [2]; [3]; [4]; [5]; [6]; [7]]
              eq_refl eq_refl) as (_ & Hlen & _ & Hraw).
  split; [exact Hlen | exact Hraw].
Defined.

(** Two rows of six cells keep their first four cells. *)
Lemma columns_removed_from_two_rows :
  has_shape
    (remove_volume_open_interest Z
       [[1; 2; 3; 4; 5; 6]; [7; 8; 9; 10; 11; 12]]) 2 (Z.max 0 (6 - 2))
  /\ forall (i : nat) (row : list Z),
       nth_error [[1; 2; 3; 4; 5; 6]; [7; 8; 9; 10; 11; 12]] i = Some row ->
       nth_error
         (remove_volume_open_interest Z
            [[1; 2; 3; 4; 5; 6]; [7; 8; 9; 10; 11; 12]]) i
       = Some (firstn (length row - 2) row).
Proof.
  apply (remove_volume_open_interest_columns Z
           [[1; 2; 3; 4; 5; 6]; [7; 8; 9; 10; 11; 12]] 2 6).
  split; [reflexivity | repeat constructor].
Defined.

(** The indices found in the series of six rows for the training range
    of the sample dates. *)
Lemma indices_found_on_six_rows :
  exists start_index end_index,
    date_range_indices Sample.six_dates Sample.six_rows
      Sample.train_start Sample.train_end = Ok (start_index, end_index)
    /\ (start_index <> -1 ->
        exists d,
          date_at
            [mkdate 2010 6 1; mkdate 2011 1 3; mkdate 2011 3 1;
             mkdate 2011 9 1; mkdate 2012 2 1; mkdate 2012 8 1]
            start_index = Some d
          /\ ge d (mkdate 2010 1 1) = true).
Proof.
  destruct (date_range_indices_found Z Sample.six_dates Sample.six_rows
              [mkdate 2010 6 1; mkdate 2011 1 3; mkdate 2011 3 1;
               mkdate 2011 9 1; mkdate 2012 2 1; mkdate 2012 8 1]
              Sample.train_start Sample.train_end
              (mkdate 2010 1 1) (mkdate 2011 1 1)
              eq_refl eq_refl eq_refl eq_refl)
    as (si & ei & Hrun & _ & Hsome & _).
  exists si, ei. split; [exact Hrun |].
  intros Hne. destruct (Hsome Hne) as [Hd _]. exact Hd.
Defined.


(** The rows selected in the series of six rows for the year 2010. *)
Lemma slice_sound_on_six_rows :
  exists start_index end_index,
    date_range_indices Sample.six_dates Sample.six_rows
      Sample.train_start Sample.train_end = Ok (start_index, end_index)
    /\ forall j d,
         date_at
           [mkdate 2010 6 1; mkdate 2011 1 3; mkdate 2011 3 1;
            mkdate 2011 9 1; mkdate 2012 2 1; mkdate 2012 8 1] j = Some d ->
         in_slice (len Sample.six_rows) (Some start_index, Some end_index) j ->
         ge d (mkdate 2010 1 1) = true
         /\ (j <> start_index -> ge d (mkdate 2011 1 1) = false).
Proof.
  apply (date_range_slice_sound Z Sample.six_dates Sample.six_rows
           [mkdate 2010 6 1; mkdate 2011 1 3; mkdate 2011 3 1;
            mkdate 2011 9 1; mkdate 2012 2 1; mkdate 2012 8 1]
           Sample.train_start Sample.train_end
           (mkdate 2010 1 1) (mkdate 2011 1 1));
    reflexivity.
Defined.

(** The rows of the year 2011 are all selected in the series of six
    rows. *)
Lemma slice_complete_on_six_rows :
  exists start_index end_index,
    date_range_indices Sample.six_dates Sample.six_rows
      Sample.val_start Sample.val_end = Ok (start_index, end_index)
    /\ forall j d,
         date_at
           [mkdate 2010 6 1; mkdate 2011 1 3; mkdate 2011 3 1;
            mkdate 2011 9 1; mkdate 2012 2 1; mkdate 2012 8 1] j = Some d ->
         ge d (mkdate 2011 1 1) = true -> ge d (mkdate 2012 1 1) = false ->
         (end_index = -1 -> j <> len Sample.six_rows - 1) ->
         in_slice (len Sample.six_rows) (Some start_index, Some end_index) j.
Proof.
  apply (date_range_slice_complete Z Sample.six_dates Sample.six_rows
           [mkdate 2010 6 1; mkdate 2011 1 3; mkdate 2011 3 1;
            mkdate 2011 9 1; mkdate 2012 2 1; mkdate 2012 8 1]
           Sample.val_start Sample.val_end
           (mkdate 2011 1 1) (mkdate 2012 1 1));
    reflexivity.
Defined.

(** In the series of six rows the row dated 2011-01-03, the first of
    the validation range, is the row of [train_end_index]. *)
Lemma row_of_train_end_dropped_on_six_rows :
  exists s,
    date_split Sample.six_dates Sample.six_rows
      Sample.train_start Sample.train_end Sample.val_start Sample.val_end
      Sample.test_start Sample.test_end = Ok s
    /\ (train_end_index s <> -1 ->
        (val_end_index s = -1 ->
         train_end_index s <> len Sample.six_rows - 1) ->
        (exists d,
           date_at
             [mkdate 2010 6 1; mkdate 2011 1 3; mkdate 2011 3 1;
              mkdate 2011 9 1; mkdate 2012 2 1; mkdate 2012 8 1]
             (train_end_index s) = Some d
           /\ ge d (mkdate 2011 1 1) = true)
        /\ ~ in_slice (len Sample.six_rows) (train_bounds s)
               (train_end_index s)
        /\ ~ in_slice (len Sample.six_rows) (val_bounds s)
               (train_end_index s)
        /\ ~ in_slice (len Sample.six_rows) (test_bounds s)
               (train_end_index s)).
Proof.
  eapply (date_split_drops_row_of_train_end Z Sample.six_dates
            Sample.six_rows); reflexivity.
Defined.

(** The dates of the rows of the three segments of the series of seven
    rows. *)
Lemma segments_in_ranges_on_seven_rows :
  exists s,
    date_split Sample.seven_dates Sample.seven_rows
      Sample.train_start Sample.train_end Sample.val_start Sample.val_end
      Sample.test_start Sample.test_end = Ok s
    /\ forall (j : Z) (d : datetime),
         date_at
           [mkdate 2010 6 1; mkdate 2010 12 1; mkdate 2011 3 1;
            mkdate 2011 9 1; mkdate 2012 2 1; mkdate 2012 8 1;
            mkdate 2013 1 2] j = Some d ->
         (in_slice (len Sample.seven_rows) (train_bounds s) j ->
          ge d (mkdate 2010 1 1) = true
          /\ (j <> train_start_index s -> ge d (mkdate 2011 1 1) = false))
         /\ (in_slice (len Sample.seven_rows) (val_bounds s) j ->
             ge d (mkdate 2011 1 1) = true
             /\ (j <> val_start_index s -> ge d (mkdate 2012 1 1) = false))
         /\ (in_slice (len Sample.seven_rows) (test_bounds s) j ->
             val_end_index s <> -1 -> ge d (mkdate 2012 1 1) = true).
Proof.
  eapply (date_split_segments_in_their_ranges Z Sample.seven_dates
            Sample.seven_rows); reflexivity.
Defined.

(** Other test dates give the same lists for the series of seven
    rows. *)
Lemma test_dates_ignored_on_seven_rows :
  date_add_to_train_val_test Z Sample.seven_dates Sample.seven_rows
    [] [] [] Sample.train_start Sample.train_end Sample.val_start
    Sample.val_end Sample.test_start Sample.test_end 1 1
  = date_add_to_train_val_test Z Sample.seven_dates Sample.seven_rows
      [] [] [] Sample.train_start Sample.train_end Sample.val_start
      Sample.val_end "1990-01-01" "1990-01-02" 1 1.
Proof.
  apply (date_add_ignores_test_dates Z Sample.seven_dates Sample.seven_rows
           [] [] [] Sample.train_start Sample.train_end Sample.val_start
           Sample.val_end Sample.test_start Sample.test_end
           "1990-01-01" "1990-01-02"
           (mkdate 2012 1 1) (mkdate 2013 1 1)
           (mkdate 1990 1 1) (mkdate 1990 1 2) 1 1);
    reflexivity.
Defined.

(** Three dates for four rows. *)
Lemma short_column_raises_on_four_rows :
  get_data_within_date_range Sample.early_dates Sample.four_rows 1 1
    Sample.train_start Sample.train_end = Raise IndexError.
Proof.
  apply (proj2 (short_date_column_raises_index_error Z Sample.early_dates
                  Sample.four_rows
                  [mkdate 2008 1 2; mkdate 2009 1 2; mkdate 2009 6 1]
                  eq_refl ltac:(vm_compute; reflexivity))
           1 1 Sample.train_start Sample.train_end
           (mkdate 2010 1 1) (mkdate 2011 1 1));
    reflexivity.
Defined.

(** The lists for the sample directory are those of its two files, one
    after the other. *)
Lemma sample_directory_concatenates :
  exists data_files per_file,
    Sample.listdir "data" = Ok data_files
    /\ Forall2
         (fun file r =>
            exists file_dates file_data,
              load_price_data_into_numpy_array Z Sample.read_csv
                Sample.float32 file "data" None
              = Ok (file_dates, file_data)
              /\ date_add_to_train_val_test Z file_dates file_data [] [] []
                   Sample.train_start Sample.train_end Sample.val_start
                   Sample.val_end Sample.test_start Sample.test_end 1 1
                 = Ok r)
         data_files per_file
    /\ [([[1]], [[2]]); ([[11]], [[12]])]
       = concat (map (fun r => fst (fst r)) per_file)
    /\ [] = concat (map (fun r => snd (fst r)) per_file)
    /\ [] = concat (map snd per_file).
Proof.
  apply (date_make_concatenates_files Z Sample.read_csv Sample.float32
           Sample.listdir "data" 1 1
           Sample.train_start Sample.train_end Sample.val_start
           Sample.val_end Sample.test_start Sample.test_end None
           [([[1]], [[2]]); ([[11]], [[12]])] [] []).
  vm_compute. reflexivity.
Defined.

(** The sample directory is processed without an exception. *)
Lemma sample_directory_returns :
  exists train val test,
    date_make_train_val_test_data Z Sample.read_csv Sample.float32
      Sample.listdir "data" 30 5
      Sample.train_start Sample.train_end Sample.val_start Sample.val_end
      Sample.test_start Sample.test_end None
    = Ok (train, val, test).
Proof.
  eapply (date_make_returns Z Sample.read_csv Sample.float32 Sample.listdir
            "data" 30 5
            Sample.train_start Sample.train_end Sample.val_start
            Sample.val_end Sample.test_start Sample.test_end);
    try reflexivity.
  constructor; [| constructor; [| constructor]];
    (eexists; eexists; eexists;
     split; [vm_compute; reflexivity |];
     split; [vm_compute; reflexivity | exact I]).
Defined.

(** The validation list of the sample split is made file by file with
    the training dates. *)
Lemma sample_split_concatenates :
  exists per_file,
    Forall2
      (fun file to_add =>
         exists dates_array data_array,
           load_price_data_into_numpy_array Z Sample.read_csv Sample.float32
             file "data" None = Ok (dates_array, data_array)
           /\ get_data_within_date_range dates_array data_array 1 1
                Sample.train_start Sample.train_end = Ok to_add)
      ["v.txt"] per_file
    /\ [([[1]], [[2]])] = concat per_file.
Proof.
  apply (data_split_concatenates_files Z Sample.read_csv Sample.float32
           [] ["v.txt"] ["v.txt"] "data"
           Sample.train_start Sample.train_end Sample.val_start
           Sample.val_end Sample.test_start Sample.test_end 1 1 None
           [] [([[1]], [[2]])] [([[1]], [[2]])]).
  - vm_compute. reflexivity.
  - right. left. reflexivity.
Defined.

(** Five names all go to train. *)
Lemma five_names_all_train :
  etfs_test
    (split_etfs Sample.rng Sample.seed_state Sample.shuffle
       Sample.five_names true 42 0) = []
  /\ etfs_val
       (split_etfs Sample.rng Sample.seed_state Sample.shuffle
          Sample.five_names true 42 0) = []
  /\ etfs_train
       (split_etfs Sample.rng Sample.seed_state Sample.shuffle
          Sample.five_names true 42 0)
     = etfs_after
         (split_etfs Sample.rng Sample.seed_state Sample.shuffle
            Sample.five_names true 42 0).
Proof.
  apply (split_etfs_of_few_names Sample.rng Sample.seed_state
           Sample.shuffle string Sample.five_names true 42 0).
  vm_compute. reflexivity.
Defined.

(** [augment] returns on the list of four examples. *)
Lemma augment_returns_on_four_points :
  match num_new_examples_of PyFloat.half (len Sample.four_points) with
  | Raise e =>
      augment Z Sample.rng Sample.seed_state Sample.randint Z
        Sample.four_points Sample.swap_point PyFloat.half 42 0 0 = Raise e
  | Ok k =>
      exists data' g' w',
        augment Z Sample.rng Sample.seed_state Sample.randint Z
          Sample.four_points Sample.swap_point PyFloat.half 42 0 0
        = Ok (data', g', w')
  end.
Proof.
  exact (augment_raises_only_from_floor Z Sample.rng Sample.seed_state
           Sample.randint sample_randint_range Z Sample.four_points
           Sample.swap_point PyFloat.half 42 0 0).
Defined.

(** Half of one example is no example. *)
Lemma augment_appends_nothing_to_one_point :
  augment Z Sample.rng Sample.seed_state Sample.randint Z
    [([[1]], [[2]])] Sample.swap_point PyFloat.half 42 7 0
  = Ok ([([[1]], [[2]])], Sample.seed_state 42, 0).
Proof.
  apply (augment_appends_nothing Z Sample.rng Sample.seed_state
           Sample.randint Z [([[1]], [[2]])] Sample.swap_point
           PyFloat.half 42 0 7 0).
  - vm_compute. reflexivity.
  - lia.
Defined.

(** The second pair of the series of four rows starts at its second
    row. *)
Lemma second_pair_of_four_rows :
  nth_error (make_x_t_tuple_tensor_pairs_in_place Sample.four_rows 1 1) 1
  = Some (slice Sample.four_rows (Some (Z.of_nat 1))
            (Some (Z.of_nat 1 + 1)),
          slice Sample.four_rows (Some (Z.of_nat 1 + 1))
            (Some (Z.of_nat 1 + 1 + 1))).
Proof.
  apply (make_pairs_in_row_order Z Sample.four_rows 1 1 1).
  vm_compute. reflexivity.
Defined.

(** The loaders built from a file of seven columns and 38 rows: three
    windows of four features, all in the first loader. *)
Lemma train_main_loaders_on_aadr :
  exists train_loader valid_loader (data : list (list Z)),
    train_main_loaders Z Sample.read_csv_etfs Sample.float32
    = Ok (train_loader, valid_loader)
    /\ has_shape data (len Sample.aadr_file - 1) (Z.max 0 (7 - 3))
    /\ len train_loader
       = Z.min 1000 (Z.max 0 (len Sample.aadr_file - 1 - 35))
    /\ forall x t, In (x, t) (train_loader ++ valid_loader)%list ->
         has_shape x 30 (Z.max 0 (7 - 3))
         /\ has_shape t 5 (Z.max 0 (7 - 3)).
Proof.
  destruct (train_main_loaders Z Sample.read_csv_etfs Sample.float32)
    as [[train_loader valid_loader] | e] eqn:E;
    [| vm_compute in E; discriminate E].
  destruct (train_main_loaders_shape Z Sample.read_csv_etfs Sample.float32
              Sample.aadr_file 7 train_loader valid_loader
              eq_refl eq_refl E)
    as (data & Hshape & _ & Hlen & Hall).
  exists train_loader, valid_loader, data. auto.
Defined.

(** The train list of the series of six rows, both ways. *)
Lemma train_list_both_ways_on_six_rows :
  exists to_add val' test',
    get_data_within_date_range Sample.six_dates Sample.six_rows 1 0
      Sample.train_start Sample.train_end = Ok to_add
    /\ date_add_to_train_val_test Z Sample.six_dates Sample.six_rows
         [] [] []
         Sample.train_start Sample.train_end Sample.val_start Sample.val_end
         Sample.test_start Sample.test_end 1 0
       = Ok (([] ++ to_add)%list, val', test').
Proof.
  eapply (train_list_is_the_date_range_of_train_dates Z Sample.six_dates
            Sample.six_rows); reflexivity.
Defined.

End DataProcess.
